(** * Cell-identifier reconciliation: a shallow embedding of the three scripts

    The repository holds three variants of one reconciliation script:
    [test.py] (command-line driven), [test2.py] (configured by module
    constants) and [parse_excel_access.py] (a column combiner).  Each is
    embedded below in a module of its own ([Test], [Test2],
    [ParseExcelAccess]) on top of a common model of the Python primitives
    they call ([Py]).

    Modelling conventions.
    - Text is a [string] of 8-bit characters; the case mappings and the
      white-space class are those of Python restricted to ASCII.
    - A Python [int] is a [Z]; a Python [float] is a sign, a magnitude and
      a binary exponent, or an infinity, or NaN.
    - A width is a [nat]: the format mini-language has no negative width.
    - A raised exception is the [Raise] branch of [result]; [try]/[except]
      is [try_except].
    - The interpreter's configurable limit on the number of digits in
      int/str conversions is not modelled. *)

From Stdlib Require Import ZArith NArith Lia Ascii String List Bool.
From stdpp Require Import base decidable list gmap strings.

Local Open Scope Z_scope.

(** ** Python primitives *)

Module Py.

(** *** Exceptions *)

(** What an exception's message reports.  The scripts build their messages
    with f-strings; only the data that enters a message is kept. *)
Inductive message : Type :=
  | NoMessage
  | ColumnMissing (target : string) (columns : list string)
  | ColumnMissingOnAllSheets (column : string)
      (tried : list (string * list string)).

Inductive exn : Type :=
  | ValueError
  | OverflowError
  | TypeError
  | KeyError (msg : message)
  | SystemExit (msg : message).

Inductive result (A : Type) : Type :=
  | Ok (a : A)
  | Raise (e : exn).
Arguments Ok {A} a.
Arguments Raise {A} e.

Definition bind {A B} (r : result A) (k : A -> result B) : result B :=
  match r with
  | Ok a => k a
  | Raise e => Raise e
  end.

(** [SystemExit] does not derive from [Exception]. *)
Definition is_exception (e : exn) : bool :=
  match e with
  | SystemExit _ => false
  | _ => true
  end.

(** [try: r except Exception: h] *)
Definition try_except {A} (r : result A) (h : result A) : result A :=
  match r with
  | Ok a => Ok a
  | Raise e => if is_exception e then h else Raise e
  end.

Definition is_ok {A} (r : result A) : bool :=
  match r with Ok _ => true | Raise _ => false end.

Notation "x <- e ;; k" := (bind e (fun x => k))
  (at level 100, e at next level, right associativity).

Fixpoint mapM {A B} (f : A -> result B) (l : list A) : result (list B) :=
  match l with
  | [] => Ok []
  | x :: l' => y <- f x ;; ys <- mapM f l' ;; Ok (y :: ys)
  end.

(** *** Characters *)

(** [str.isspace] on one ASCII character: TAB..CR, FS..US and the space. *)
Definition is_space (c : ascii) : bool :=
  let n := N_of_ascii c in
  ((9 <=? n) && (n <=? 13) || (28 <=? n) && (n <=? 32))%N.

(** The white space that [int] and [float] skip around a literal: TAB..CR
    and the space. *)
Definition is_c_space (c : ascii) : bool :=
  let n := N_of_ascii c in
  ((9 <=? n) && (n <=? 13) || (n =? 32))%N.

Definition is_digit (c : ascii) : bool :=
  let n := N_of_ascii c in ((48 <=? n) && (n <=? 57))%N.

Definition digit_val (c : ascii) : Z := Z.of_N (N_of_ascii c) - 48.

Definition upper_char (c : ascii) : ascii :=
  let n := N_of_ascii c in
  if ((97 <=? n) && (n <=? 122))%N then ascii_of_N (n - 32) else c.

Definition lower_char (c : ascii) : ascii :=
  let n := N_of_ascii c in
  if ((65 <=? n) && (n <=? 90))%N then ascii_of_N (n + 32) else c.

(** *** Strings *)

Fixpoint str_map (f : ascii -> ascii) (s : string) : string :=
  match s with
  | EmptyString => EmptyString
  | String c r => String (f c) (str_map f r)
  end.

Fixpoint str_filter (p : ascii -> bool) (s : string) : string :=
  match s with
  | EmptyString => EmptyString
  | String c r => if p c then String c (str_filter p r) else str_filter p r
  end.

Fixpoint str_all (p : ascii -> bool) (s : string) : bool :=
  match s with
  | EmptyString => true
  | String c r => p c && str_all p r
  end.

(** [s.upper()], [s.lower()] *)
Definition upper : string -> string := str_map upper_char.
Definition lower : string -> string := str_map lower_char.

(** [re.sub(r"\s+", "", s)]: every maximal run of white space is deleted. *)
Definition remove_ws : string -> string :=
  str_filter (fun c => negb (is_space c)).

Fixpoint lstrip_by (p : ascii -> bool) (s : string) : string :=
  match s with
  | EmptyString => EmptyString
  | String c r => if p c then lstrip_by p r else s
  end.

Fixpoint rstrip_by (p : ascii -> bool) (s : string) : string :=
  match s with
  | EmptyString => EmptyString
  | String c r =>
      match rstrip_by p r with
      | EmptyString => if p c then EmptyString else String c EmptyString
      | r' => String c r'
      end
  end.

Definition strip_by (p : ascii -> bool) (s : string) : string :=
  rstrip_by p (lstrip_by p s).

(** [s.strip()] *)
Definition strip : string -> string := strip_by is_space.

Fixpoint zeros (n : nat) : string :=
  match n with
  | O => EmptyString
  | S k => String "0" (zeros k)
  end.

(** [s.zfill(width)]: zeros go after a leading sign. *)
Definition zfill (s : string) (width : nat) : string :=
  let pad := zeros (width - String.length s) in
  match s with
  | String c r =>
      if (Ascii.eqb c "+" || Ascii.eqb c "-")%bool
      then String c (pad +:+ r)
      else pad +:+ s
  | EmptyString => pad
  end.

(** [a in b] on strings *)
Fixpoint is_substring (a b : string) : bool :=
  String.prefix a b ||
  match b with
  | EmptyString => false
  | String _ r => is_substring a r
  end.

(** [s.replace(",", ".")] *)
Definition replace_comma : string -> string :=
  str_map (fun c => if Ascii.eqb c "," then "."%char else c).

(** *** Integers as text *)

Definition digit_char (d : N) : ascii :=
  match d with
  | 0 => "0" | 1 => "1" | 2 => "2" | 3 => "3" | 4 => "4"
  | 5 => "5" | 6 => "6" | 7 => "7" | 8 => "8" | 9 => "9"
  | 10 => "A" | 11 => "B" | 12 => "C" | 13 => "D" | 14 => "E"
  | _ => "F"
  end%N%char.

Fixpoint digits_fuel (fuel : nat) (b n : N) (acc : string) : string :=
  match fuel with
  | O => acc
  | S f =>
      let acc' := String (digit_char (n mod b)) acc in
      if (n / b =? 0)%N then acc' else digits_fuel f b (n / b) acc'
  end.

(** The digits of [n] in base [b], most significant first; ["0"] for 0. *)
Definition digits_of (b n : N) : string :=
  digits_fuel (S (N.to_nat (N.log2 n))) b n EmptyString.

Definition signed (z : Z) (body : string) : string :=
  if z <? 0 then String "-" body else body.

(** [str(z)] *)
Definition str_of_int (z : Z) : string := signed z (digits_of 10 (Z.abs_N z)).

(** [format(z, 'X')] *)
Definition hex_of_int (z : Z) : string := signed z (digits_of 16 (Z.abs_N z)).

(** A format spec [0{width}d] or [0{width}X]: the zero padding sits between
    the sign and the digits and the sign counts towards the width. *)
Definition format_zero (base : N) (z : Z) (width : nat) : string :=
  let ds := digits_of base (Z.abs_N z) in
  if z <? 0
  then String "-" (zeros (width - 1 - String.length ds) +:+ ds)
  else zeros (width - String.length ds) +:+ ds.

(** [f"{z:0{width}d}"] *)
Definition format_d (z : Z) (width : nat) : string := format_zero 10 z width.
(** [f"{z:0{width}X}"] *)
Definition format_X (z : Z) (width : nat) : string := format_zero 16 z width.

(** *** Text to integer *)

(** Underscores in a numeric literal must sit between two digits. *)
Fixpoint underscores_ok (prev_digit : bool) (s : string) : bool :=
  match s with
  | EmptyString => true
  | String c r =>
      if Ascii.eqb c "_"
      then prev_digit &&
           match r with
           | String c' _ => is_digit c'
           | EmptyString => false
           end && underscores_ok false r
      else underscores_ok (is_digit c) r
  end.

Definition remove_underscores : string -> string :=
  str_filter (fun c => negb (Ascii.eqb c "_")).

(** The value of a digit string read in base 10, given the value so far. *)
Fixpoint decimal_value (acc : Z) (s : string) : Z :=
  match s with
  | EmptyString => acc
  | String c r => decimal_value (10 * acc + digit_val c) r
  end.

(** A leading ["+"] or ["-"] and what follows it. *)
Definition split_sign (s : string) : bool * string :=
  match s with
  | String c r =>
      if Ascii.eqb c "-" then (true, r)
      else if Ascii.eqb c "+" then (false, r)
      else (false, s)
  | EmptyString => (false, s)
  end.

Definition is_empty (s : string) : bool :=
  match s with EmptyString => true | _ => false end.

(** [int(s)] for text [s], [None] standing for [ValueError]: surrounding
    white space is dropped, then an optional sign and a non-empty run of
    digits, possibly grouped by single underscores. *)
Definition int_of_string (s : string) : option Z :=
  let t := strip_by is_c_space s in
  if underscores_ok false t then
    let '(neg, body) := split_sign (remove_underscores t) in
    if negb (is_empty body) && str_all is_digit body
    then Some (if neg then - decimal_value 0 body else decimal_value 0 body)
    else None
  else None.

(** *** Floats *)

(** A finite float is [(-1)^neg * m * 2^e] with [0 <= m]; a binary64 has
    [m < 2^53] and [-1074 <= e <= 971]. *)
Inductive pyfloat : Type :=
  | FNan
  | FInf (neg : bool)
  | FFin (neg : bool) (m : Z) (e : Z).

(** [floor (log2 (n / d))] for positive [n], [d]. *)
Definition log2_ratio (n d : Z) : Z :=
  let e0 := Z.log2 n - Z.log2 d in
  if n * 2 ^ Z.max 0 (- e0) <? d * 2 ^ Z.max 0 e0 then e0 - 1 else e0.

(** The quotient [n / d] rounded to the nearest integer, ties to even. *)
Definition div_half_even (n d : Z) : Z :=
  let q := n / d in
  let r := n mod d in
  if 2 * r <? d then q
  else if d <? 2 * r then q + 1
  else if Z.even q then q else q + 1.

(** The binary64 nearest to [n / d] (for [0 <= n], [0 < d]) as mantissa and
    exponent; [None] when the rounded value is out of range. *)
Definition round_binary64 (n d : Z) : option (Z * Z) :=
  if n =? 0 then Some (0, 0)
  else
    let e := Z.max (log2_ratio n d - 52) (-1074) in
    let m := div_half_even (n * 2 ^ Z.max 0 (- e)) (d * 2 ^ Z.max 0 e) in
    if 1024 <=? Z.log2 m + e then None else Some (m, e).

(** The float nearest to the signed ratio; overflow gives an infinity, as
    when text is parsed. *)
Definition float_of_ratio (neg : bool) (n d : Z) : pyfloat :=
  match round_binary64 n d with
  | Some (m, e) => FFin neg m e
  | None => FInf neg
  end.

(** [int(f)]: truncation towards zero. *)
Definition int_of_float (f : pyfloat) : result Z :=
  match f with
  | FNan => Raise ValueError
  | FInf _ => Raise OverflowError
  | FFin neg m e =>
      let a := if 0 <=? e then m * 2 ^ e else m / 2 ^ (- e) in
      Ok (if neg then - a else a)
  end.

(** [float(z)] for an int [z]. *)
Definition float_of_int (z : Z) : result pyfloat :=
  match round_binary64 (Z.abs z) 1 with
  | Some (m, e) => Ok (FFin (z <? 0) m e)
  | None => Raise OverflowError
  end.

(** The longest prefix of digits, and the rest. *)
Fixpoint span_digits (s : string) : string * string :=
  match s with
  | String c r =>
      if is_digit c
      then let '(ds, rest) := span_digits r in (String c ds, rest)
      else (EmptyString, s)
  | EmptyString => (EmptyString, EmptyString)
  end.

(** The exponent part of a decimal literal: empty, or [e]/[E], an optional
    sign and at least one digit. *)
Definition parse_exponent (s : string) : option Z :=
  match s with
  | EmptyString => Some 0
  | String c r =>
      if (Ascii.eqb c "e" || Ascii.eqb c "E")%bool then
        let '(neg, body) := split_sign r in
        if negb (is_empty body) && str_all is_digit body
        then Some (if neg then - decimal_value 0 body else decimal_value 0 body)
        else None
      else None
  end.

(** An unsigned decimal literal [digits [. digits] [exponent]] with a digit
    on at least one side of the point, as numerator and denominator. *)
Definition parse_decimal (s : string) : option (Z * Z) :=
  let '(ip, rest) := span_digits s in
  let '(fp, rest') :=
    match rest with
    | String c r => if Ascii.eqb c "." then span_digits r else (EmptyString, rest)
    | EmptyString => (EmptyString, rest)
    end in
  if is_empty ip && is_empty fp then None
  else
    match parse_exponent rest' with
    | Some ex =>
        let mant := decimal_value (decimal_value 0 ip) fp in
        let sc := ex - Z.of_nat (String.length fp) in
        Some (mant * 10 ^ Z.max 0 sc, 10 ^ Z.max 0 (- sc))
    | None => None
    end.

(** [float(s)] for text [s], [None] standing for [ValueError]. *)
Definition float_of_string (s : string) : option pyfloat :=
  let t := strip_by is_c_space s in
  if underscores_ok false t then
    let '(neg, body) := split_sign (remove_underscores t) in
    let low := lower body in
    if (String.eqb low "inf" || String.eqb low "infinity")%bool then Some (FInf neg)
    else if String.eqb low "nan" then Some FNan
    else
      match parse_decimal body with
      | Some (n, d) => Some (float_of_ratio neg n d)
      | None => None
      end
  else None.

(** *** Floats as text *)

(** Is [10^t <= n / d]? *)
Definition pow10_le (n d t : Z) : bool :=
  d * 10 ^ Z.max 0 t <=? n * 10 ^ Z.max 0 (- t).

Fixpoint log10_search (fuel : nat) (n d t : Z) : Z :=
  match fuel with
  | O => t
  | S f => if pow10_le n d (t + 1) then log10_search f n d (t + 1) else t
  end.

(** [floor (log10 (n / d))] for positive [n], [d]: a search upwards from a
    lower estimate drawn from the binary logarithm ([0.30102 < log10 2 <
    0.30103]). *)
Definition log10_ratio (n d : Z) : Z :=
  let l := log2_ratio n d in
  let t0 := if 0 <=? l then l * 30102 / 100000 else l * 30103 / 100000 in
  log10_search (Z.to_nat (Z.abs l / 1000) + 3) n d t0.

(** Are [m1 * 2^e1] and [m2 * 2^e2] the same number? *)
Definition same_dyadic (m1 e1 m2 e2 : Z) : bool :=
  let e := Z.min e1 e2 in
  m1 * 2 ^ (e1 - e) =? m2 * 2 ^ (e2 - e).

(** Does the decimal [c * 10^k] read back as the float [m * 2^e]? *)
Definition reads_back (m e c k : Z) : bool :=
  match round_binary64 (c * 10 ^ Z.max 0 k) (10 ^ Z.max 0 (- k)) with
  | Some (m', e') => same_dyadic m e m' e'
  | None => false
  end.

(** Among the decimals with [p] significant digits that read back as
    [m * 2^e = n / d], the nearest one, if there is any: coefficient and
    exponent.  When the two neighbours are equally near, the one with the
    even last digit is taken.  [t] is [floor (log10 (n / d))]. *)
Definition decimal_at (m e n d t p : Z) : option (Z * Z) :=
  let k := t - (p - 1) in
  let num := n * 10 ^ Z.max 0 (- k) in
  let den := d * 10 ^ Z.max 0 k in
  let lo := num / den in
  let hi := if num mod den =? 0 then lo else lo + 1 in
  let lo_ok := reads_back m e lo k in
  let hi_ok := reads_back m e hi k in
  let twice := 2 * (num mod den) in
  if lo_ok && hi_ok
  then Some (if twice <? den then lo
             else if twice =? den then (if Z.even lo then lo else hi)
             else hi, k)
  else if lo_ok then Some (lo, k)
  else if hi_ok then Some (hi, k)
  else None.

Fixpoint shortest_from (fuel : nat) (m e n d t p : Z) : Z * Z :=
  match fuel with
  | O =>
      let k := t - (p - 1) in
      (div_half_even (n * 10 ^ Z.max 0 (- k)) (d * 10 ^ Z.max 0 k), k)
  | S f =>
      match decimal_at m e n d t p with
      | Some ck => ck
      | None => shortest_from f m e n d t (p + 1)
      end
  end.

(** The shortest decimal that reads back as the positive float [m * 2^e];
    at 17 significant digits the nearest decimal is taken, which reads back
    for every binary64. *)
Definition shortest_decimal (m e : Z) : Z * Z :=
  let n := m * 2 ^ Z.max 0 e in
  let d := 2 ^ Z.max 0 (- e) in
  shortest_from 16 m e n d (log10_ratio n d) 1.

Fixpoint strip_zeros_fuel (fuel : nat) (c k : Z) : Z * Z :=
  match fuel with
  | O => (c, k)
  | S f => if (c mod 10 =? 0) && negb (c =? 0)
           then strip_zeros_fuel f (c / 10) (k + 1) else (c, k)
  end.

(** [c * 10^k] with the trailing zeros of [c] moved into the exponent. *)
Definition strip_zeros (c k : Z) : Z * Z :=
  strip_zeros_fuel (S (Z.to_nat (Z.log2 c))) c k.

Fixpoint str_take (n : nat) (s : string) : string :=
  match n, s with
  | S k, String c r => String c (str_take k r)
  | _, _ => EmptyString
  end.

Fixpoint str_drop (n : nat) (s : string) : string :=
  match n, s with
  | S k, String _ r => str_drop k r
  | _, _ => s
  end.

(** [repr] of a positive finite float from its shortest digits [ds] and the
    position [decpt] of the decimal point relative to their start. *)
Definition repr_digits (ds : string) (decpt : Z) : string :=
  if (decpt <=? -4) || (16 <? decpt) then
    let ex := decpt - 1 in
    let mant :=
      match ds with
      | String c EmptyString => String c EmptyString
      | String c r => String c (String "." r)
      | EmptyString => EmptyString
      end in
    let exs := digits_of 10 (Z.abs_N ex) in
    mant +:+ String "e" (String (if ex <? 0 then "-"%char else "+"%char)
                           (zeros (2 - String.length exs) +:+ exs))
  else if decpt <=? 0 then
    String "0" (String "." (zeros (Z.to_nat (- decpt)) +:+ ds))
  else if Z.of_nat (String.length ds) <=? decpt then
    ds +:+ zeros (Z.to_nat decpt - String.length ds) +:+ ".0"
  else
    str_take (Z.to_nat decpt) ds +:+ String "." (str_drop (Z.to_nat decpt) ds).

(** [repr(f)], which is also [str(f)]. *)
Definition str_of_float (f : pyfloat) : string :=
  match f with
  | FNan => "nan"
  | FInf neg => if neg then "-inf" else "inf"
  | FFin neg m e =>
      let body :=
        if m <=? 0 then "0.0"
        else
          let '(c, k) := shortest_decimal m e in
          let '(c', k') := strip_zeros c k in
          let ds := digits_of 10 (Z.abs_N c') in
          repr_digits ds (Z.of_nat (String.length ds) + k') in
      if neg then String "-" body else body
  end.

(** *** Values *)

(** A raw field or cell: absent, an int, a float or text. *)
Inductive value : Type :=
  | VNone
  | VInt (z : Z)
  | VFloat (f : pyfloat)
  | VStr (s : string).

(** [pd.isna(v)] on a scalar *)
Definition isna (v : value) : bool :=
  match v with
  | VNone | VFloat FNan => true
  | _ => false
  end.

(** [str(v)] *)
Definition str (v : value) : string :=
  match v with
  | VNone => "None"
  | VInt z => str_of_int z
  | VFloat f => str_of_float f
  | VStr s => s
  end.

Definition of_option {A} (o : option A) (e : exn) : result A :=
  match o with
  | Some a => Ok a
  | None => Raise e
  end.

(** [int(v)] *)
Definition int (v : value) : result Z :=
  match v with
  | VNone => Raise TypeError
  | VInt z => Ok z
  | VFloat f => int_of_float f
  | VStr s => of_option (int_of_string s) ValueError
  end.

(** [float(v)] *)
Definition float (v : value) : result pyfloat :=
  match v with
  | VNone => Raise TypeError
  | VInt z => float_of_int z
  | VFloat f => Ok f
  | VStr s => of_option (float_of_string s) ValueError
  end.

(** *** Dictionaries in insertion order *)

(** A [dict] with text keys: assigning to a key already present replaces
    its value and keeps its place; a new key goes last. *)
Definition dict (V : Type) : Type := list (string * V).

Fixpoint dict_set {V} (k : string) (v : V) (d : dict V) : dict V :=
  match d with
  | [] => [(k, v)]
  | (k', v') :: r =>
      if String.eqb k k' then (k, v) :: r else (k', v') :: dict_set k v r
  end.

Fixpoint dict_get {V} (k : string) (d : dict V) : option V :=
  match d with
  | [] => None
  | (k', v') :: r => if String.eqb k k' then Some v' else dict_get k r
  end.

(** *** Tables *)

(** One row of the four-column projection of the configuration table. *)
Record row : Type := Row { mcc : value; mnc : value; lac : value; ci : value }.

(** A sheet read into a data frame: labelled columns of cells, the labels
    being distinct text. *)
Definition dataframe : Type := list (string * list value).

Definition columns (df : dataframe) : list string := map fst df.

(** [df[col]] for a label returned by the resolver *)
Definition column (df : dataframe) (col : string) : list value :=
  match dict_get col df with
  | Some cells => cells
  | None => []
  end.

(** A workbook read with [sheet_name=None]: its sheets by name, in order. *)
Definition workbook : Type := dict dataframe.

Inductive sheet_ref : Type :=
  | SheetName (name : string)
  | SheetIndex (i : nat).

(** [pd.read_excel(path, sheet_name=ref)] *)
Definition read_sheet (wb : workbook) (ref : sheet_ref) : result dataframe :=
  match ref with
  | SheetName n => of_option (dict_get n wb) ValueError
  | SheetIndex i => of_option (snd <$> nth_error wb i) ValueError
  end.

(** [df[col].dropna().astype(str).map(lambda x: x.strip().upper())] followed
    by [.str.replace(r"\s+", "", regex=True).tolist()] *)
Definition clean_cells (cells : list value) : list string :=
  map (fun v => remove_ws (upper (strip (str v))))
      (List.filter (fun v => negb (isna v)) cells).

(** [pd.DataFrame({a: pd.Series(xs), b: pd.Series(ys)})]: the two series
    are aligned on their positions [0 .. max - 1]; where a series has no
    entry the cell is missing. *)
Definition frame_of_series (xs ys : list string)
  : list (option string * option string) :=
  map (fun i => (xs !! i, ys !! i))
      (seq 0 (Nat.max (length xs) (length ys))).

End Py.

Import Py.

(** The reconciliation output: the unmatched entries of each candidate list
    and the five counts that the scripts print. *)
Record report : Type := Report {
  NGCI : list string;
  NSAI : list string;
  n_access : nat;
  n_gci : nat;
  n_sai : nat;
  n_ngci : nat;
  n_nsai : nat
}.

(** ** [test.py] *)

Module Test.

(** [norm_digits(val, min_width, max_width)]: the [max_width] branch of the
    source is a bare [pass]. *)
Definition norm_digits (val : value) (min_width max_width : option nat)
  : result string :=
  if isna val then Ok ""
  else
    s <- match val with
         | VInt _ | VFloat _ => z <- int val ;; Ok (str_of_int z)
         | _ => Ok (strip (str val))
         end ;;
    let s := remove_ws s in
    let s :=
      match min_width with
      | Some (S _ as w) => if (String.length s <? w)%nat then zfill s w else s
      | _ => s
      end in
    Ok s.

(** [to_hex(val, width)] *)
Definition to_hex (val : value) (width : nat) : result string :=
  if isna val then Ok ""
  else
    ival <- try_except (int val) (f <- float val ;; int_of_float f) ;;
    Ok (format_X ival width).

(** The MNC segment of [build_id] from the normalized digit string. *)
Definition mnc_part (raw_mnc : string) (mnc_mode : string) : string :=
  if String.eqb mnc_mode "2" then zfill raw_mnc 2
  else if String.eqb mnc_mode "3" then zfill raw_mnc 3
  else
    match int_of_string raw_mnc with
    | Some mnc_int =>
        if 100 <=? mnc_int then format_d mnc_int 3 else format_d mnc_int 2
    | None => raw_mnc
    end.

(** [build_id(mcc, mnc, lac, ci, *, mcc_width, mnc_mode, lac_width, ci_width)] *)
Definition build_id (mcc mnc lac ci : value) (mcc_width : nat)
    (mnc_mode : string) (lac_width ci_width : nat) : result string :=
  mcc_str <- match mcc_width with
             | S _ => norm_digits mcc (Some mcc_width) (Some mcc_width)
             | O => norm_digits mcc None None
             end ;;
  raw_mnc <- norm_digits mnc None None ;;
  let mnc_str := mnc_part raw_mnc mnc_mode in
  lac_hex <- to_hex lac lac_width ;;
  ci_hex <- to_hex ci ci_width ;;
  Ok (upper (mcc_str +:+ mnc_str +:+ lac_hex +:+ ci_hex)).

(** The loop of [load_access_compound_ids] over the rows already read. *)
Fixpoint load_access_compound_ids (rows : list row) (mnc_mode : string)
    (lac_width ci_width : nat) : result (list string) :=
  match rows with
  | [] => Ok []
  | r :: rows' =>
      s <- build_id (mcc r) (mnc r) (lac r) (ci r) 3 mnc_mode lac_width ci_width ;;
      ids <- load_access_compound_ids rows' mnc_mode lac_width ci_width ;;
      Ok (if is_empty s then ids else s :: ids)
  end.

Definition _normalize (s : string) : string := lower (strip (remove_ws s)).

(** [{_normalize(c): c for c in df.columns}] *)
Definition column_mapping (cols : list string) : dict string :=
  fold_left (fun d c => dict_set (_normalize c) c d) cols [].

(** The fall-back loop of [_resolve_column] over [mapping.items()]. *)
Fixpoint partial_match (target_norm : string) (items : dict string)
  : option string :=
  match items with
  | [] => None
  | (k, orig) :: r =>
      if is_substring target_norm k || is_substring k target_norm
      then Some orig
      else partial_match target_norm r
  end.

Definition _resolve_column (df : dataframe) (target : string) : result string :=
  let target_norm := _normalize target in
  let mapping := column_mapping (columns df) in
  match dict_get target_norm mapping with
  | Some orig => Ok orig
  | None =>
      match partial_match target_norm mapping with
      | Some orig => Ok orig
      | None => Raise (KeyError (ColumnMissing target (columns df)))
      end
  end.

Definition _extract_from_df (column : string) (df : dataframe)
  : result (list string) :=
  col <- _resolve_column df column ;;
  Ok (clean_cells (Py.column df col)).

(** The loop over the sheets of a workbook: the first sheet on which the
    extraction does not raise [KeyError] gives the result. *)
Fixpoint first_sheet (column : string) (sheets : workbook)
    (tried : dict (list string)) : result (list string) :=
  match sheets with
  | [] => Raise (KeyError (ColumnMissingOnAllSheets column tried))
  | (name, df) :: rest =>
      match _extract_from_df column df with
      | Raise (KeyError _) =>
          first_sheet column rest (dict_set name (columns df) tried)
      | r => r
      end
  end.

(** [load_excel_column(path, column, sheet)] on the workbook at [path] *)
Definition load_excel_column (wb : workbook) (column : string)
    (sheet : option sheet_ref) : result (list string) :=
  match sheet with
  | None => first_sheet column wb []
  | Some ref => df <- read_sheet wb ref ;; _extract_from_df column df
  end.

(** The comparison step of [main]: [set1 = set(var1)] and the list
    comprehension [[g for g in var2 if g not in set1]]. *)
Definition not_in (set1 : gset string) (var : list string) : list string :=
  filter (fun g => g ∉ set1) var.

Record config : Type := Config {
  mnc_mode : string;
  lac_width : nat;
  ci_width : nat;
  gci_column : string;
  gci_sheet : option sheet_ref;
  sai_column : string;
  sai_sheet : option sheet_ref
}.

(** [main], from the rows of the table and the two workbooks to the
    unmatched lists and the printed counts. *)
Definition main (args : config) (rows : list row) (gci_xlsx sai_xlsx : workbook)
  : result report :=
  access_ids <- load_access_compound_ids rows (mnc_mode args)
                  (lac_width args) (ci_width args) ;;
  let var1 := map upper access_ids in
  var2 <- load_excel_column gci_xlsx (gci_column args) (gci_sheet args) ;;
  var3 <- load_excel_column sai_xlsx (sai_column args) (sai_sheet args) ;;
  let set1 : gset string := list_to_set var1 in
  let ngci := not_in set1 var2 in
  let nsai := not_in set1 var3 in
  Ok (Report ngci nsai (length var1) (length var2) (length var3)
        (length ngci) (length nsai)).

(** The frame [df_out] that [main] writes when [--save-csv] is given. *)
Definition df_out (r : report) : list (option string * option string) :=
  frame_of_series (NGCI r) (NSAI r).

End Test.

(** ** [test2.py] *)

Module Test2.

(** The settings at the head of the script that the embedded code reads. *)
Definition GCI_SHEET : option sheet_ref := None.
Definition GCI_COLUMN : string := "GCI".
Definition SAI_SHEET : option sheet_ref := None.
Definition SAI_COLUMN : string := "SAI".
Definition MNC_MODE : string := "auto".
Definition LAC_HEX_WIDTH : nat := 4.
Definition CI_HEX_WIDTH : nat := 4.

(** [_digits(s)] *)
Definition _digits (s : value) : string :=
  if isna s then "" else strip (remove_ws (str s)).

(** [_to_hex(val, width)] *)
Definition _to_hex (val : value) (width : nat) : result string :=
  if isna val || is_empty (strip (str val)) then Ok ""
  else
    ival <- try_except (int val)
              (f <- of_option (float_of_string (replace_comma (str val)))
                      ValueError ;;
               int_of_float f) ;;
    Ok (format_X ival width).

(** The MNC segment of [build_id] from the normalized digit string. *)
Definition mnc_part (mnc_raw : string) (mnc_mode : string) : string :=
  let mnc_i := int_of_string mnc_raw in
  if String.eqb mnc_mode "2" then zfill mnc_raw 2
  else if String.eqb mnc_mode "3" then zfill mnc_raw 3
  else
    match mnc_i with
    | Some i => if i <? 100 then format_d i 2 else format_d i 3
    | None => mnc_raw
    end.

(** [build_id(mcc, mnc, lac, ci, mnc_mode, lac_w, ci_w)] *)
Definition build_id (mcc mnc lac ci : value) (mnc_mode : string)
    (lac_w ci_w : nat) : result string :=
  let mcc_s := zfill (_digits mcc) 3 in
  let mnc_raw := _digits mnc in
  let mnc_s := mnc_part mnc_raw mnc_mode in
  lac_hex <- _to_hex lac lac_w ;;
  ci_hex <- _to_hex ci ci_w ;;
  Ok (upper (mcc_s +:+ mnc_s +:+ lac_hex +:+ ci_hex)).

(** [fetch_access_ids] on the rows that the cursor returned *)
Definition fetch_access_ids (rows : list row) : result (list string) :=
  ids <- mapM (fun r => build_id (mcc r) (mnc r) (lac r) (ci r)
                          MNC_MODE LAC_HEX_WIDTH CI_HEX_WIDTH) rows ;;
  Ok (List.filter (fun s => negb (is_empty s)) ids).

(** [_normalize_colnames(cols)] *)
Definition _normalize_colnames (cols : list string) : dict string :=
  fold_left (fun d c => dict_set (lower (strip (remove_ws c))) c d) cols [].

(** The [for ... else] of [_extract] over [mapping.items()]. *)
Fixpoint partial_match (wanted_key : string) (items : dict string)
  : option string :=
  match items with
  | [] => None
  | (k, orig) :: r =>
      if is_substring wanted_key k || is_substring k wanted_key
      then Some orig
      else partial_match wanted_key r
  end.

(** The column that [_extract] settles on *)
Definition resolve (wanted_key : string) (df : dataframe) : result string :=
  let mapping := _normalize_colnames (columns df) in
  match dict_get wanted_key mapping with
  | None => of_option (partial_match wanted_key mapping) (KeyError NoMessage)
  | Some colname => Ok colname
  end.

Definition _extract (wanted_key : string) (df : dataframe)
  : result (list string) :=
  colname <- resolve wanted_key df ;;
  Ok (clean_cells (column df colname)).

(** The loop over [all_sheets.items()]: any [Exception] moves on to the
    next sheet. *)
Fixpoint search_sheets (wanted_col wanted_key : string) (sheets : workbook)
    (tried : dict (list string)) : result (list string) :=
  match sheets with
  | [] => Raise (SystemExit (ColumnMissingOnAllSheets wanted_col tried))
  | (name, df) :: rest =>
      match _extract wanted_key df with
      | Ok l => Ok l
      | Raise e =>
          if is_exception e
          then search_sheets wanted_col wanted_key rest
                 (dict_set name (columns df) tried)
          else Raise e
      end
  end.

(** [read_excel_column(path, wanted_col, sheet)] on the workbook at [path] *)
Definition read_excel_column (wb : workbook) (wanted_col : string)
    (sheet : option sheet_ref) : result (list string) :=
  let wanted_key := lower (strip (remove_ws wanted_col)) in
  match sheet with
  | Some ref => df <- read_sheet wb ref ;; _extract wanted_key df
  | None =>
      try_except
        (df <- read_sheet wb (SheetIndex 0) ;; _extract wanted_key df)
        (search_sheets wanted_col wanted_key wb [])
  end.

(** Step 4 of [main]: [s1 = set(var1)] and [[g for g in var2 if g not in s1]]. *)
Definition not_in (s1 : gset string) (var : list string) : list string :=
  filter (fun g => g ∉ s1) var.

Definition main (rows : list row) (gci_xlsx sai_xlsx : workbook)
  : result report :=
  var1 <- fetch_access_ids rows ;;
  var2 <- read_excel_column gci_xlsx GCI_COLUMN GCI_SHEET ;;
  var3 <- read_excel_column sai_xlsx SAI_COLUMN SAI_SHEET ;;
  let s1 : gset string := list_to_set var1 in
  let ngci := not_in s1 var2 in
  let nsai := not_in s1 var3 in
  Ok (Report ngci nsai (length var1) (length var2) (length var3)
        (length ngci) (length nsai)).

(** The frame that step 6 of [main] writes to [SAVE_CSV]. *)
Definition df_out (r : report) : list (option string * option string) :=
  frame_of_series (NGCI r) (NSAI r).

End Test2.

(** ** [parse_excel_access.py] *)

Module ParseExcelAccess.

(** [dec_to_hex_str(value, width)] *)
Definition dec_to_hex_str (value : Py.value) (width : option nat)
  : result string :=
  z <- int value ;;
  let hex_str := hex_of_int z in
  match width with
  | Some w => Ok (zfill hex_str w)
  | None => Ok hex_str
  end.

(** One line of the combined frame: the spreadsheet cell, the table row and
    the five columns that [combine_dataframes] adds to it. *)
Record combined_row : Type := CombinedRow {
  gsi : value;
  source : row;
  lac_hex : string;
  ci_hex : string;
  mcc_str : string;
  mnc_str : string;
  combined : string
}.

Section Combine.

(** [Series.str.zfill(width)].  Releases of pandas differ on where the
    zeros go when the text starts with a sign, so the padding is left
    open here; on text without a sign every release puts them in front. *)
Variable series_zfill : string -> nat -> string.

(** The identifier column of [combine_dataframes], built column by column.
    [astype(str)] is taken as the text of the code; where a code is
    missing, releases of pandas differ (the text of the missing value, or a
    missing entry), and the padded codes of such a line are not relied
    on. *)
Definition combined_column (access_df : list row) (lac_width ci_width : option nat)
    (mcc_width mnc_width : nat)
  : result (list (string * string * string * string * string)) :=
  lac_hexs <- mapM (fun r => dec_to_hex_str (lac r) lac_width) access_df ;;
  ci_hexs <- mapM (fun r => dec_to_hex_str (ci r) ci_width) access_df ;;
  let mcc_strs := map (fun r => series_zfill (str (mcc r)) mcc_width) access_df in
  let mnc_strs := map (fun r => series_zfill (str (mnc r)) mnc_width) access_df in
  Ok (zip_with (fun '(l, c) '(a, b) => (l, c, a, b, a +:+ b +:+ l +:+ c))
        (zip lac_hexs ci_hexs) (zip mcc_strs mnc_strs)).

(** [combine_dataframes(excel_df, access_df, lac_width, ci_width, mcc_width,
    mnc_width)]: the two frames side by side, cut to the shorter one. *)
Definition combine_dataframes (excel_df : list value) (access_df : list row)
    (lac_width ci_width : option nat) (mcc_width mnc_width : nat)
  : result (list combined_row) :=
  cols <- combined_column access_df lac_width ci_width mcc_width mnc_width ;;
  let min_len := Nat.min (length excel_df) (length access_df) in
  Ok (zip_with (fun g '(r, (l, c, a, b, id)) => CombinedRow g r l c a b id)
        (take min_len excel_df) (take min_len (zip access_df cols))).

End Combine.

(** [{c.lower(): c for c in df.columns}] *)
Definition df_columns_lower (cols : list string) : dict string :=
  fold_left (fun d c => dict_set (lower c) c d) cols [].

(** [read_excel_column(excel_path)] on the workbook at that path: the cells
    of the column that the returned one-column frame holds. *)
Definition read_excel_column (wb : workbook) : result (list value) :=
  df <- read_sheet wb (SheetIndex 0) ;;
  let lowered := df_columns_lower (columns df) in
  match dict_get "gsi" lowered with
  | Some col_name => Ok (column df col_name)
  | None =>
      match dict_get "sai" lowered with
      | Some col_name => Ok (column df col_name)
      | None => Raise ValueError
      end
  end.

(** [main], from the workbook and the rows of the table to the frame that
    is saved. *)
Definition main (series_zfill : string -> nat -> string) (wb : workbook)
    (access_df : list row) : result (list combined_row) :=
  excel_df <- read_excel_column wb ;;
  combine_dataframes series_zfill excel_df access_df None None 3 3.

End ParseExcelAccess.

(** ** The specification's wording, as definitions to compare with *)

Module Spec.

(** The value of one upper-case hexadecimal digit. *)
Definition hex_digit (c : ascii) : option Z :=
  let n := N_of_ascii c in
  if ((48 <=? n) && (n <=? 57))%N then Some (Z.of_N n - 48)
  else if ((65 <=? n) && (n <=? 70))%N then Some (Z.of_N n - 55)
  else None.

(** The number that a run of upper-case digits of base [b] denotes. *)
Fixpoint read_digits (b acc : Z) (s : string) : option Z :=
  match s with
  | EmptyString => Some acc
  | String c r =>
      match hex_digit c with
      | Some d => if d <? b then read_digits b (b * acc + d) r else None
      | None => None
      end
  end.

(** The number that an optional minus sign and at least one digit denote. *)
Definition read_number (b : Z) (s : string) : option Z :=
  match s with
  | EmptyString => None
  | String c r =>
      if Ascii.eqb c "-"
      then if is_empty r then None else Z.opp <$> read_digits b 0 r
      else read_digits b 0 s
  end.

Definition is_hex_char (c : ascii) : bool :=
  match hex_digit c with Some _ => true | None => false end.

(** No white space anywhere, and nothing that upper-casing would change. *)
Definition is_clean_char (c : ascii) : bool :=
  negb (is_space c) && Ascii.eqb (upper_char c) c.
Definition is_clean : string -> bool := str_all is_clean_char.

Definition no_space : string -> bool := str_all (fun c => negb (is_space c)).

(** "For each element of candidates, in original order, the element is
    retained in the output if and only if it is not a member of canonical." *)
Inductive Retained (canonical : gset string)
  : list string -> list string -> Prop :=
  | retained_nil : Retained canonical [] []
  | retained_keep g l out :
      g ∉ canonical -> Retained canonical l out ->
      Retained canonical (g :: l) (g :: out)
  | retained_drop g l out :
      g ∈ canonical -> Retained canonical l out ->
      Retained canonical (g :: l) out.

(** "Removing all whitespace and lower-casing". *)
Definition normalize_name (s : string) : string := lower (remove_ws s).

(** "(a) exact match after removing all whitespace and lower-casing both
    sides; (b) first header (in iteration order of the source) where the
    normalized logical name is a substring of the normalized header OR vice
    versa." *)
Definition resolve (available_headers : list string) (logical_name : string)
  : option string :=
  let name := normalize_name logical_name in
  match List.find (fun h => String.eqb (normalize_name h) name)
          available_headers with
  | Some h => Some h
  | None =>
      List.find (fun h => is_substring name (normalize_name h)
                          || is_substring (normalize_name h) name)
        available_headers
  end.

(** "Returning the first sheet where resolution succeeds": the extraction
    from the first sheet, in source order, on which it does not fail. *)
Fixpoint first_success (extract : dataframe -> result (list string))
    (sheets : workbook) : option (list string) :=
  match sheets with
  | [] => None
  | (_, df) :: rest =>
      match extract df with
      | Ok cells => Some cells
      | Raise _ => first_success extract rest
      end
  end.

(** "The full header list of every sheet that was tried". *)
Definition headers_tried (sheets : workbook) : list (string * list string) :=
  map (fun '(name, df) => (name, columns df)) sheets.

(** "Parsed as a number": the value converts to an int directly, or its
    text, with a decimal comma read as a point, is a finite float. *)
Definition parses_as_number (v : value) : bool :=
  is_ok (int v) ||
  match float_of_string (replace_comma (str v)) with
  | Some (FFin _ _ _) => true
  | _ => false
  end.

(** Absent, or text that is blank. *)
Definition absent_or_blank (v : value) : bool :=
  isna v || is_empty (strip (str v)).

(** The identifier of a row of integers with every segment zero-filled:
    three places for MCC and for MNC, the hex widths for LAC and CI. *)
Definition id3 (lw cw : nat) (f : Z * Z * Z * Z) : string :=
  let '(a, b, c, d) := f in
  zfill (str_of_int a) 3 +:+ zfill (str_of_int b) 3
    +:+ format_X c lw +:+ format_X d cw.

(** Two runs give the same result whenever either of them gives one. *)
Definition same_result {A} (r1 r2 : result A) : Prop :=
  forall x, r1 = Ok x <-> r2 = Ok x.

(** The settings of [test2.py] as arguments of [test.py]. *)
Definition test2_settings : Test.config :=
  Test.Config Test2.MNC_MODE Test2.LAC_HEX_WIDTH Test2.CI_HEX_WIDTH
    Test2.GCI_COLUMN Test2.GCI_SHEET Test2.SAI_COLUMN Test2.SAI_SHEET.

(** A row all of whose fields are integers. *)
Definition int_row (f : Z * Z * Z * Z) : row :=
  let '(a, b, c, d) := f in Row (VInt a) (VInt b) (VInt c) (VInt d).

End Spec.

(** ** Notions that the further properties are stated with *)

Module Shape.

(** A float that is an infinity. *)
Definition is_infinite (v : value) : bool :=
  match v with
  | VFloat (FInf _) => true
  | _ => false
  end.

(** The value converts to an int directly, or to a finite float. *)
Definition converts_to_number (v : value) : bool :=
  is_ok (int v) ||
  match float v with
  | Ok (FFin _ _ _) => true
  | _ => false
  end.

(** The integer that a finite float is truncated to. *)
Definition truncation (neg : bool) (m e : Z) : Z :=
  let a := if 0 <=? e then m * 2 ^ e else m / 2 ^ (- e) in
  if neg then - a else a.

(** The four numbers that an identifier with a three-digit MCC and hex
    fields of [lw] and [cw] digits spells, the MNC taking what is left. *)
Definition decode_id (lw cw : nat) (id : string) : option (Z * Z * Z * Z) :=
  let m := (String.length id - 3 - lw - cw)%nat in
  match Spec.read_number 10 (str_take 3 id),
        Spec.read_number 10 (str_take m (str_drop 3 id)),
        Spec.read_number 16 (str_take lw (str_drop (3 + m) id)),
        Spec.read_number 16 (str_drop (3 + m + lw) id) with
  | Some a, Some b, Some c, Some d => Some (a, b, c, d)
  | _, _, _, _ => None
  end.

(** A finite float read as the int it truncates to; any other value as it
    is. *)
Definition as_int (v : value) : value :=
  match v with
  | VFloat (FFin neg m e) => VInt (truncation neg m e)
  | _ => v
  end.

(** Does a header match a logical name, both already normalized: is one a
    substring of the other?  (Equal names are substrings of each other.) *)
Definition names_match (name key : string) : bool :=
  is_substring name key || is_substring key name.

(** The hexadecimal text of a field that converts to an int. *)
Definition the_hex (v : value) (width : option nat) : string :=
  match ParseExcelAccess.dec_to_hex_str v width with
  | Ok s => s
  | Raise _ => ""
  end.

(** One line of the combined frame, from a spreadsheet cell and the table
    row at the same position. *)
Definition combined_line (series_zfill : string -> nat -> string)
    (lac_width ci_width : option nat) (mcc_width mnc_width : nat)
    (g : value) (r : row) : ParseExcelAccess.combined_row :=
  let l := the_hex (lac r) lac_width in
  let c := the_hex (ci r) ci_width in
  let a := series_zfill (str (mcc r)) mcc_width in
  let b := series_zfill (str (mnc r)) mnc_width in
  ParseExcelAccess.CombinedRow g r l c a b (a +:+ b +:+ l +:+ c).

(** The last header of a sheet that is [key] when put in lower case. *)
Definition last_header (key : string) (df : dataframe) : option string :=
  List.find (fun h => String.eqb (lower h) key) (rev (columns df)).

End Shape.

(** ** Facts about the primitives *)

Module PyFacts.

Lemma bind_ok {A B} (r : result A) (k : A -> result B) (b : B) :
  bind r k = Ok b <-> exists a, r = Ok a /\ k a = Ok b.
Proof.
  destruct r as [a|e]; simpl; split.
  - intros H. exists a. auto.
  - intros (a' & Ha & Hk). congruence.
  - discriminate.
  - intros (a' & Ha & _). discriminate.
Qed.

(** *** Characters *)

Ltac by_cases_on_char c :=
  destruct c as [[] [] [] [] [] [] [] []]; try reflexivity; try discriminate.

Lemma upper_char_idem c : upper_char (upper_char c) = upper_char c.
Proof. by_cases_on_char c. Qed.

Lemma is_c_space_is_space c : is_c_space c = true -> is_space c = true.
Proof. by_cases_on_char c. Qed.

Lemma is_clean_upper c : negb (is_space c) = true ->
  Spec.is_clean_char (upper_char c) = true.
Proof. by_cases_on_char c. Qed.

Lemma is_digit_not_sign c : is_digit c = true ->
  Ascii.eqb c "-" = false /\ Ascii.eqb c "+" = false /\ Ascii.eqb c "_" = false.
Proof. by_cases_on_char c; intros _; repeat split. Qed.

Lemma hex_digit_digit c : is_digit c = true ->
  Spec.hex_digit c = Some (digit_val c) /\ 0 <= digit_val c < 10.
Proof. by_cases_on_char c; intros _; split; try reflexivity; cbv; split; congruence. Qed.

(** *** Strings *)

Lemma str_app_cons c (a b : string) : String c a +:+ b = String c (a +:+ b).
Proof. reflexivity. Qed.

Lemma str_app_nil_l (b : string) : "" +:+ b = b.
Proof. reflexivity. Qed.

Ltac induct_app a :=
  let c := fresh "c" in
  let IH := fresh "IH" in
  induction a as [|c a IH]; rewrite ?str_app_cons, ?str_app_nil_l; simpl;
  [try reflexivity | try (rewrite IH; reflexivity)].

Lemma str_length_app (a b : string) :
  String.length (a +:+ b) = (String.length a + String.length b)%nat.
Proof. induct_app a. Qed.

Lemma str_app_empty_r (a : string) : a +:+ "" = a.
Proof. induct_app a. Qed.

Lemma is_empty_false_length s : is_empty s = false <-> (0 < String.length s)%nat.
Proof. destruct s; simpl; split; intros; try congruence; lia. Qed.

Lemma str_all_app p (a b : string) :
  str_all p (a +:+ b) = str_all p a && str_all p b.
Proof. induct_app a. now rewrite IH, andb_assoc. Qed.

Lemma str_all_impl (p q : ascii -> bool) s :
  (forall c, p c = true -> q c = true) -> str_all p s = true -> str_all q s = true.
Proof.
  intros Hpq. induction s as [|c s IH]; simpl; [reflexivity|].
  intros [Hc Hs]%andb_true_iff. rewrite (Hpq _ Hc), (IH Hs). reflexivity.
Qed.

Lemma str_all_map p f s :
  str_all p (str_map f s) = str_all (fun c => p (f c)) s.
Proof. induction s as [|c s IH]; simpl; [reflexivity | now rewrite IH]. Qed.

Lemma str_all_filter p s : str_all p (str_filter p s) = true.
Proof.
  induction s as [|c s IH]; simpl; [reflexivity|].
  destruct (p c) eqn:E; simpl; [now rewrite E|assumption].
Qed.

Lemma str_filter_id p s : str_all p s = true -> str_filter p s = s.
Proof.
  induction s as [|c s IH]; simpl; [reflexivity|].
  intros [Hc Hs]%andb_true_iff. now rewrite Hc, IH.
Qed.

Lemma str_map_id f s :
  str_all (fun c => Ascii.eqb (f c) c) s = true -> str_map f s = s.
Proof.
  induction s as [|c s IH]; simpl; [reflexivity|].
  intros [Hc%Ascii.eqb_eq Hs]%andb_true_iff. now rewrite Hc, IH.
Qed.

Lemma str_length_map f s : String.length (str_map f s) = String.length s.
Proof. induction s as [|c s IH]; simpl; [reflexivity | now rewrite IH]. Qed.

Lemma length_zeros n : String.length (zeros n) = n.
Proof. induction n as [|n IH]; simpl; [reflexivity | now rewrite IH]. Qed.

Lemma str_all_zeros p n : p "0"%char = true -> str_all p (zeros n) = true.
Proof. intros H. induction n as [|n IH]; simpl; [reflexivity | now rewrite H, IH]. Qed.

Lemma lstrip_by_id p s :
  str_all (fun c => negb (p c)) s = true -> lstrip_by p s = s.
Proof.
  destruct s as [|c s]; simpl; [reflexivity|].
  intros [Hc _]%andb_true_iff. apply negb_true_iff in Hc. now rewrite Hc.
Qed.

Lemma rstrip_by_id p s :
  str_all (fun c => negb (p c)) s = true -> rstrip_by p s = s.
Proof.
  induction s as [|c s IH]; simpl; [reflexivity|].
  intros [Hc Hs]%andb_true_iff. apply negb_true_iff in Hc.
  rewrite (IH Hs), Hc. now destruct s.
Qed.

Lemma strip_by_id p s :
  str_all (fun c => negb (p c)) s = true -> strip_by p s = s.
Proof.
  intros H. unfold strip_by. rewrite (lstrip_by_id _ _ H). now apply rstrip_by_id.
Qed.

Lemma no_space_strip s : Spec.no_space s = true -> strip s = s.
Proof. apply strip_by_id. Qed.

Lemma no_space_remove_ws s : Spec.no_space s = true -> remove_ws s = s.
Proof. apply str_filter_id. Qed.

Lemma remove_ws_no_space s : Spec.no_space (remove_ws s) = true.
Proof. apply str_all_filter. Qed.

Lemma is_clean_no_space s : Spec.is_clean s = true -> Spec.no_space s = true.
Proof.
  apply str_all_impl. intros c. unfold Spec.is_clean_char.
  now intros [H _]%andb_true_iff.
Qed.

Lemma is_clean_upper_id s : Spec.is_clean s = true -> upper s = s.
Proof.
  intros H. apply str_map_id. revert H. apply str_all_impl.
  intros c. unfold Spec.is_clean_char. now intros [_ H]%andb_true_iff.
Qed.

Lemma upper_no_space s : Spec.no_space s = true -> Spec.is_clean (upper s) = true.
Proof.
  intros H. unfold Spec.is_clean, upper. rewrite str_all_map.
  revert H. apply str_all_impl. apply is_clean_upper.
Qed.

(** *** Digits *)

Lemma digit_char_hex_char d : Spec.is_hex_char (digit_char d) = true.
Proof.
  destruct d as [|q]; [reflexivity|].
  do 4 (try destruct q as [q|q|]); try reflexivity.
Qed.

Lemma digit_char_hex d : (d < 16)%N -> Spec.hex_digit (digit_char d) = Some (Z.of_N d).
Proof.
  destruct d as [|q]; [reflexivity|].
  do 4 (try destruct q as [q|q|]); try reflexivity; lia.
Qed.

Lemma digit_char_digit d : (d < 10)%N -> is_digit (digit_char d) = true.
Proof.
  destruct d as [|q]; [reflexivity|].
  do 4 (try destruct q as [q|q|]); try reflexivity; lia.
Qed.

Lemma is_hex_char_clean c : Spec.is_hex_char c = true -> Spec.is_clean_char c = true.
Proof. by_cases_on_char c. Qed.

Lemma is_hex_char_not_sign c : Spec.is_hex_char c = true ->
  Ascii.eqb c "-" = false /\ Ascii.eqb c "+" = false.
Proof. by_cases_on_char c; intros _; split; reflexivity. Qed.

Lemma is_digit_hex_char c : is_digit c = true -> Spec.is_hex_char c = true.
Proof. by_cases_on_char c. Qed.

Section Digits.
Variable b : N.
Hypothesis b_ge : (2 <= b)%N.

Lemma str_all_digits_fuel p f n acc :
  (forall d, (d < b)%N -> p (digit_char d) = true) ->
  str_all p acc = true -> str_all p (digits_fuel f b n acc) = true.
Proof.
  intros Hp. revert n acc.
  induction f as [|f IH]; intros n acc Hacc; simpl; [assumption|].
  assert (Hd : p (digit_char (n mod b)) = true)
    by (apply Hp, N.mod_lt; lia).
  destruct (n / b =? 0)%N.
  - simpl. now rewrite Hd, Hacc.
  - apply IH. simpl. now rewrite Hd, Hacc.
Qed.

Lemma length_digits_fuel_ge f n acc :
  (String.length acc <= String.length (digits_fuel f b n acc))%nat.
Proof.
  revert n acc. induction f as [|f IH]; intros n acc; simpl; [lia|].
  destruct (n / b =? 0)%N; simpl; [lia|].
  etransitivity; [|apply IH]. simpl. lia.
Qed.

Lemma length_digits_fuel_le f n acc k :
  (n < b ^ N.of_nat k)%N -> (1 <= k)%nat ->
  (String.length (digits_fuel f b n acc) <= k + String.length acc)%nat.
Proof.
  revert n acc k. induction f as [|f IH]; intros n acc k Hn Hk; simpl; [lia|].
  destruct (N.eqb_spec (n / b) 0) as [E|E]; simpl; [lia|].
  destruct k as [|[|k]]; [lia| |].
  - exfalso. apply E. apply N.div_small. simpl in Hn. lia.
  - etransitivity; [apply (IH _ _ (S k))|simpl; lia]; [|lia].
    apply N.Div0.div_lt_upper_bound.
    replace (N.of_nat (S (S k))) with (N.succ (N.of_nat (S k))) in Hn by lia.
    now rewrite N.pow_succ_r' in Hn.
Qed.

Lemma digits_of_nonempty n : is_empty (digits_of b n) = false.
Proof.
  unfold digits_of. simpl. destruct (n / b =? 0)%N; [reflexivity|].
  apply is_empty_false_length.
  eapply Nat.lt_le_trans; [|apply length_digits_fuel_ge]. simpl. lia.
Qed.

Lemma str_all_digits_of p n :
  (forall d, (d < b)%N -> p (digit_char d) = true) ->
  str_all p (digits_of b n) = true.
Proof. intros Hp. now apply str_all_digits_fuel. Qed.

Lemma length_digits_of_le n k :
  (n < b ^ N.of_nat k)%N -> (1 <= k)%nat ->
  (String.length (digits_of b n) <= k)%nat.
Proof.
  intros Hn Hk. unfold digits_of.
  pose proof (length_digits_fuel_le (S (N.to_nat (N.log2 n))) n "" k Hn Hk) as H.
  change (String.length "") with 0%nat in H. lia.
Qed.

Hypothesis b_le : (b <= 16)%N.

Lemma read_digits_fuel f n acc :
  (n < 2 ^ N.of_nat f)%N ->
  Spec.read_digits (Z.of_N b) 0 (digits_fuel f b n acc)
  = Spec.read_digits (Z.of_N b) (Z.of_N n) acc.
Proof.
  revert n acc. induction f as [|f IH]; intros n acc Hn.
  - simpl in *. now replace n with 0%N by lia.
  - cbn [digits_fuel].
    assert (Hlt : (n mod b < b)%N) by (apply N.mod_lt; lia).
    assert (Hrd : forall a, Spec.read_digits (Z.of_N b) a
                              (String (digit_char (n mod b)) acc)
                  = Spec.read_digits (Z.of_N b)
                      (Z.of_N b * a + Z.of_N (n mod b)) acc).
    { intros a. cbn [Spec.read_digits]. rewrite digit_char_hex by lia.
      destruct (Z.ltb_spec (Z.of_N (n mod b)) (Z.of_N b)); [reflexivity|lia]. }
    pose proof (N.div_mod n b ltac:(lia)) as Hdm.
    destruct (N.eqb_spec (n / b) 0) as [E|E].
    + rewrite Hrd. f_equal. rewrite E in Hdm. lia.
    + rewrite IH, Hrd.
      * f_equal. lia.
      * replace (N.of_nat (S f)) with (N.succ (N.of_nat f)) in Hn by lia.
        rewrite N.pow_succ_r' in Hn.
        apply N.Div0.div_lt_upper_bound. nia.
Qed.

Lemma read_digits_of n :
  Spec.read_digits (Z.of_N b) 0 (digits_of b n) = Some (Z.of_N n).
Proof.
  unfold digits_of. rewrite read_digits_fuel; [reflexivity|].
  destruct n as [|q]; [reflexivity|].
  rewrite Nat2N.inj_succ, N2Nat.id. apply N.log2_spec. lia.
Qed.

End Digits.

Lemma read_digits_zeros b n rest :
  0 < b -> Spec.read_digits b 0 (zeros n +:+ rest) = Spec.read_digits b 0 rest.
Proof.
  intros Hb. induction n as [|n IH]; [reflexivity|].
  cbn [zeros]. rewrite str_app_cons. cbn [Spec.read_digits].
  change (Spec.hex_digit "0") with (Some 0).
  rewrite Z.mul_0_r, Z.add_0_l.
  destruct (Z.ltb_spec 0 b); [exact IH|lia].
Qed.

Lemma read_digits_decimal s a :
  str_all is_digit s = true ->
  Spec.read_digits 10 a s = Some (decimal_value a s).
Proof.
  revert a. induction s as [|c s IH]; intros a; simpl; [reflexivity|].
  intros [Hc Hs]%andb_true_iff.
  destruct (hex_digit_digit c Hc) as [-> Hr].
  destruct (Z.ltb_spec (digit_val c) 10); [|lia]. now apply IH.
Qed.

Lemma decimal_value_digits_of n : decimal_value 0 (digits_of 10 n) = Z.of_N n.
Proof.
  pose proof (read_digits_of 10 ltac:(lia) ltac:(lia) n) as H.
  change (Z.of_N 10) with 10 in H.
  rewrite read_digits_decimal in H; [congruence|].
  apply str_all_digits_of; [lia|]. apply digit_char_digit.
Qed.

(** *** Padding and formatting *)

Lemma zfill_ge s w : (w <= String.length s)%nat -> zfill s w = s.
Proof.
  intros H. unfold zfill. replace (w - String.length s)%nat with 0%nat by lia.
  destruct s as [|c r]; [reflexivity|]. cbn [zeros]. rewrite str_app_nil_l.
  now destruct (_ || _).
Qed.

Lemma length_zfill s w :
  String.length (zfill s w) = Nat.max w (String.length s).
Proof.
  unfold zfill. destruct s as [|c r]; [rewrite length_zeros; simpl; lia|].
  destruct (_ || _); cbn [String.length];
    rewrite str_length_app, length_zeros; cbn [String.length]; lia.
Qed.

Lemma str_all_zfill p s w :
  p "0"%char = true -> str_all p s = true -> str_all p (zfill s w) = true.
Proof.
  intros H0 Hs. unfold zfill. destruct s as [|c r]; [now apply str_all_zeros|].
  cbn [str_all] in Hs. apply andb_true_iff in Hs as [Hc Hr].
  destruct (_ || _); cbn [str_all]; rewrite ?str_all_app; cbn [str_all];
    rewrite str_all_zeros, ?Hc, ?Hr by assumption; reflexivity.
Qed.

Lemma zfill_unsigned s w :
  str_all Spec.is_hex_char s = true ->
  zfill s w = zeros (w - String.length s) +:+ s.
Proof.
  intros Hs. unfold zfill. destruct s as [|c r]; [now rewrite str_app_empty_r|].
  cbn [str_all] in Hs. apply andb_true_iff in Hs as [Hc _].
  destruct (is_hex_char_not_sign c Hc) as [-> ->]. reflexivity.
Qed.

Section Format.
Variable b : N.
Hypothesis b_ge : (2 <= b)%N.

Lemma hex_chars_digits_of n : str_all Spec.is_hex_char (digits_of b n) = true.
Proof. apply str_all_digits_of; [assumption|]. intros d _. apply digit_char_hex_char. Qed.

(** Zero-padding a format is the same as [zfill] on the unpadded text. *)
Lemma format_zero_zfill z w :
  format_zero b z w = zfill (signed z (digits_of b (Z.abs_N z))) w.
Proof.
  unfold format_zero, signed. destruct (z <? 0).
  - unfold zfill. cbn [String.length]. rewrite Ascii.eqb_refl, orb_true_r.
    do 2 f_equal. f_equal. lia.
  - now rewrite zfill_unsigned by apply hex_chars_digits_of.
Qed.

Lemma length_format_zero z w :
  String.length (format_zero b z w)
  = Nat.max w (String.length (signed z (digits_of b (Z.abs_N z)))).
Proof. rewrite format_zero_zfill. apply length_zfill. Qed.

Lemma clean_signed z n : Spec.is_clean (signed z (digits_of b n)) = true.
Proof.
  assert (H : Spec.is_clean (digits_of b n) = true).
  { eapply str_all_impl; [|apply hex_chars_digits_of]. apply is_hex_char_clean. }
  unfold signed. destruct (z <? 0); [|assumption].
  unfold Spec.is_clean in *. cbn [str_all]. now rewrite H.
Qed.

Lemma clean_format_zero z w : Spec.is_clean (format_zero b z w) = true.
Proof.
  rewrite format_zero_zfill. apply str_all_zfill; [reflexivity|]. apply clean_signed.
Qed.

Lemma signed_nonempty z n : is_empty (signed z (digits_of b n)) = false.
Proof. unfold signed. destruct (z <? 0); [reflexivity|]. now apply digits_of_nonempty. Qed.

Hypothesis b_le : (b <= 16)%N.

(** What a format prints denotes the number that was formatted. *)
Lemma read_number_format_zero z w :
  Spec.read_number (Z.of_N b) (format_zero b z w) = Some z.
Proof.
  unfold format_zero. destruct (Z.ltb_spec z 0) as [Hz|Hz].
  - cbn [Spec.read_number]. rewrite Ascii.eqb_refl.
    assert (E : is_empty (zeros (w - 1 - String.length (digits_of b (Z.abs_N z)))
                          +:+ digits_of b (Z.abs_N z)) = false).
    { apply is_empty_false_length. rewrite str_length_app.
      pose proof (digits_of_nonempty b b_ge (Z.abs_N z)) as H.
      apply is_empty_false_length in H. lia. }
    rewrite E, read_digits_zeros, read_digits_of by lia.
    cbn. f_equal. lia.
  - set (ds := digits_of b (Z.abs_N z)).
    assert (R : Spec.read_digits (Z.of_N b) 0 (zeros (w - String.length ds) +:+ ds)
                = Some z).
    { rewrite read_digits_zeros by lia. subst ds.
      rewrite read_digits_of by lia. f_equal. lia. }
    destruct (zeros (w - String.length ds) +:+ ds) as [|c r] eqn:E.
    + exfalso. pose proof (digits_of_nonempty b b_ge (Z.abs_N z)) as H.
      apply is_empty_false_length in H. fold ds in H.
      assert (L : String.length (zeros (w - String.length ds) +:+ ds) = 0%nat)
        by (now rewrite E).
      rewrite str_length_app in L. lia.
    + cbn [Spec.read_number].
      destruct (Ascii.eqb_spec c "-") as [->|_]; [|exact R].
      discriminate R.
Qed.

End Format.

Lemma str_of_int_clean z : Spec.is_clean (str_of_int z) = true.
Proof. apply clean_signed. lia. Qed.

Lemma str_of_int_nonempty z : is_empty (str_of_int z) = false.
Proof. apply signed_nonempty. lia. Qed.

Lemma split_sign_digits s :
  str_all is_digit s = true -> split_sign s = (false, s).
Proof.
  destruct s as [|c r]; [reflexivity|]. cbn [str_all].
  intros [Hc _]%andb_true_iff. unfold split_sign.
  now destruct (is_digit_not_sign c Hc) as (-> & -> & _).
Qed.

Lemma underscores_ok_none s prev :
  str_all (fun c => negb (Ascii.eqb c "_")) s = true ->
  underscores_ok prev s = true /\ remove_underscores s = s.
Proof.
  revert prev. induction s as [|c r IH]; intros prev; [split; reflexivity|].
  cbn [str_all]. intros [Hc Hr]%andb_true_iff.
  apply negb_true_iff in Hc. cbn [underscores_ok]. rewrite Hc.
  destruct (IH (is_digit c) Hr) as [-> E]. split; [reflexivity|].
  unfold remove_underscores in *. cbn [str_filter]. now rewrite Hc, E.
Qed.

(** Reading back the text of an int gives the int. *)
Lemma int_of_string_str_of_int z : int_of_string (str_of_int z) = Some z.
Proof.
  assert (Hd : str_all is_digit (digits_of 10 (Z.abs_N z)) = true).
  { apply str_all_digits_of; [lia|]. apply digit_char_digit. }
  assert (Hu : str_all (fun c => negb (Ascii.eqb c "_")) (str_of_int z) = true).
  { unfold str_of_int, signed. destruct (z <? 0); cbn [str_all];
      [apply andb_true_iff; split; [reflexivity|]|];
      (eapply str_all_impl; [|exact Hd]);
      intros c Hc; now destruct (is_digit_not_sign c Hc) as (_ & _ & ->). }
  assert (Hs : str_all (fun c => negb (is_c_space c)) (str_of_int z) = true).
  { eapply str_all_impl; [|apply str_of_int_clean].
    intros c [Hc _]%andb_true_iff. destruct (is_c_space c) eqn:E; [|reflexivity].
    apply is_c_space_is_space in E. now rewrite E in Hc. }
  unfold int_of_string. rewrite (strip_by_id _ _ Hs).
  destruct (underscores_ok_none _ false Hu) as [-> ->].
  unfold str_of_int, signed. destruct (Z.ltb_spec z 0) as [Hz|Hz].
  - cbn [split_sign]. rewrite Ascii.eqb_refl.
    rewrite digits_of_nonempty, Hd by lia. cbn [negb andb].
    rewrite decimal_value_digits_of. f_equal. lia.
  - rewrite (split_sign_digits _ Hd).
    rewrite digits_of_nonempty, Hd by lia. cbn [negb andb].
    rewrite decimal_value_digits_of. f_equal. lia.
Qed.

Lemma no_space_nonblank s :
  Spec.no_space s = true -> is_empty s = false -> is_empty (strip s) = false.
Proof. intros H E. now rewrite no_space_strip. Qed.

End PyFacts.

(** ** The reconciliation engine *)

Module Reconcile.

Lemma not_in_retained canonical candidates :
  Spec.Retained canonical candidates (Test.not_in canonical candidates).
Proof.
  induction candidates as [|g l IH]; [constructor|].
  unfold Test.not_in in *. rewrite filter_cons.
  destruct (decide (g ∉ canonical)) as [Hout|Hin].
  - now apply Spec.retained_keep.
  - apply Spec.retained_drop; [|assumption].
    now destruct (decide (g ∈ canonical)).
Qed.

Lemma retained_unique canonical candidates out :
  Spec.Retained canonical candidates out ->
  out = Test.not_in canonical candidates.
Proof.
  induction 1 as [|g l out Hg _ IH|g l out Hg _ IH];
    unfold Test.not_in in *; rewrite ?filter_cons; [reflexivity| |].
  - rewrite decide_True by assumption. now f_equal.
  - rewrite decide_False by auto. exact IH.
Qed.

Lemma count_not_in canonical candidates (x : string) :
  count_occ String.string_dec (Test.not_in canonical candidates) x
  = if bool_decide (x ∈ canonical) then 0%nat
    else count_occ String.string_dec candidates x.
Proof.
  induction candidates as [|g l IH]; [now destruct (bool_decide _)|].
  unfold Test.not_in in *. rewrite filter_cons. cbn [count_occ].
  destruct (decide (g ∉ canonical)) as [Hout|Hin]; cbn [count_occ];
    rewrite IH; destruct (String.string_dec g x) as [->|Hne]; try reflexivity.
  - now rewrite bool_decide_eq_false_2.
  - rewrite bool_decide_eq_true_2; [reflexivity|].
    now destruct (decide (x ∈ canonical)).
Qed.

(** C2. The reconciliation diff keeps exactly the candidates that are not
    in the canonical set, in their original order and as often as they
    occur: the output is the one list that the retention rule of the
    specification allows, it is a subsequence of the candidates, and every
    text occurs in it as often as among the candidates unless it is
    canonical.  For canonical = {"A","B"} and candidates ["A","C","C","B"]
    the result is ["C","C"].  Both scripts compute the same list. *)
Theorem C2_diff_keeps_order_and_duplicates
    (canonical : gset string) (candidates : list string) :
  Spec.Retained canonical candidates (Test.not_in canonical candidates)
  /\ (forall out, Spec.Retained canonical candidates out <->
                  out = Test.not_in canonical candidates)
  /\ sublist (Test.not_in canonical candidates) candidates
  /\ (forall x, x ∈ Test.not_in canonical candidates <->
                x ∈ candidates /\ x ∉ canonical)
  /\ (forall x, count_occ String.string_dec (Test.not_in canonical candidates) x
                = if bool_decide (x ∈ canonical) then 0%nat
                  else count_occ String.string_dec candidates x)
  /\ Test2.not_in canonical candidates = Test.not_in canonical candidates
  /\ Test.not_in (list_to_set ["A"; "B"]) ["A"; "C"; "C"; "B"] = ["C"; "C"].
Proof.
  split; [apply not_in_retained|].
  split; [intros out; split; [apply retained_unique|intros ->; apply not_in_retained]|].
  split; [apply sublist_filter|].
  split.
  { intros x. unfold Test.not_in. rewrite list_elem_of_filter. tauto. }
  split; [apply count_not_in|].
  split; [reflexivity|].
  vm_compute. reflexivity.
Qed.

End Reconcile.

(** ** The field normalizer *)

Module Normalizer.

Import PyFacts.

Lemma str_of_int_not_blank z : is_empty (strip (str_of_int z)) = false.
Proof.
  apply no_space_nonblank; [|apply str_of_int_nonempty].
  apply is_clean_no_space, str_of_int_clean.
Qed.

Lemma to_hex_int z w : Test.to_hex (VInt z) w = Ok (format_X z w).
Proof. reflexivity. Qed.

Lemma _to_hex_int z w : Test2._to_hex (VInt z) w = Ok (format_X z w).
Proof.
  unfold Test2._to_hex. cbn [isna str orb]. now rewrite str_of_int_not_blank.
Qed.

(** C4. For every integer value and width, both hex normalizers return the
    value as upper-case hexadecimal, left-zero-padded to the width: the
    text is the natural representation with zeros put in front of its
    digits (behind the sign, if any), it denotes the value, it holds no
    lower-case letter and no white space, and its length is the larger of
    the width and the length of the natural representation, so a value
    that needs more digits than the width is never cut.  At width 4 the
    value 10 gives "000A" and 65536 gives "10000". *)
Theorem C4_hex_padded_never_truncated (z : Z) (w : nat) :
  Test.to_hex (VInt z) w = Ok (format_X z w)
  /\ Test2._to_hex (VInt z) w = Ok (format_X z w)
  /\ format_X z w
     = signed z (zeros (w - String.length (hex_of_int z)) +:+ hex_of_int (Z.abs z))
  /\ format_X z w = zfill (hex_of_int z) w
  /\ Spec.read_number 16 (hex_of_int z) = Some z
  /\ Spec.read_number 16 (format_X z w) = Some z
  /\ Spec.is_clean (format_X z w) = true
  /\ String.length (format_X z w) = Nat.max w (String.length (hex_of_int z))
  /\ Test.to_hex (VInt 10) 4 = Ok "000A"
  /\ Test.to_hex (VInt 65536) 4 = Ok "10000"
  /\ Test2._to_hex (VInt 10) 4 = Ok "000A"
  /\ Test2._to_hex (VInt 65536) 4 = Ok "10000".
Proof.
  split; [apply to_hex_int|]. split; [apply _to_hex_int|].
  split.
  { unfold format_X, format_zero, hex_of_int, signed.
    replace (Z.abs_N (Z.abs z)) with (Z.abs_N z) by now destruct z.
    destruct (Z.ltb_spec z 0) as [Hz|Hz].
    - destruct (Z.ltb_spec (Z.abs z) 0); [lia|]. cbn [String.length].
      do 3 f_equal. lia.
    - destruct (Z.ltb_spec (Z.abs z) 0); [lia|]. reflexivity. }
  split; [apply (format_zero_zfill 16); lia|].
  split.
  { pose proof (read_number_format_zero 16 ltac:(lia) ltac:(lia) z 0) as H.
    rewrite (format_zero_zfill 16), zfill_ge in H by lia. exact H. }
  split; [apply (read_number_format_zero 16); lia|].
  split; [apply (clean_format_zero 16); lia|].
  split; [apply (length_format_zero 16); lia|].
  repeat split; vm_compute; reflexivity.
Qed.

Lemma int_raises_exception v e : int v = Raise e -> is_exception e = true.
Proof.
  destruct v as [|z|[|neg|neg m x]|s]; cbn; try discriminate;
    try (intros [= <-]; reflexivity).
  destruct (int_of_string s); cbn; [discriminate|]. now intros [= <-].
Qed.

(** The hex normalizer of [test2.py] completes exactly on what is absent,
    blank or a number. *)
Lemma _to_hex_is_ok v w :
  is_ok (Test2._to_hex v w) = Spec.absent_or_blank v || Spec.parses_as_number v.
Proof.
  unfold Test2._to_hex, Spec.absent_or_blank, Spec.parses_as_number.
  destruct (isna v || is_empty (strip (str v))); [reflexivity|]. cbn [orb].
  destruct (int v) as [z|e] eqn:E; [reflexivity|].
  cbn [try_except is_ok orb]. rewrite (int_raises_exception _ _ E).
  now destruct (float_of_string _) as [[| |]|].
Qed.

Lemma _to_hex_absent v w : isna v = true -> Test2._to_hex v w = Ok "".
Proof. intros H. unfold Test2._to_hex. now rewrite H. Qed.

Lemma _to_hex_blank v w :
  is_empty (strip (str v)) = true -> Test2._to_hex v w = Ok "".
Proof. intros H. unfold Test2._to_hex. now rewrite H, orb_true_r. Qed.

(** C5. In [test2.py] the hex normalizer returns the empty string for
    every absent and every blank input; for every other input on which
    direct integer parsing raises, it replaces the comma by a point, parses
    the text as a float and truncates, so "10,5" at width 4 gives "000A".
    In [test.py] the retry parses the input as a float without replacing
    the comma and no blank input is recognised: "10,5" and " " both raise
    [ValueError] there, while "10.5" gives "000A". *)
Theorem C5_blank_and_decimal_comma_in_test2_only :
  (forall v w, isna v = true \/ is_empty (strip (str v)) = true ->
               Test2._to_hex v w = Ok "")
  /\ (forall v w e,
        isna v = false -> is_empty (strip (str v)) = false ->
        int v = Raise e ->
        Test2._to_hex v w
        = (f <- of_option (float_of_string (replace_comma (str v))) ValueError ;;
           ival <- int_of_float f ;;
           Ok (format_X ival w)))
  /\ (forall v w ival,
        isna v = false -> is_empty (strip (str v)) = false ->
        int v = Ok ival -> Test2._to_hex v w = Ok (format_X ival w))
  /\ Test2._to_hex (VStr "10,5") 4 = Ok "000A"
  /\ Test2._to_hex (VStr " ") 4 = Ok ""
  /\ Test2._to_hex VNone 4 = Ok ""
  /\ (forall v w, isna v = true -> Test.to_hex v w = Ok "")
  /\ Test.to_hex (VStr "10.5") 4 = Ok "000A"
  /\ Test.to_hex (VStr "10,5") 4 = Raise ValueError
  /\ Test.to_hex (VStr " ") 4 = Raise ValueError
  /\ Test.to_hex (VStr "") 4 = Raise ValueError.
Proof.
  split. { intros v w [H|H]; [now apply _to_hex_absent|now apply _to_hex_blank]. }
  split.
  { intros v w e Hna Hb Hi. unfold Test2._to_hex. rewrite Hna, Hb, Hi.
    cbn [orb try_except]. rewrite (int_raises_exception _ _ Hi).
    destruct (float_of_string _) as [f|]; cbn [of_option bind]; [|reflexivity].
    now destruct (int_of_float f). }
  split.
  { intros v w ival Hna Hb Hi. unfold Test2._to_hex. now rewrite Hna, Hb, Hi. }
  split; [vm_compute; reflexivity|]. split; [vm_compute; reflexivity|].
  split; [reflexivity|].
  split. { intros v w H. unfold Test.to_hex. now rewrite H. }
  repeat split; vm_compute; reflexivity.
Qed.

End Normalizer.


(** ** The identifier builder: the MNC segment *)

Module MncSegment.

Import PyFacts.

Lemma mnc_part_same raw mode : Test.mnc_part raw mode = Test2.mnc_part raw mode.
Proof.
  unfold Test.mnc_part, Test2.mnc_part.
  destruct (String.eqb mode "2"); [reflexivity|].
  destruct (String.eqb mode "3"); [reflexivity|].
  destruct (int_of_string raw) as [v|]; [|reflexivity].
  destruct (Z.leb_spec 100 v), (Z.ltb_spec v 100); try reflexivity; lia.
Qed.

Lemma mnc_part_2 raw : Test2.mnc_part raw "2" = zfill raw 2.
Proof. reflexivity. Qed.

Lemma mnc_part_3 raw : Test2.mnc_part raw "3" = zfill raw 3.
Proof. reflexivity. Qed.

Lemma mnc_part_auto raw :
  Test2.mnc_part raw "auto"
  = match int_of_string raw with
    | Some v => format_d v (if v <? 100 then 2 else 3)
    | None => raw
    end.
Proof.
  unfold Test2.mnc_part. cbn [String.eqb Ascii.eqb Bool.eqb].
  destruct (int_of_string raw) as [v|]; [|reflexivity]. now destruct (v <? 100).
Qed.

Lemma length_format_d v w k :
  0 <= v < 10 ^ Z.of_nat k -> (1 <= k <= w)%nat ->
  String.length (format_d v w) = w.
Proof.
  intros Hv Hk. unfold format_d. rewrite length_format_zero by lia.
  unfold signed. destruct (Z.ltb_spec v 0); [lia|].
  pose proof (length_digits_of_le 10 ltac:(lia) (Z.abs_N v) k) as Hlen.
  enough (String.length (digits_of 10 (Z.abs_N v)) <= k)%nat by lia.
  apply Hlen; [|lia]. apply N2Z.inj_lt. rewrite N2Z.inj_pow, N2Z.inj_abs_N.
  rewrite nat_N_Z. change (Z.of_N 10) with 10. lia.
Qed.

Lemma digits_format_d v w : 0 <= v -> str_all is_digit (format_d v w) = true.
Proof.
  intros Hv. unfold format_d, format_zero. destruct (Z.ltb_spec v 0); [lia|].
  rewrite str_all_app, str_all_zeros by reflexivity.
  apply str_all_digits_of; [lia|]. apply digit_char_digit.
Qed.

Lemma _digits_int v : Test2._digits (VInt v) = str_of_int v.
Proof.
  unfold Test2._digits. cbn [isna str].
  pose proof (is_clean_no_space _ (str_of_int_clean v)) as H.
  now rewrite (no_space_remove_ws _ H), (no_space_strip _ H).
Qed.

Lemma norm_digits_int v :
  Test.norm_digits (VInt v) None None = Ok (str_of_int v).
Proof.
  unfold Test.norm_digits. cbn [isna int bind].
  now rewrite (no_space_remove_ws _ (is_clean_no_space _ (str_of_int_clean v))).
Qed.

(** C3, as the code has it.  Under mnc_mode "auto" both builders agree on
    the MNC segment.  When the normalized digit string parses as an integer,
    the segment is that value zero-padded to at least 2 digits if it is less
    than 100 and to at least 3 digits otherwise, and it denotes the value:
    exactly 2 digits for 0..99 and exactly 3 digits for 100..999, with no
    digit dropped beyond that.  When the string does not parse it is passed
    through unchanged.  The digit string of an integer MNC is its decimal
    text and parses back to it; mnc=1 renders as "01", so that
    build(250, 1, 10, 20) at widths 4 and 4 is "25001000A0014", and mnc=120
    renders as "120". *)
Theorem C3_auto_mode_pads_to_two_or_three (raw : string) :
  Test.mnc_part raw "auto" = Test2.mnc_part raw "auto"
  /\ match int_of_string raw with
     | Some v =>
         Test2.mnc_part raw "auto" = format_d v (if v <? 100 then 2 else 3)
         /\ Spec.read_number 10 (Test2.mnc_part raw "auto") = Some v
         /\ (2 <= String.length (Test2.mnc_part raw "auto"))%nat
         /\ (0 <= v -> str_all is_digit (Test2.mnc_part raw "auto") = true)
         /\ (0 <= v < 100 -> String.length (Test2.mnc_part raw "auto") = 2%nat)
         /\ (100 <= v < 1000 -> String.length (Test2.mnc_part raw "auto") = 3%nat)
         /\ (100 <= v -> (3 <= String.length (Test2.mnc_part raw "auto"))%nat)
     | None => Test2.mnc_part raw "auto" = raw
     end
  /\ (forall v, Test2._digits (VInt v) = str_of_int v
                /\ Test.norm_digits (VInt v) None None = Ok (str_of_int v)
                /\ int_of_string (str_of_int v) = Some v)
  /\ Test2.mnc_part (Test2._digits (VInt 1)) "auto" = "01"
  /\ Test2.mnc_part (Test2._digits (VInt 120)) "auto" = "120"
  /\ Test2.build_id (VInt 250) (VInt 1) (VInt 10) (VInt 20) "auto" 4 4
     = Ok "25001000A0014"
  /\ Test.build_id (VInt 250) (VInt 1) (VInt 10) (VInt 20) 3 "auto" 4 4
     = Ok "25001000A0014".
Proof.
  split; [apply mnc_part_same|]. split.
  { rewrite mnc_part_auto. destruct (int_of_string raw) as [v|]; [|reflexivity].
    split; [reflexivity|].
    split; [apply (read_number_format_zero 10); lia|].
    split.
    { unfold format_d. rewrite length_format_zero by lia.
      destruct (v <? 100); lia. }
    split; [intros Hv; now apply digits_format_d|].
    split.
    { intros Hv. destruct (Z.ltb_spec v 100); [|lia].
      apply (length_format_d v 2 2); [simpl; lia|lia]. }
    split.
    { intros Hv. destruct (Z.ltb_spec v 100); [lia|].
      apply (length_format_d v 3 3); [simpl; lia|lia]. }
    intros Hv. destruct (Z.ltb_spec v 100); [lia|].
    unfold format_d. rewrite length_format_zero by lia. lia. }
  split.
  { intros v. split; [apply _digits_int|].
    split; [apply norm_digits_int|apply int_of_string_str_of_int]. }
  repeat split; vm_compute; reflexivity.
Qed.

(** C3, as stated, fails at mnc=1000: the digit string "1000" parses as the
    integer 1000, which is not less than 100, and the segment is the four
    digits "1000" rather than exactly three. *)
Lemma C3_counterexample_mnc_1000 :
  int_of_string (Test2._digits (VInt 1000)) = Some 1000
  /\ Test2.mnc_part (Test2._digits (VInt 1000)) "auto" = "1000"
  /\ Test.mnc_part (Test2._digits (VInt 1000)) "auto" = "1000"
  /\ String.length (Test2.mnc_part (Test2._digits (VInt 1000)) "auto") = 4%nat
  /\ Test2.build_id (VInt 250) (VInt 1000) (VInt 10) (VInt 20) "auto" 4 4
     = Ok "2501000000A0014"
  /\ Test.build_id (VInt 250) (VInt 1000) (VInt 10) (VInt 20) 3 "auto" 4 4
     = Ok "2501000000A0014".
Proof. repeat split; vm_compute; reflexivity. Qed.

(** C10. Under the fixed modes "2" and "3" the MNC segment is the digit
    string zero-filled to 2, respectively 3, characters: a digit string
    longer than that is the segment unchanged, so the mode fixes a minimum
    width only.  With mnc=1234 under mode "2" (and mnc=12345 under mode
    "3") the identifier is longer than 3 + mode width + lac_width +
    ci_width. *)
Theorem C10_fixed_modes_never_truncate (raw : string) :
  Test.mnc_part raw "2" = zfill raw 2
  /\ Test2.mnc_part raw "2" = zfill raw 2
  /\ Test.mnc_part raw "3" = zfill raw 3
  /\ Test2.mnc_part raw "3" = zfill raw 3
  /\ ((2 < String.length raw)%nat ->
      Test.mnc_part raw "2" = raw /\ Test2.mnc_part raw "2" = raw)
  /\ ((3 < String.length raw)%nat ->
      Test.mnc_part raw "3" = raw /\ Test2.mnc_part raw "3" = raw)
  /\ String.length (Test2.mnc_part raw "2") = Nat.max 2 (String.length raw)
  /\ String.length (Test2.mnc_part raw "3") = Nat.max 3 (String.length raw)
  /\ (forall mcc mnc lac ci lw cw l c,
        (2 < String.length (Test2._digits mnc))%nat ->
        Test2._to_hex lac lw = Ok l -> Test2._to_hex ci cw = Ok c ->
        Test2.build_id mcc mnc lac ci "2" lw cw
        = Ok (upper (zfill (Test2._digits mcc) 3 +:+ Test2._digits mnc +:+ l +:+ c)))
  /\ (forall mcc mnc lac ci lw cw l c,
        (3 < String.length (Test2._digits mnc))%nat ->
        Test2._to_hex lac lw = Ok l -> Test2._to_hex ci cw = Ok c ->
        Test2.build_id mcc mnc lac ci "3" lw cw
        = Ok (upper (zfill (Test2._digits mcc) 3 +:+ Test2._digits mnc +:+ l +:+ c)))
  /\ Test2.build_id (VInt 250) (VInt 1234) (VInt 10) (VInt 20) "2" 4 4
     = Ok "2501234000A0014"
  /\ Test.build_id (VInt 250) (VInt 1234) (VInt 10) (VInt 20) 3 "2" 4 4
     = Ok "2501234000A0014"
  /\ (3 + 2 + 4 + 4 < String.length "2501234000A0014")%nat
  /\ Test2.build_id (VInt 250) (VInt 12345) (VInt 10) (VInt 20) "3" 4 4
     = Ok "25012345000A0014"
  /\ Test.build_id (VInt 250) (VInt 12345) (VInt 10) (VInt 20) 3 "3" 4 4
     = Ok "25012345000A0014"
  /\ (3 + 3 + 4 + 4 < String.length "25012345000A0014")%nat.
Proof.
  split; [reflexivity|]. split; [reflexivity|].
  split; [reflexivity|]. split; [reflexivity|].
  split. { intros H. rewrite mnc_part_same, mnc_part_2, zfill_ge by lia. auto. }
  split. { intros H. rewrite mnc_part_same, mnc_part_3, zfill_ge by lia. auto. }
  split; [rewrite mnc_part_2; apply length_zfill|].
  split; [rewrite mnc_part_3; apply length_zfill|].
  split.
  { intros mcc mnc lac ci lw cw l c H Hl Hc. unfold Test2.build_id.
    rewrite Hl, Hc, mnc_part_2, (zfill_ge (Test2._digits mnc)) by lia.
    reflexivity. }
  split.
  { intros mcc mnc lac ci lw cw l c H Hl Hc. unfold Test2.build_id.
    rewrite Hl, Hc, mnc_part_3, (zfill_ge (Test2._digits mnc)) by lia.
    reflexivity. }
  repeat split; first [vm_compute; reflexivity | cbn [String.length]; lia].
Qed.

End MncSegment.

(** ** The identifier builder: completion, sentinel and shape *)

Module Builder.

Import PyFacts.

Lemma length_upper s : String.length (upper s) = String.length s.
Proof. apply str_length_map. Qed.

Lemma no_space_app a b :
  Spec.no_space a = true -> Spec.no_space b = true ->
  Spec.no_space (a +:+ b) = true.
Proof. intros Ha Hb. unfold Spec.no_space in *. now rewrite str_all_app, Ha, Hb. Qed.

Lemma no_space_zfill s w : Spec.no_space s = true -> Spec.no_space (zfill s w) = true.
Proof. now apply str_all_zfill. Qed.

Lemma no_space_format b z w : (2 <= b)%N -> Spec.no_space (format_zero b z w) = true.
Proof. intros Hb. now apply is_clean_no_space, clean_format_zero. Qed.

Lemma no_space__digits v : Spec.no_space (Test2._digits v) = true.
Proof.
  unfold Test2._digits. destruct (isna v); [reflexivity|].
  rewrite no_space_strip; apply remove_ws_no_space.
Qed.

Lemma no_space_norm_digits v w mw s :
  Test.norm_digits v w mw = Ok s -> Spec.no_space s = true.
Proof.
  unfold Test.norm_digits. destruct (isna v); [now intros [= <-]|].
  intros (t & _ & H)%bind_ok. injection H as <-.
  destruct w as [[|n]|]; try apply remove_ws_no_space.
  destruct (_ <? _)%nat; [apply no_space_zfill|]; apply remove_ws_no_space.
Qed.

Lemma no_space_mnc_part raw mode :
  Spec.no_space raw = true -> Spec.no_space (Test2.mnc_part raw mode) = true.
Proof.
  intros H. unfold Test2.mnc_part.
  destruct (String.eqb mode "2"); [now apply no_space_zfill|].
  destruct (String.eqb mode "3"); [now apply no_space_zfill|].
  destruct (int_of_string raw) as [v|]; [|assumption].
  destruct (v <? 100); apply no_space_format; lia.
Qed.

Lemma no_space__to_hex v w s : Test2._to_hex v w = Ok s -> Spec.no_space s = true.
Proof.
  unfold Test2._to_hex. destruct (_ || _); [now intros [= <-]|].
  intros (z & _ & H)%bind_ok. injection H as <-. apply no_space_format. lia.
Qed.

Lemma no_space_to_hex v w s : Test.to_hex v w = Ok s -> Spec.no_space s = true.
Proof.
  unfold Test.to_hex. destruct (isna v); [now intros [= <-]|].
  intros (z & _ & H)%bind_ok. injection H as <-. apply no_space_format. lia.
Qed.

(** Every identifier that either builder returns is free of white space
    and already upper-case. *)
Lemma build_id_clean mcc mnc lac ci mode lw cw id :
  Test2.build_id mcc mnc lac ci mode lw cw = Ok id -> Spec.is_clean id = true.
Proof.
  unfold Test2.build_id.
  intros (l & Hl & (c & Hc & H)%bind_ok)%bind_ok. injection H as <-.
  apply upper_no_space. repeat apply no_space_app.
  - apply no_space_zfill, no_space__digits.
  - apply no_space_mnc_part, no_space__digits.
  - eapply no_space__to_hex, Hl.
  - eapply no_space__to_hex, Hc.
Qed.

Lemma test_build_id_clean mcc mnc lac ci mw mode lw cw id :
  Test.build_id mcc mnc lac ci mw mode lw cw = Ok id -> Spec.is_clean id = true.
Proof.
  unfold Test.build_id.
  intros (m & Hm & (r & Hr & (l & Hl & (c & Hc & H)%bind_ok)%bind_ok)%bind_ok)%bind_ok.
  injection H as <-.
  apply upper_no_space. repeat apply no_space_app.
  - destruct mw; eapply no_space_norm_digits, Hm.
  - rewrite MncSegment.mnc_part_same. eapply no_space_mnc_part, no_space_norm_digits, Hr.
  - eapply no_space_to_hex, Hl.
  - eapply no_space_to_hex, Hc.
Qed.

Lemma clean_fixed id :
  Spec.is_clean id = true ->
  strip id = id /\ upper id = id /\ remove_ws id = id.
Proof.
  intros H. pose proof (is_clean_no_space _ H) as Hn.
  split; [now apply no_space_strip|].
  split; [now apply is_clean_upper_id|now apply no_space_remove_ws].
Qed.

Lemma build_id_length mcc mnc lac ci mode lw cw id :
  Test2.build_id mcc mnc lac ci mode lw cw = Ok id -> (3 <= String.length id)%nat.
Proof.
  unfold Test2.build_id.
  intros (l & Hl & (c & Hc & H)%bind_ok)%bind_ok. injection H as <-.
  rewrite length_upper, str_length_app, length_zfill. lia.
Qed.

Lemma build_id_is_ok mcc mnc lac ci mode lw cw :
  is_ok (Test2.build_id mcc mnc lac ci mode lw cw)
  = is_ok (Test2._to_hex lac lw) && is_ok (Test2._to_hex ci cw).
Proof.
  unfold Test2.build_id.
  destruct (Test2._to_hex lac lw); [|reflexivity].
  now destruct (Test2._to_hex ci cw).
Qed.

Lemma mapM_ok_Forall {A B} (f : A -> result B) (P : B -> Prop) l ys :
  (forall x y, f x = Ok y -> P y) -> mapM f l = Ok ys -> Forall P ys.
Proof.
  intros Hf. revert ys. induction l as [|x l IH]; intros ys; cbn [mapM].
  - intros [= <-]. constructor.
  - intros (y & Hy & (ys' & Hys & H)%bind_ok)%bind_ok. injection H as <-.
    constructor; eauto.
Qed.

Lemma fetch_access_ids_all rows ids :
  Test2.fetch_access_ids rows = Ok ids ->
  mapM (fun r => Test2.build_id (mcc r) (mnc r) (lac r) (ci r)
                   Test2.MNC_MODE Test2.LAC_HEX_WIDTH Test2.CI_HEX_WIDTH) rows
  = Ok ids
  /\ Forall (fun id => (3 <= String.length id)%nat) ids.
Proof.
  unfold Test2.fetch_access_ids. intros (built & Hb & H)%bind_ok.
  injection H as <-.
  assert (HF : Forall (fun id => (3 <= String.length id)%nat) built).
  { eapply mapM_ok_Forall; [|exact Hb]. intros r id. apply build_id_length. }
  assert (E : List.filter (fun s => negb (is_empty s)) built = built).
  { clear Hb. induction HF as [|id l Hid _ IH]; [reflexivity|].
    cbn [List.filter]. destruct id; [simpl in Hid; lia|]. cbn. now rewrite IH. }
  rewrite E. split; assumption.
Qed.

Lemma mapM_ok_elem {A B} (f : A -> result B) l ys x :
  mapM f l = Ok ys -> x ∈ l -> exists y, f x = Ok y /\ y ∈ ys.
Proof.
  revert ys. induction l as [|a l IH]; intros ys; cbn [mapM].
  - intros _ Hx. inversion Hx.
  - intros (y & Hy & (ys' & Hys & H)%bind_ok)%bind_ok. injection H as <-.
    intros [->|Hx]%elem_of_cons.
    + exists y. split; [exact Hy|left].
    + destruct (IH _ Hys Hx) as (y' & Hy' & Hin). exists y'.
      split; [exact Hy'|now right].
Qed.

Lemma mapM_raise_elem {A B} (f : A -> result B) l x e :
  x ∈ l -> f x = Raise e -> exists e', mapM f l = Raise e'.
Proof.
  induction l as [|a l IH]; [intros Hx; inversion Hx|].
  intros [->|Hx]%elem_of_cons Hf; cbn [mapM].
  - rewrite Hf. eauto.
  - destruct (f a); [|eauto]. cbn [bind].
    destruct (IH Hx Hf) as [e' ->]. eauto.
Qed.

(** C1, as the code has it.  The builder of [test2.py] completes exactly
    when the hex normalization of lac and of ci both complete, that is,
    when each of the two is absent, blank or a number; when one of them
    raises, the builder raises that exception, and one such row makes
    the fetch of the whole table raise.  The mcc and mnc fields never make
    the builder raise: text that is no number stays in the identifier.
    Empty identifiers are removed before the canonical set is made, so the
    empty string is never in the canonical set, and the identifier of
    every row, unless it is empty, is in it. *)
Theorem C1_builder_raises_on_bad_hex_and_keeps_text
    (mcc mnc lac ci : value) (mode : string) (lw cw : nat) :
  is_ok (Test2.build_id mcc mnc lac ci mode lw cw)
  = is_ok (Test2._to_hex lac lw) && is_ok (Test2._to_hex ci cw)
  /\ is_ok (Test2.build_id mcc mnc lac ci mode lw cw)
     = (Spec.absent_or_blank lac || Spec.parses_as_number lac)
       && (Spec.absent_or_blank ci || Spec.parses_as_number ci)
  /\ (forall e, Test2._to_hex lac lw = Raise e ->
                Test2.build_id mcc mnc lac ci mode lw cw = Raise e)
  /\ (forall l e, Test2._to_hex lac lw = Ok l -> Test2._to_hex ci cw = Raise e ->
                  Test2.build_id mcc mnc lac ci mode lw cw = Raise e)
  /\ (forall l c, Test2._to_hex lac lw = Ok l -> Test2._to_hex ci cw = Ok c ->
        Test2.build_id mcc mnc lac ci mode lw cw
        = Ok (upper (zfill (Test2._digits mcc) 3
                     +:+ Test2.mnc_part (Test2._digits mnc) mode +:+ l +:+ c)))
  /\ (forall rows ids, Test2.fetch_access_ids rows = Ok ids ->
        (exists built,
           mapM (fun r => Test2.build_id (Py.mcc r) (Py.mnc r) (Py.lac r) (Py.ci r)
                            Test2.MNC_MODE Test2.LAC_HEX_WIDTH Test2.CI_HEX_WIDTH)
             rows = Ok built
           /\ ids = List.filter (fun s => negb (is_empty s)) built)
        /\ ("" ∉ ids)
        /\ ("" ∉ (list_to_set ids : gset string))
        /\ (forall r, r ∈ rows ->
              exists id,
                Test2.build_id (Py.mcc r) (Py.mnc r) (Py.lac r) (Py.ci r)
                  Test2.MNC_MODE Test2.LAC_HEX_WIDTH Test2.CI_HEX_WIDTH = Ok id
                /\ (is_empty id = false ->
                    id ∈ (list_to_set ids : gset string))))
  /\ (forall rows r e, r ∈ rows ->
        Test2.build_id (Py.mcc r) (Py.mnc r) (Py.lac r) (Py.ci r)
          Test2.MNC_MODE Test2.LAC_HEX_WIDTH Test2.CI_HEX_WIDTH = Raise e ->
        exists e', Test2.fetch_access_ids rows = Raise e').
Proof.
  split; [apply build_id_is_ok|].
  split; [now rewrite build_id_is_ok, !Normalizer._to_hex_is_ok|].
  split. { intros e H. unfold Test2.build_id. now rewrite H. }
  split. { intros l e Hl Hc. unfold Test2.build_id. now rewrite Hl, Hc. }
  split. { intros l c Hl Hc. unfold Test2.build_id. now rewrite Hl, Hc. }
  split.
  { intros rows ids H. pose proof H as (built & Hb & Hf)%bind_ok.
    injection Hf as <-.
    assert (Hn : "" ∉ List.filter (fun s => negb (is_empty s)) built).
    { rewrite list_elem_of_In, filter_In. now intros [_ Hne]. }
    split; [now exists built|]. split; [exact Hn|].
    split; [now rewrite elem_of_list_to_set|].
    intros r Hr.
    destruct (mapM_ok_elem
                (fun r => Test2.build_id (Py.mcc r) (Py.mnc r) (Py.lac r) (Py.ci r)
                            Test2.MNC_MODE Test2.LAC_HEX_WIDTH Test2.CI_HEX_WIDTH)
                rows built r Hb Hr) as (id & Hid & Hin).
    exists id. split; [exact Hid|]. intros Hne.
    rewrite elem_of_list_to_set, list_elem_of_In, filter_In, <- list_elem_of_In.
    split; [exact Hin|now rewrite Hne]. }
  intros rows r e Hr He. unfold Test2.fetch_access_ids.
  destruct (mapM_raise_elem
              (fun r => Test2.build_id (Py.mcc r) (Py.mnc r) (Py.lac r) (Py.ci r)
                          Test2.MNC_MODE Test2.LAC_HEX_WIDTH Test2.CI_HEX_WIDTH)
              rows r e Hr He) as [e' ->].
  eauto.
Qed.

(** C1, as stated, fails twice.  A row whose MCC is the text "abc", which
    parses neither as an int nor as a float, gives the non-empty identifier
    "ABC01000A0014", and that identifier enters the canonical set.  A row
    whose LAC is "abc" makes the builder, and with it the fetch of the
    table, raise [ValueError]. *)
Lemma C1_counterexample_non_numeric_fields :
  Spec.parses_as_number (VStr "abc") = false
  /\ Spec.absent_or_blank (VStr "abc") = false
  /\ Test2.build_id (VStr "abc") (VInt 1) (VInt 10) (VInt 20) "auto" 4 4
     = Ok "ABC01000A0014"
  /\ Test2.fetch_access_ids [Row (VStr "abc") (VInt 1) (VInt 10) (VInt 20)]
     = Ok ["ABC01000A0014"]
  /\ Test2.build_id (VInt 250) (VInt 1) (VStr "abc") (VInt 20) "auto" 4 4
     = Raise ValueError
  /\ Test2.fetch_access_ids [Row (VInt 250) (VInt 1) (VStr "abc") (VInt 20)]
     = Raise ValueError.
Proof. repeat split; vm_compute; reflexivity. Qed.

Lemma norm_digits_text x w mw :
  Test.norm_digits (VStr x) w mw
  = Ok (let s := remove_ws (strip x) in
        match w with
        | Some (S _ as n) => if (String.length s <? n)%nat then zfill s n else s
        | _ => s
        end).
Proof. reflexivity. Qed.

Lemma norm_digits_text_fixed s w mw :
  Spec.no_space s = true ->
  match w with Some n => (n <= String.length s)%nat | None => True end ->
  Test.norm_digits (VStr s) w mw = Ok s.
Proof.
  intros Hs Hw. rewrite norm_digits_text. cbv zeta.
  rewrite (no_space_strip _ Hs), (no_space_remove_ws _ Hs).
  destruct w as [[|n]|]; try reflexivity.
  destruct (Nat.ltb_spec (String.length s) (S n)); [lia|reflexivity].
Qed.

Lemma _digits_text x : Test2._digits (VStr x) = strip (remove_ws x).
Proof. reflexivity. Qed.

Lemma _digits_text_fixed s : Spec.no_space s = true -> Test2._digits (VStr s) = s.
Proof.
  intros H. rewrite _digits_text, (no_space_remove_ws _ H). now apply no_space_strip.
Qed.

Lemma str_all_filter_keep q p s :
  str_all q s = true -> str_all q (str_filter p s) = true.
Proof.
  induction s as [|c s IH]; [reflexivity|]. cbn [str_all str_filter].
  intros [Hc Hs]%andb_true_iff. destruct (p c); cbn [str_all]; rewrite ?Hc; auto.
Qed.

Lemma clean_cell_clean v : Spec.is_clean (remove_ws (upper (strip (str v)))) = true.
Proof.
  set (t := strip (str v)).
  assert (Hs : str_all (fun c => negb (is_space c)) (remove_ws (upper t)) = true)
    by apply str_all_filter.
  assert (Hu : str_all (fun c => Ascii.eqb (upper_char c) c) (remove_ws (upper t)) = true).
  { apply str_all_filter_keep. unfold upper. rewrite str_all_map.
    clearbody t. clear Hs.
    induction t as [|c t IH]; [reflexivity|]. cbn [str_all].
    rewrite upper_char_idem, Ascii.eqb_refl. exact IH. }
  unfold Spec.is_clean, Spec.is_clean_char.
  induction (remove_ws (upper t)) as [|c r IH]; [reflexivity|].
  cbn [str_all] in *.
  apply andb_true_iff in Hs as [-> Hs], Hu as [-> Hu]. now rewrite IH.
Qed.

Lemma clean_cells_fixed ids :
  Forall (fun id => Spec.is_clean id = true) ids ->
  clean_cells (map VStr ids) = ids.
Proof.
  induction 1 as [|id ids Hid _ IH]; [reflexivity|].
  unfold clean_cells in *. cbn [map List.filter isna negb str].
  destruct (clean_fixed _ Hid) as (-> & -> & ->). now rewrite IH.
Qed.

Lemma clean_cells_clean cells :
  Forall (fun id => Spec.is_clean id = true) (clean_cells cells).
Proof.
  unfold clean_cells. induction cells as [|v cells IH]; [constructor|].
  cbn [List.filter]. destruct (negb (isna v)); [|exact IH].
  cbn [map]. constructor; [apply clean_cell_clean|exact IH].
Qed.

Lemma norm_digits_length v w mw s :
  Test.norm_digits v w mw = Ok s -> isna v = false ->
  match w with Some n => (n <= String.length s)%nat | None => True end.
Proof.
  unfold Test.norm_digits. intros H Hna. rewrite Hna in H.
  apply bind_ok in H as (t & _ & H). injection H as <-.
  destruct w as [[|n]|]; [lia| |exact I].
  destruct (Nat.ltb_spec (String.length (remove_ws t)) (S n)); [|lia].
  rewrite length_zfill. lia.
Qed.

Lemma norm_digits_absent v w mw : isna v = true -> Test.norm_digits v w mw = Ok "".
Proof. unfold Test.norm_digits. now intros ->. Qed.

Lemma norm_digits_empty_text n mw :
  Test.norm_digits (VStr "") (Some n) mw = Ok (zeros n).
Proof.
  rewrite norm_digits_text. destruct n as [|n]; [reflexivity|].
  cbv zeta. change (remove_ws (strip "")) with "".
  change (String.length "" <? S n)%nat with true. cbv iota.
  unfold zfill. cbn [String.length]. now rewrite Nat.sub_0_r.
Qed.

(** Under a minimum width, text without white space is returned as it is
    exactly when it is long enough. *)
Lemma norm_digits_text_fixed_iff s n mw :
  Spec.no_space s = true ->
  (Test.norm_digits (VStr s) (Some n) mw = Ok s <-> (n <= String.length s)%nat).
Proof.
  intros Hs. split; [|intros Hn; now apply norm_digits_text_fixed].
  rewrite norm_digits_text. cbv zeta.
  rewrite (no_space_strip _ Hs), (no_space_remove_ws _ Hs).
  destruct n as [|n]; [lia|].
  destruct (Nat.ltb_spec (String.length s) (S n)) as [Hlt|Hge]; [|lia].
  intros [= H]. apply (f_equal String.length) in H.
  rewrite length_zfill in H. lia.
Qed.

Lemma test_build_id_length mcc mnc lac ci mode lw cw id :
  Test.build_id mcc mnc lac ci 3 mode lw cw = Ok id -> isna mcc = false ->
  (3 <= String.length id)%nat.
Proof.
  unfold Test.build_id.
  intros (m & Hm & (r & Hr & (l & Hl & (c & Hc & H)%bind_ok)%bind_ok)%bind_ok)%bind_ok
    Hna.
  injection H as <-. rewrite length_upper, str_length_app.
  pose proof (norm_digits_length _ _ _ _ Hm Hna) as Hlen. cbv beta iota in Hlen. lia.
Qed.

(** C9. Normalization is idempotent on its own output where the minimum
    width is met.  Normalizing a present value to digits under a minimum
    width and normalizing the result, as text, under the same width returns
    the result; an absent value gives the empty string, which as text is
    padded to the width.  The digit normalizer of [test2.py], with and
    without its MCC padding, and the clean-up of spreadsheet cells are
    idempotent.  Every composite identifier that a builder returns has no
    white space and is upper-case, so that, taken as text, the cell
    clean-up and the digit normalizers without a width return it
    unchanged; under a minimum width it is returned unchanged exactly when
    it is at least that long.  Under the width 3 of the MCC that is so for
    every identifier of [test2.py] and for every identifier of [test.py]
    whose MCC is present. *)
Theorem C9_normalization_idempotent_where_the_width_is_met :
  (forall v w mw s,
     Test.norm_digits v w mw = Ok s -> isna v = false ->
     Test.norm_digits (VStr s) w mw = Ok s)
  /\ (forall x w mw,
        exists s, Test.norm_digits (VStr x) w mw = Ok s
                  /\ Test.norm_digits (VStr s) w mw = Ok s)
  /\ (forall v n mw,
        isna v = true ->
        Test.norm_digits v (Some n) mw = Ok ""
        /\ Test.norm_digits (VStr "") (Some n) mw = Ok (zeros n))
  /\ (forall v, Test2._digits (VStr (Test2._digits v)) = Test2._digits v)
  /\ (forall v, zfill (Test2._digits (VStr (zfill (Test2._digits v) 3))) 3
                = zfill (Test2._digits v) 3)
  /\ (forall cells, clean_cells (map VStr (clean_cells cells)) = clean_cells cells)
  /\ (forall mcc mnc lac ci mode lw cw id,
        Test2.build_id mcc mnc lac ci mode lw cw = Ok id ->
        Spec.is_clean id = true
        /\ clean_cells [VStr id] = [id]
        /\ Test2._digits (VStr id) = id
        /\ zfill (Test2._digits (VStr id)) 3 = id
        /\ Test.norm_digits (VStr id) None None = Ok id
        /\ Test.norm_digits (VStr id) (Some 3%nat) (Some 3%nat) = Ok id)
  /\ (forall mcc mnc lac ci mw mode lw cw id,
        Test.build_id mcc mnc lac ci mw mode lw cw = Ok id ->
        Spec.is_clean id = true
        /\ clean_cells [VStr id] = [id]
        /\ Test2._digits (VStr id) = id
        /\ Test.norm_digits (VStr id) None None = Ok id
        /\ (forall n mw',
              Test.norm_digits (VStr id) (Some n) mw' = Ok id
              <-> (n <= String.length id)%nat)
        /\ (mw = 3%nat -> isna mcc = false ->
            Test.norm_digits (VStr id) (Some 3%nat) (Some 3%nat) = Ok id)).
Proof.
  split.
  { intros v w mw s H Hna. apply norm_digits_text_fixed.
    - eapply no_space_norm_digits, H.
    - eapply norm_digits_length; eassumption. }
  split.
  { intros x w mw. eexists. split; [apply norm_digits_text|].
    cbv zeta. set (t := remove_ws (strip x)).
    assert (Ht : Spec.no_space t = true) by apply remove_ws_no_space.
    apply norm_digits_text_fixed.
    - destruct w as [[|n]|]; try assumption.
      destruct (_ <? _)%nat; [now apply no_space_zfill|assumption].
    - destruct w as [[|n]|]; [lia| |exact I].
      destruct (Nat.ltb_spec (String.length t) (S n)); [|lia].
      rewrite length_zfill. lia. }
  split.
  { intros v n mw Hna. split; [now apply norm_digits_absent|].
    apply norm_digits_empty_text. }
  split. { intros v. apply _digits_text_fixed, no_space__digits. }
  split.
  { intros v. rewrite _digits_text_fixed by apply no_space_zfill, no_space__digits.
    apply zfill_ge. rewrite length_zfill. lia. }
  split. { intros cells. apply clean_cells_fixed, clean_cells_clean. }
  split.
  { intros mcc mnc lac ci mode lw cw id H.
    pose proof (build_id_clean _ _ _ _ _ _ _ _ H) as Hc.
    pose proof (build_id_length _ _ _ _ _ _ _ _ H) as Hl.
    pose proof (is_clean_no_space _ Hc) as Hn.
    split; [exact Hc|].
    split; [apply (clean_cells_fixed [id]); now constructor|].
    split; [now apply _digits_text_fixed|].
    split; [rewrite _digits_text_fixed by assumption; now apply zfill_ge|].
    split; now apply norm_digits_text_fixed. }
  intros mcc mnc lac ci mw mode lw cw id H.
  pose proof (test_build_id_clean _ _ _ _ _ _ _ _ _ H) as Hc.
  pose proof (is_clean_no_space _ Hc) as Hn.
  split; [exact Hc|].
  split; [apply (clean_cells_fixed [id]); now constructor|].
  split; [now apply _digits_text_fixed|].
  split; [now apply norm_digits_text_fixed|].
  split; [intros n mw'; now apply norm_digits_text_fixed_iff|].
  intros -> Hna. apply norm_digits_text_fixed; [exact Hn|].
  eapply test_build_id_length; eassumption.
Qed.

(** An identifier of [test.py] that is shorter than the width: with MCC,
    LAC and CI absent and MNC 1 the builder returns "01", which
    re-normalized under the width 3 of the MCC is "001"; and the empty
    string that an absent value is normalized to is re-normalized to
    "000". *)
Lemma C9_counterexample_short_identifier :
  Test.build_id VNone (VInt 1) VNone VNone 3 "auto" 4 4 = Ok "01"
  /\ Test.norm_digits (VStr "01") (Some 3%nat) (Some 3%nat) = Ok "001"
  /\ Test.norm_digits (VStr "01") (Some 3%nat) (Some 3%nat) <> Ok "01"
  /\ Test.norm_digits VNone (Some 3%nat) (Some 3%nat) = Ok ""
  /\ Test.norm_digits (VStr "") (Some 3%nat) (Some 3%nat) = Ok "000"
  /\ Test.norm_digits (VStr "") (Some 3%nat) (Some 3%nat) <> Ok "".
Proof.
  split; [vm_compute; reflexivity|].
  split; [vm_compute; reflexivity|].
  split; [vm_compute; discriminate|].
  split; [vm_compute; reflexivity|].
  split; [vm_compute; reflexivity|].
  vm_compute. discriminate.
Qed.

End Builder.

(** ** The column resolver *)

Module Resolver.

Import PyFacts.

Lemma _normalize_spec s : Test._normalize s = Spec.normalize_name s.
Proof.
  unfold Test._normalize, Spec.normalize_name.
  now rewrite no_space_strip by apply remove_ws_no_space.
Qed.

Lemma dict_get_set {V} k k' (v : V) d :
  dict_get k (dict_set k' v d) = if String.eqb k k' then Some v else dict_get k d.
Proof.
  induction d as [|[k0 v0] r IH]; cbn [dict_set dict_get]; [reflexivity|].
  destruct (String.eqb_spec k' k0) as [->|Hne]; cbn [dict_get].
  - now destruct (String.eqb k k0).
  - destruct (String.eqb_spec k k0) as [->|Hne'].
    + destruct (String.eqb_spec k0 k'); [congruence|reflexivity].
    + exact IH.
Qed.

Lemma dict_set_fresh {V} k (v : V) d :
  k ∉ map fst d -> dict_set k v d = d ++ [(k, v)].
Proof.
  induction d as [|[k0 v0] r IH]; [reflexivity|]. cbn [map fst dict_set].
  rewrite not_elem_of_cons. intros [Hne Hr].
  destruct (String.eqb_spec k k0); [congruence|]. now rewrite IH.
Qed.

Lemma fold_dict_set_fresh {A V} (key : A -> string) (val : A -> V) l acc :
  NoDup (map fst acc ++ map key l) ->
  fold_left (fun d x => dict_set (key x) (val x) d) l acc
  = acc ++ map (fun x => (key x, val x)) l.
Proof.
  revert acc. induction l as [|x l IH]; intros acc Hnd; cbn [fold_left map].
  - now rewrite app_nil_r.
  - cbn [map] in Hnd. apply NoDup_app in Hnd as (Ha & Hd & Hl).
    apply NoDup_cons in Hl as [Hx Hl].
    rewrite dict_set_fresh by (intros Hin; apply (Hd _ Hin); left).
    rewrite IH, <- List.app_assoc; [reflexivity|].
    rewrite map_app. cbn [map fst]. rewrite <- List.app_assoc. cbn [app].
    apply NoDup_app. split; [exact Ha|]. split; [|now apply NoDup_cons].
    intros k Hk. apply Hd in Hk. exact Hk.
Qed.

(** With headers that stay distinct after normalization, the mapping lists
    the headers in source order. *)
Lemma column_mapping_distinct cols :
  NoDup (map Test._normalize cols) ->
  Test.column_mapping cols = map (fun c => (Test._normalize c, c)) cols.
Proof.
  intros H. unfold Test.column_mapping.
  now rewrite (fold_dict_set_fresh Test._normalize (fun c => c)).
Qed.

Lemma dict_get_map_find (norm : string -> string) k cols :
  dict_get k (map (fun c => (norm c, c)) cols)
  = List.find (fun h => String.eqb (norm h) k) cols.
Proof.
  induction cols as [|c cols IH]; [reflexivity|]. cbn [map dict_get List.find].
  rewrite String.eqb_sym. now destruct (String.eqb (norm c) k).
Qed.

Lemma partial_match_map_find (norm : string -> string) k cols :
  Test.partial_match k (map (fun c => (norm c, c)) cols)
  = List.find (fun h => is_substring k (norm h) || is_substring (norm h) k) cols.
Proof.
  induction cols as [|c cols IH]; [reflexivity|].
  cbn [map Test.partial_match List.find]. now destruct (_ || _).
Qed.

Lemma find_app {A} (P : A -> bool) l1 l2 :
  List.find P (l1 ++ l2)
  = match List.find P l1 with Some x => Some x | None => List.find P l2 end.
Proof.
  induction l1 as [|x l1 IH]; [reflexivity|]. cbn [app List.find].
  now destruct (P x).
Qed.

(** In general the mapping sends a normalized name to the last header that
    carries it. *)
Lemma dict_get_column_mapping k cols acc :
  dict_get k (fold_left (fun d c => dict_set (Test._normalize c) c d) cols acc)
  = match List.find (fun h => String.eqb (Test._normalize h) k) (rev cols) with
    | Some h => Some h
    | None => dict_get k acc
    end.
Proof.
  revert acc. induction cols as [|c cols IH]; intros acc; [reflexivity|].
  cbn [fold_left rev]. rewrite IH, find_app, dict_get_set.
  destruct (List.find _ (rev cols)); [reflexivity|]. cbn [List.find].
  rewrite (String.eqb_sym k). now destruct (String.eqb _ k).
Qed.

Lemma find_ext {A} (P Q : A -> bool) l :
  (forall x, P x = Q x) -> List.find P l = List.find Q l.
Proof.
  intros H. induction l as [|x l IH]; [reflexivity|]. cbn [List.find].
  now rewrite H, IH.
Qed.

Lemma map_normalize cols :
  map Test._normalize cols = map Spec.normalize_name cols.
Proof. apply map_ext. intros c. apply _normalize_spec. Qed.

(** The two stages of the resolver of [test.py] on distinct headers. *)
Lemma resolve_column_distinct df target :
  NoDup (map Spec.normalize_name (columns df)) ->
  dict_get (Test._normalize target) (Test.column_mapping (columns df))
  = List.find (fun h => String.eqb (Spec.normalize_name h)
                          (Spec.normalize_name target)) (columns df)
  /\ Test.partial_match (Test._normalize target) (Test.column_mapping (columns df))
     = List.find (fun h => is_substring (Spec.normalize_name target)
                             (Spec.normalize_name h)
                           || is_substring (Spec.normalize_name h)
                                (Spec.normalize_name target)) (columns df).
Proof.
  intros H. rewrite <- map_normalize in H.
  rewrite (column_mapping_distinct _ H), dict_get_map_find, partial_match_map_find.
  split; apply find_ext; intros h; now rewrite !_normalize_spec.
Qed.

(** Whatever the headers, an exact match returns the last header whose
    normalized name is the normalized logical name. *)
Lemma resolve_column_exact df target h :
  List.find (fun c => String.eqb (Test._normalize c) (Test._normalize target))
    (rev (columns df)) = Some h ->
  Test._resolve_column df target = Ok h
  /\ Test2.resolve (Test._normalize target) df = Ok h.
Proof.
  intros H. unfold Test._resolve_column, Test2.resolve.
  unfold Test2._normalize_colnames, Test.column_mapping.
  change (fun d c => dict_set (lower (strip (remove_ws c))) c d)
    with (fun d c => dict_set (Test._normalize c) c d).
  rewrite dict_get_column_mapping, H. split; reflexivity.
Qed.

(** C6, as the code has it.  For every header list whose headers stay
    pairwise distinct once white space is removed and letters are
    lower-cased, and for every logical column name, both resolvers return
    the header that matches exactly after that normalization of both sides;
    if there is none, the first header in source order such that the
    normalized logical name is a substring of the normalized header or the
    other way round; and if there is none either, they raise [KeyError].
    With headers ["GCI ID", "Notes"] and logical name "GCI" the result is
    "GCI ID". *)
Theorem C6_resolver_exact_then_first_partial
    (df : dataframe) (target : string)
    (Hdistinct : NoDup (map Spec.normalize_name (columns df))) :
  Test._resolve_column df target
  = match Spec.resolve (columns df) target with
    | Some h => Ok h
    | None => Raise (KeyError (ColumnMissing target (columns df)))
    end
  /\ Test2.resolve (lower (strip (remove_ws target))) df
     = match Spec.resolve (columns df) target with
       | Some h => Ok h
       | None => Raise (KeyError NoMessage)
       end
  /\ Spec.resolve ["GCI ID"; "Notes"] "GCI" = Some "GCI ID".
Proof.
  destruct (resolve_column_distinct df target Hdistinct) as [He Hp].
  unfold Test._resolve_column, Test2.resolve, Spec.resolve.
  change (lower (strip (remove_ws target))) with (Test._normalize target).
  change (Test2._normalize_colnames (columns df))
    with (Test.column_mapping (columns df)).
  change (Test2.partial_match (Test._normalize target))
    with (Test.partial_match (Test._normalize target)).
  rewrite He, Hp.
  split; [|split; [|vm_compute; reflexivity]].
  - destruct (List.find _ (columns df)); [reflexivity|].
    now destruct (List.find _ (columns df)).
  - destruct (List.find _ (columns df)); [reflexivity|].
    now destruct (List.find _ (columns df)).
Qed.

(** C6 at the headers ["GCI ID", "Notes"], which stay distinct when
    normalized, and the logical name "GCI". *)
Lemma C6_witness :
  NoDup (map Spec.normalize_name (columns [("GCI ID", []); ("Notes", [])]))
  /\ Test._resolve_column [("GCI ID", []); ("Notes", [])] "GCI" = Ok "GCI ID"
  /\ Test2.resolve "gci" [("GCI ID", []); ("Notes", [])] = Ok "GCI ID".
Proof.
  assert (H : NoDup (map Spec.normalize_name
                       (columns [("GCI ID", []); ("Notes", [])]))).
  { apply (bool_decide_unpack _). vm_compute. exact I. }
  split; [exact H|].
  destruct (C6_resolver_exact_then_first_partial
              [("GCI ID", []); ("Notes", [])] "GCI" H) as (H1 & H2 & _).
  split; [exact H1|exact H2].
Defined.

(** C6, as stated, fails when two headers share a normalized name.  With
    headers ["GCI ID", "Notes", "gciid"] and logical name "GCI" no header
    matches exactly and the first header in source order that contains the
    name is "GCI ID", yet both resolvers return "gciid": the mapping is
    keyed by normalized name, and the later header has taken the place of
    the earlier one under the key "gciid". *)
Lemma C6_counterexample_shared_normalized_name :
  Spec.resolve ["GCI ID"; "Notes"; "gciid"] "GCI" = Some "GCI ID"
  /\ Test._resolve_column [("GCI ID", []); ("Notes", []); ("gciid", [])] "GCI"
     = Ok "gciid"
  /\ Test2.resolve "gci" [("GCI ID", []); ("Notes", []); ("gciid", [])]
     = Ok "gciid"
  /\ Test.column_mapping ["GCI ID"; "Notes"; "gciid"]
     = [("gciid", "gciid"); ("notes", "Notes")].
Proof. repeat split; vm_compute; reflexivity. Qed.

End Resolver.

(** ** The fall-back over the sheets of a workbook *)

Module Sheets.

Import PyFacts.

Lemma extract_raises_KeyError column df e :
  Test._extract_from_df column df = Raise e -> exists m, e = KeyError m.
Proof.
  unfold Test._extract_from_df, Test._resolve_column.
  destruct (dict_get _ _); [discriminate|].
  destruct (Test.partial_match _ _); [discriminate|].
  intros [= <-]. eauto.
Qed.

Lemma _extract_raises_KeyError key df e :
  Test2._extract key df = Raise e -> e = KeyError NoMessage.
Proof.
  unfold Test2._extract, Test2.resolve.
  destruct (dict_get _ _); [discriminate|].
  destruct (Test2.partial_match _ _); [discriminate|].
  now intros [= <-].
Qed.

Lemma tried_fresh (tried : dict (list string)) name (cols : list string)
    (names : list string) :
  NoDup (map fst tried ++ name :: names) ->
  dict_set name cols tried = tried ++ [(name, cols)]
  /\ NoDup (map fst (tried ++ [(name, cols)]) ++ names).
Proof.
  intros H. pose proof H as (Ht & Hd & Hn)%NoDup_app.
  apply NoDup_cons in Hn as [Hx Hn]. split.
  - apply Resolver.dict_set_fresh. intros Hin. apply (Hd _ Hin). left.
  - rewrite map_app, <- List.app_assoc. exact H.
Qed.

Lemma search_sheets_spec wanted_col wanted_key wb tried :
  NoDup (map fst tried ++ map fst wb) ->
  Test2.search_sheets wanted_col wanted_key wb tried
  = match Spec.first_success (Test2._extract wanted_key) wb with
    | Some cells => Ok cells
    | None => Raise (SystemExit (ColumnMissingOnAllSheets wanted_col
                                   (tried ++ Spec.headers_tried wb)))
    end.
Proof.
  revert tried. induction wb as [|[name df] rest IH]; intros tried Hnd.
  - cbn. now rewrite app_nil_r.
  - cbn [Test2.search_sheets Spec.first_success].
    destruct (Test2._extract wanted_key df) as [cells|e] eqn:E; [reflexivity|].
    rewrite (_extract_raises_KeyError _ _ _ E). cbn [is_exception].
    cbn [map fst] in Hnd.
    destruct (tried_fresh tried name (columns df) _ Hnd) as [-> Hnd'].
    rewrite (IH _ Hnd'). destruct (Spec.first_success _ rest); [reflexivity|].
    cbn [Spec.headers_tried map]. now rewrite <- List.app_assoc.
Qed.

Lemma first_sheet_spec column wb tried :
  NoDup (map fst tried ++ map fst wb) ->
  Test.first_sheet column wb tried
  = match Spec.first_success (Test._extract_from_df column) wb with
    | Some cells => Ok cells
    | None => Raise (KeyError (ColumnMissingOnAllSheets column
                                 (tried ++ Spec.headers_tried wb)))
    end.
Proof.
  revert tried. induction wb as [|[name df] rest IH]; intros tried Hnd.
  - cbn. now rewrite app_nil_r.
  - cbn [Test.first_sheet Spec.first_success].
    destruct (Test._extract_from_df column df) as [cells|e] eqn:E; [reflexivity|].
    destruct (extract_raises_KeyError _ _ _ E) as [m ->].
    cbn [map fst] in Hnd.
    destruct (tried_fresh tried name (columns df) _ Hnd) as [-> Hnd'].
    rewrite (IH _ Hnd'). destruct (Spec.first_success _ rest); [reflexivity|].
    cbn [Spec.headers_tried map]. now rewrite <- List.app_assoc.
Qed.

(** C7. With no sheet specified, both readers return the extraction from
    the first sheet, in source order, on which the column resolves: the
    first sheet of the workbook is tried first and the others follow in
    order.  If the column resolves on no sheet, the error raised
    ([SystemExit] in [test2.py], [KeyError] in [test.py]) carries, for
    every sheet of the workbook in order, its name and its full header
    list.  (Sheet names are the keys of a dictionary, hence distinct.) *)
Theorem C7_first_resolving_sheet_or_all_headers
    (wb : workbook) (column : string)
    (Hnames : NoDup (map fst wb)) :
  Test2.read_excel_column wb column None
  = match Spec.first_success
            (Test2._extract (lower (strip (remove_ws column)))) wb with
    | Some cells => Ok cells
    | None => Raise (SystemExit (ColumnMissingOnAllSheets column
                                   (Spec.headers_tried wb)))
    end
  /\ Test.load_excel_column wb column None
     = match Spec.first_success (Test._extract_from_df column) wb with
       | Some cells => Ok cells
       | None => Raise (KeyError (ColumnMissingOnAllSheets column
                                    (Spec.headers_tried wb)))
       end
  /\ (forall df cells,
        Test2._extract (lower (strip (remove_ws column))) df = Ok cells <->
        exists h, Test2.resolve (lower (strip (remove_ws column))) df = Ok h
                  /\ cells = clean_cells (Py.column df h))
  /\ (forall df cells,
        Test._extract_from_df column df = Ok cells <->
        exists h, Test._resolve_column df column = Ok h
                  /\ cells = clean_cells (Py.column df h)).
Proof.
  split.
  { unfold Test2.read_excel_column. set (key := lower (strip (remove_ws column))).
    pose proof (search_sheets_spec column key wb [] Hnames) as Hs.
    cbn [app] in Hs. rewrite Hs.
    destruct wb as [|[name df] rest]; [reflexivity|].
    cbn [read_sheet nth_error fmap option_fmap option_map of_option snd bind
         Spec.first_success try_except].
    destruct (Test2._extract key df) as [cells|e] eqn:E; [reflexivity|].
    now rewrite (_extract_raises_KeyError _ _ _ E). }
  split.
  { unfold Test.load_excel_column. now rewrite (first_sheet_spec column wb []). }
  split.
  { intros df cells. unfold Test2._extract. rewrite bind_ok.
    split; intros (h & Hh & Hc); exists h; split; congruence. }
  intros df cells. unfold Test._extract_from_df. rewrite bind_ok.
  split; intros (h & Hh & Hc); exists h; split; congruence.
Qed.

(** C7 at a workbook of two sheets, "Cover" without the column and "Data"
    with it. *)
Lemma C7_witness :
  NoDup (map fst [("Cover", [("Notes", [VStr "n/a"])]);
                  ("Data", [("GCI ID", [VStr " ab 1 "; VNone; VInt 7])])])
  /\ Test2.read_excel_column
       [("Cover", [("Notes", [VStr "n/a"])]);
        ("Data", [("GCI ID", [VStr " ab 1 "; VNone; VInt 7])])] "GCI" None
     = Ok ["AB1"; "7"]
  /\ Test.load_excel_column
       [("Cover", [("Notes", [VStr "n/a"])]);
        ("Data", [("GCI ID", [VStr " ab 1 "; VNone; VInt 7])])] "GCI" None
     = Ok ["AB1"; "7"].
Proof.
  assert (H : NoDup (map fst [("Cover", [("Notes", [VStr "n/a"])]);
                     ("Data", [("GCI ID", [VStr " ab 1 "; VNone; VInt 7])])])).
  { apply (bool_decide_unpack _). vm_compute. exact I. }
  split; [exact H|].
  destruct (C7_first_resolving_sheet_or_all_headers _ "GCI" H) as (H1 & H2 & _).
  split; [exact H1|exact H2].
Defined.

Example no_sheet_resolves :
  Test2.read_excel_column
    [("Cover", [("Notes", [])]); ("Data", [("LAC", []); ("Cell", [])])] "GCI" None
  = Raise (SystemExit (ColumnMissingOnAllSheets "GCI"
                         [("Cover", ["Notes"]); ("Data", ["LAC"; "Cell"])])).
Proof. vm_compute. reflexivity. Qed.

End Sheets.

(** ** The three variants side by side *)

Module Variants.

Import PyFacts.

Lemma zfill_or_keep s w :
  (if (String.length s <? w)%nat then zfill s w else s) = zfill s w.
Proof.
  destruct (Nat.ltb_spec (String.length s) w); [reflexivity|].
  now rewrite zfill_ge.
Qed.

(** The identifier that the builders give to a row of integers. *)
Lemma test_build_id_int a b c d mode lw cw :
  Test.build_id (VInt a) (VInt b) (VInt c) (VInt d) 3 mode lw cw
  = Ok (upper (zfill (str_of_int a) 3 +:+ Test2.mnc_part (str_of_int b) mode
               +:+ format_X c lw +:+ format_X d cw)).
Proof.
  unfold Test.build_id, Test.norm_digits. cbn [isna int bind].
  rewrite !(no_space_remove_ws _ (is_clean_no_space _ (str_of_int_clean _))).
  rewrite zfill_or_keep, MncSegment.mnc_part_same. reflexivity.
Qed.

Lemma test2_build_id_int a b c d mode lw cw :
  Test2.build_id (VInt a) (VInt b) (VInt c) (VInt d) mode lw cw
  = Ok (upper (zfill (str_of_int a) 3 +:+ Test2.mnc_part (str_of_int b) mode
               +:+ format_X c lw +:+ format_X d cw)).
Proof.
  unfold Test2.build_id. rewrite !MncSegment._digits_int, !Normalizer._to_hex_int.
  reflexivity.
Qed.

Lemma build_id_int_same f mode lw cw :
  Test.build_id (mcc (Spec.int_row f)) (mnc (Spec.int_row f))
    (lac (Spec.int_row f)) (ci (Spec.int_row f)) 3 mode lw cw
  = Test2.build_id (mcc (Spec.int_row f)) (mnc (Spec.int_row f))
      (lac (Spec.int_row f)) (ci (Spec.int_row f)) mode lw cw.
Proof.
  destruct f as [[[a b] c] d]. cbn [Spec.int_row mcc mnc lac ci].
  now rewrite test_build_id_int, test2_build_id_int.
Qed.

Lemma load_ids_as_mapM rows mode lw cw :
  Test.load_access_compound_ids rows mode lw cw
  = (ids <- mapM (fun r => Test.build_id (mcc r) (mnc r) (lac r) (ci r)
                             3 mode lw cw) rows ;;
     Ok (List.filter (fun s => negb (is_empty s)) ids)).
Proof.
  induction rows as [|r rows IH]; [reflexivity|].
  cbn [Test.load_access_compound_ids mapM]. rewrite IH.
  destruct (Test.build_id _ _ _ _ _ _ _ _) as [s|e]; cbn [bind]; [|reflexivity].
  destruct (mapM _ rows) as [ids|e]; cbn [bind List.filter]; [|reflexivity].
  now destruct (is_empty s).
Qed.

Lemma mapM_ext {A B} (f g : A -> result B) l :
  (forall x, x ∈ l -> f x = g x) -> mapM f l = mapM g l.
Proof.
  induction l as [|x l IH]; intros H; [reflexivity|]. cbn [mapM].
  rewrite (H x) by left. rewrite IH; [reflexivity|].
  intros y Hy. apply H. now right.
Qed.

(** On rows of integers the two scripts build the same list of ids. *)
Lemma access_ids_same (fs : list (Z * Z * Z * Z)) :
  Test.load_access_compound_ids (map Spec.int_row fs)
    Test2.MNC_MODE Test2.LAC_HEX_WIDTH Test2.CI_HEX_WIDTH
  = Test2.fetch_access_ids (map Spec.int_row fs).
Proof.
  rewrite load_ids_as_mapM. unfold Test2.fetch_access_ids.
  rewrite (mapM_ext _ (fun r => Test2.build_id (mcc r) (mnc r) (lac r) (ci r)
                        Test2.MNC_MODE Test2.LAC_HEX_WIDTH Test2.CI_HEX_WIDTH));
    [reflexivity|].
  intros r (f & -> & _)%list_elem_of_fmap. apply build_id_int_same.
Qed.

Lemma upper_ids_fixed rows ids :
  Test2.fetch_access_ids rows = Ok ids -> map upper ids = ids.
Proof.
  intros (Hm & _)%Builder.fetch_access_ids_all.
  assert (HF : Forall (fun id => Spec.is_clean id = true) ids).
  { eapply Builder.mapM_ok_Forall; [|exact Hm].
    intros r id. apply Builder.build_id_clean. }
  clear Hm.
  induction HF as [|id l Hid _ IH]; [reflexivity|]. cbn [map].
  now rewrite (is_clean_upper_id _ Hid), IH.
Qed.

(** The two readers agree on what they return. *)
Lemma extract_same column df cells :
  Test._extract_from_df column df = Ok cells
  <-> Test2._extract (Test._normalize column) df = Ok cells.
Proof.
  unfold Test._extract_from_df, Test2._extract, Test._resolve_column, Test2.resolve.
  change (Test2._normalize_colnames (columns df))
    with (Test.column_mapping (columns df)).
  change (Test2.partial_match (Test._normalize column))
    with (Test.partial_match (Test._normalize column)).
  destruct (dict_get _ _); [reflexivity|].
  destruct (Test.partial_match _ _); cbn; [reflexivity|]. split; discriminate.
Qed.

Lemma sheets_same column wb tried tried' cells :
  Test.first_sheet column wb tried = Ok cells
  <-> Test2.search_sheets column (Test._normalize column) wb tried' = Ok cells.
Proof.
  revert tried tried'. induction wb as [|[name df] rest IH]; intros tried tried'.
  - cbn. split; discriminate.
  - cbn [Test.first_sheet Test2.search_sheets].
    destruct (Test._extract_from_df column df) as [l|e] eqn:E.
    + apply extract_same in E. rewrite E. reflexivity.
    + destruct (Sheets.extract_raises_KeyError _ _ _ E) as [m ->].
      destruct (Test2._extract _ df) as [l'|e'] eqn:E'.
      * apply extract_same in E'. congruence.
      * rewrite (Sheets._extract_raises_KeyError _ _ _ E'). apply IH.
Qed.

Lemma readers_same wb column sheet cells :
  Test.load_excel_column wb column sheet = Ok cells
  <-> Test2.read_excel_column wb column sheet = Ok cells.
Proof.
  unfold Test.load_excel_column, Test2.read_excel_column.
  change (lower (strip (remove_ws column))) with (Test._normalize column).
  destruct sheet as [ref|].
  - destruct (read_sheet wb ref); cbn [bind]; [apply extract_same|reflexivity].
  - rewrite (sheets_same column wb [] []).
    destruct wb as [|[name df] rest]; [reflexivity|].
    cbn [read_sheet nth_error fmap option_fmap option_map of_option snd bind
         Test2.search_sheets try_except].
    destruct (Test2._extract _ df) as [l|e] eqn:E; [reflexivity|].
    now rewrite (Sheets._extract_raises_KeyError _ _ _ E).
Qed.

Lemma same_result_bind {A B} (r1 r2 : result A) (k1 k2 : A -> result B) :
  Spec.same_result r1 r2 ->
  (forall x, Spec.same_result (k1 x) (k2 x)) ->
  Spec.same_result (bind r1 k1) (bind r2 k2).
Proof.
  intros Hr Hk y. rewrite !bind_ok. split; intros (x & Hx & Hy); exists x.
  - split; [now apply Hr|now apply Hk].
  - split; [now apply Hr|now apply Hk].
Qed.

Lemma same_result_refl {A} (r : result A) : Spec.same_result r r.
Proof. intros x. reflexivity. Qed.

Lemma main_same fs gci sai :
  Spec.same_result (Test.main Spec.test2_settings (map Spec.int_row fs) gci sai)
    (Test2.main (map Spec.int_row fs) gci sai).
Proof.
  unfold Test.main, Test2.main, Spec.test2_settings.
  cbn [Test.mnc_mode Test.lac_width Test.ci_width Test.gci_column Test.gci_sheet
       Test.sai_column Test.sai_sheet].
  rewrite access_ids_same.
  destruct (Test2.fetch_access_ids (map Spec.int_row fs)) as [ids|e] eqn:E;
    [|apply same_result_refl].
  cbn [bind]. rewrite (upper_ids_fixed _ _ E).
  apply same_result_bind; [intros l; apply readers_same|]. intros var2.
  apply same_result_bind; [intros l; apply readers_same|]. intros var3.
  apply same_result_refl.
Qed.

Lemma mapM_map {A B C} (f : B -> result C) (g : A -> B) (h : A -> C) l :
  (forall x, f (g x) = Ok (h x)) -> mapM f (map g l) = Ok (map h l).
Proof.
  intros H. induction l as [|x l IH]; [reflexivity|]. cbn [map mapM].
  now rewrite H, IH.
Qed.

Lemma dec_to_hex_str_int z w :
  ParseExcelAccess.dec_to_hex_str (VInt z) (Some w) = Ok (format_X z w).
Proof.
  unfold ParseExcelAccess.dec_to_hex_str. cbn [int bind].
  unfold format_X. now rewrite (format_zero_zfill 16) by lia.
Qed.

Lemma id3_clean lw cw f : Spec.is_clean (Spec.id3 lw cw f) = true.
Proof.
  destruct f as [[[a b] c] d]. unfold Spec.id3, Spec.is_clean.
  rewrite !str_all_app.
  fold (Spec.is_clean (zfill (str_of_int a) 3)).
  fold (Spec.is_clean (zfill (str_of_int b) 3)).
  fold (Spec.is_clean (format_X c lw)). fold (Spec.is_clean (format_X d cw)).
  unfold format_X. rewrite !(clean_format_zero 16) by lia.
  unfold Spec.is_clean.
  rewrite !str_all_zfill; try reflexivity; apply str_of_int_clean.
Qed.

Lemma str_of_int_digits a : 0 <= a -> str_all is_digit (str_of_int a) = true.
Proof.
  intros Ha. unfold str_of_int, signed. destruct (Z.ltb_spec a 0); [lia|].
  apply str_all_digits_of; [lia|]. apply digit_char_digit.
Qed.

Lemma series_zfill_int series_zfill a w :
  (forall s n, str_all is_digit s = true ->
               series_zfill s n = zeros (n - String.length s) +:+ s) ->
  0 <= a -> series_zfill (str (VInt a)) w = zfill (str_of_int a) w.
Proof.
  intros Hz Ha. cbn [str]. rewrite Hz by now apply str_of_int_digits.
  rewrite zfill_unsigned; [reflexivity|].
  eapply str_all_impl; [apply is_digit_hex_char|now apply str_of_int_digits].
Qed.

Lemma combined_column_int series_zfill fs lw cw :
  (forall s n, str_all is_digit s = true ->
               series_zfill s n = zeros (n - String.length s) +:+ s) ->
  Forall (fun f => 0 <= f.1.1.1 /\ 0 <= f.1.1.2) fs ->
  ParseExcelAccess.combined_column series_zfill (map Spec.int_row fs)
    (Some lw) (Some cw) 3 3
  = Ok (map (fun f => let '(a, b, c, d) := f in
                      (format_X c lw, format_X d cw, zfill (str_of_int a) 3,
                       zfill (str_of_int b) 3, Spec.id3 lw cw f)) fs).
Proof.
  intros Hz Hfs. unfold ParseExcelAccess.combined_column.
  rewrite (mapM_map _ _ (fun f => let '(a, b, c, d) := f in format_X c lw)).
  2: { intros [[[a b] c] d]. apply dec_to_hex_str_int. }
  rewrite (mapM_map _ _ (fun f => let '(a, b, c, d) := f in format_X d cw)).
  2: { intros [[[a b] c] d]. apply dec_to_hex_str_int. }
  cbn [bind]. f_equal.
  induction Hfs as [|[[[a b] c] d] fs [Ha Hb] _ IH]; [reflexivity|].
  cbn [fst snd] in Ha, Hb.
  cbn [map zip zip_with Spec.int_row mcc mnc]. cbn [map zip zip_with] in IH.
  rewrite IH, !(series_zfill_int _ _ _ Hz) by assumption. reflexivity.
Qed.

Lemma build_id3_int fs lw cw :
  mapM (fun r => Test2.build_id (mcc r) (mnc r) (lac r) (ci r) "3" lw cw)
    (map Spec.int_row fs)
  = Ok (map (Spec.id3 lw cw) fs).
Proof.
  apply mapM_map. intros [[[a b] c] d]. cbn [Spec.int_row mcc mnc lac ci].
  rewrite test2_build_id_int, MncSegment.mnc_part_3.
  f_equal. apply (is_clean_upper_id _ (id3_clean lw cw (a, b, c, d))).
Qed.

(** C8, as the code has it.  On table rows whose four fields are integers,
    [test.py] run with the settings of [test2.py] and [test2.py] itself
    build the same identifier for every row under every MNC mode and pair
    of widths, build the same list of identifiers, read the same candidate
    list from every workbook, and so give the same reconciliation report
    whenever either gives one.  [parse_excel_access.py] has no MNC mode and
    no comparison step: on rows of non-negative integers, with both hex
    widths given and however pandas pads text that starts with a sign, the
    identifier column it builds is the one that the builder gives under
    the fixed mode "3". *)
Theorem C8_variants_agree_on_integer_rows
    (fs : list (Z * Z * Z * Z)) (gci sai : workbook) :
  (forall f mode lw cw,
     Test.build_id (mcc (Spec.int_row f)) (mnc (Spec.int_row f))
       (lac (Spec.int_row f)) (ci (Spec.int_row f)) 3 mode lw cw
     = Test2.build_id (mcc (Spec.int_row f)) (mnc (Spec.int_row f))
         (lac (Spec.int_row f)) (ci (Spec.int_row f)) mode lw cw)
  /\ Test.load_access_compound_ids (map Spec.int_row fs)
       Test2.MNC_MODE Test2.LAC_HEX_WIDTH Test2.CI_HEX_WIDTH
     = Test2.fetch_access_ids (map Spec.int_row fs)
  /\ (forall wb column sheet,
        Spec.same_result (Test.load_excel_column wb column sheet)
          (Test2.read_excel_column wb column sheet))
  /\ Spec.same_result
       (Test.main Spec.test2_settings (map Spec.int_row fs) gci sai)
       (Test2.main (map Spec.int_row fs) gci sai)
  /\ (forall series_zfill lw cw,
        (forall s n, str_all is_digit s = true ->
                     series_zfill s n = zeros (n - String.length s) +:+ s) ->
        Forall (fun f => 0 <= f.1.1.1 /\ 0 <= f.1.1.2) fs ->
        exists cols,
          ParseExcelAccess.combined_column series_zfill (map Spec.int_row fs)
            (Some lw) (Some cw) 3 3 = Ok cols
          /\ mapM (fun r => Test2.build_id (mcc r) (mnc r) (lac r) (ci r)
                              "3" lw cw) (map Spec.int_row fs)
             = Ok (map snd cols)).
Proof.
  split; [intros; apply build_id_int_same|].
  split; [apply access_ids_same|].
  split; [intros wb column sheet cells; apply readers_same|].
  split; [apply main_same|].
  intros series_zfill lw cw Hz Hfs. eexists.
  split; [now apply combined_column_int|].
  rewrite build_id3_int, map_map. f_equal. apply map_ext.
  now intros [[[a b] c] d].
Qed.

(** C8, as stated, fails: under the same settings the variants differ on
    the same input.  A LAC given as the text "10,5" makes [test.py] raise
    [ValueError] where [test2.py] builds "25001000A0014" and reports the
    unmatched candidate "ABC123".  An MNC given as the float 1.0 is "01"
    in the identifier of [test.py] and "1.0" in that of [test2.py].  And
    [parse_excel_access.py] zero-fills the MNC 1 to "001", where the other
    two render it as "01" under their default mode. *)
Lemma C8_counterexample_variants_differ :
  Test.build_id (VInt 250) (VInt 1) (VStr "10,5") (VInt 20) 3 "auto" 4 4
  = Raise ValueError
  /\ Test2.build_id (VInt 250) (VInt 1) (VStr "10,5") (VInt 20) "auto" 4 4
     = Ok "25001000A0014"
  /\ Test.main Spec.test2_settings
       [Row (VInt 250) (VInt 1) (VStr "10,5") (VInt 20)]
       [("Sheet1", [("GCI", [VStr "25001000A0014"; VStr "ABC123"])])]
       [("Sheet1", [("SAI", [])])]
     = Raise ValueError
  /\ Test2.main
       [Row (VInt 250) (VInt 1) (VStr "10,5") (VInt 20)]
       [("Sheet1", [("GCI", [VStr "25001000A0014"; VStr "ABC123"])])]
       [("Sheet1", [("SAI", [])])]
     = Ok (Report ["ABC123"] [] 1 2 0 1 0)
  /\ Test.build_id (VInt 250) (VFloat (FFin false 1 0)) (VInt 10) (VInt 20)
       3 "auto" 4 4
     = Ok "25001000A0014"
  /\ Test2.build_id (VInt 250) (VFloat (FFin false 1 0)) (VInt 10) (VInt 20)
       "auto" 4 4
     = Ok "2501.0000A0014"
  /\ ParseExcelAccess.combine_dataframes zfill [VStr "25001000A0014"]
       [Row (VInt 250) (VInt 1) (VInt 10) (VInt 20)] (Some 4%nat) (Some 4%nat) 3 3
     = Ok [ParseExcelAccess.CombinedRow (VStr "25001000A0014")
             (Row (VInt 250) (VInt 1) (VInt 10) (VInt 20))
             "000A" "0014" "250" "001" "250001000A0014"].
Proof. repeat split; vm_compute; reflexivity. Qed.

(** The end-to-end scenario of the specification: one table row
    (250, 1, 10, 20) and the candidates "25001000A0014" and "ABC123". *)
Example end_to_end :
  Test2.main [Row (VInt 250) (VInt 1) (VInt 10) (VInt 20)]
    [("Sheet1", [("GCI", [VStr "25001000A0014"; VStr "ABC123"])])]
    [("Sheet1", [("SAI", [])])]
  = Ok (Report ["ABC123"] [] 1 2 0 1 0).
Proof. vm_compute. reflexivity. Qed.

End Variants.

(** ** Further properties of the field normalizers *)

Module NormalizerEdges.

Import PyFacts.

Lemma format_zero_nonempty b z w : (2 <= b)%N -> is_empty (format_zero b z w) = false.
Proof.
  intros Hb. apply is_empty_false_length. rewrite length_format_zero by assumption.
  pose proof (signed_nonempty b Hb z (Z.abs_N z)) as H.
  apply is_empty_false_length in H. lia.
Qed.

(** X1. [norm_digits] of [test.py] raises on an infinite float and on
    nothing else.  An absent value gives the empty string whatever the
    minimum width, [max_width] has no effect, and a result is free of white
    space and, unless the value is absent, at least [min_width] long. *)
Theorem X1_norm_digits_edges (v : value) (w mw : option nat) :
  is_ok (Test.norm_digits v w mw) = negb (Shape.is_infinite v)
  /\ (isna v = true -> Test.norm_digits v w mw = Ok "")
  /\ Test.norm_digits v w mw = Test.norm_digits v w None
  /\ (forall s, Test.norm_digits v w mw = Ok s ->
        Spec.no_space s = true
        /\ (isna v = false ->
            match w with
            | Some n => (n <= String.length s)%nat
            | None => True
            end)).
Proof.
  split. { destruct v as [|z|[|neg|neg m e]|t]; reflexivity. }
  split. { intros H. unfold Test.norm_digits. now rewrite H. }
  split; [reflexivity|].
  intros s Hs. split; [eapply Builder.no_space_norm_digits, Hs|].
  intros Hna. unfold Test.norm_digits in Hs. rewrite Hna in Hs.
  apply bind_ok in Hs as (t & _ & Hs). injection Hs as <-.
  destruct w as [[|n]|]; [lia| |exact I].
  destruct (Nat.ltb_spec (String.length (remove_ws t)) (S n)); [|lia].
  rewrite length_zfill. lia.
Qed.

Lemma to_hex_empty v w : Test.to_hex v w = Ok "" <-> isna v = true.
Proof.
  unfold Test.to_hex.
  destruct (isna v); [split; reflexivity|]. split; [|discriminate].
  intros (z & _ & H)%bind_ok. injection H as H.
  pose proof (format_zero_nonempty 16 z w ltac:(lia)) as Hne.
  unfold format_X in H. rewrite H in Hne. discriminate.
Qed.

(** X2. [to_hex] of [test.py] completes exactly when the value is absent,
    converts to an int, or converts to a finite float; it returns the empty
    string for an absent value and for nothing else. *)
Theorem X2_to_hex_completes_on_numbers (v : value) (w : nat) :
  is_ok (Test.to_hex v w) = isna v || Shape.converts_to_number v
  /\ (Test.to_hex v w = Ok "" <-> isna v = true).
Proof.
  split.
  - unfold Test.to_hex, Shape.converts_to_number.
    destruct (isna v); [reflexivity|]. cbn [orb].
    destruct (int v) as [z|e] eqn:E; [reflexivity|].
    cbn [try_except is_ok orb bind]. rewrite (Normalizer.int_raises_exception _ _ E).
    destruct (float v) as [[| |]|]; reflexivity.
  - apply to_hex_empty.
Qed.

(** X3. [build_id] of [test.py] reads a finite float as the int it
    truncates to: on every row it gives what it gives on the row with each
    finite float replaced by its truncation. *)
Theorem X3_build_id_truncates_floats
    (mcc mnc lac ci : value) (mcc_width : nat) (mode : string) (lw cw : nat) :
  Test.build_id mcc mnc lac ci mcc_width mode lw cw
  = Test.build_id (Shape.as_int mcc) (Shape.as_int mnc)
      (Shape.as_int lac) (Shape.as_int ci) mcc_width mode lw cw.
Proof.
  assert (Hn : forall v a b, Test.norm_digits v a b
                             = Test.norm_digits (Shape.as_int v) a b).
  { intros [|z|[|neg|neg m e]|t] a b; reflexivity. }
  assert (Hh : forall v a, Test.to_hex v a = Test.to_hex (Shape.as_int v) a).
  { intros [|z|[|neg|neg m e]|t] a; reflexivity. }
  unfold Test.build_id.
  now rewrite !(Hn mcc), (Hn mnc), (Hh lac), (Hh ci).
Qed.

End NormalizerEdges.

(** ** The hex normalizer of [test2.py] extends that of [test.py] *)

Module HexRefinement.

Import PyFacts.

(** *** What the parsers accept holds no comma and is not blank *)

Lemma str_all_unfilter (P f : ascii -> bool) s :
  (forall c, f c = false -> P c = true) ->
  str_all P (str_filter f s) = true -> str_all P s = true.
Proof.
  intros Hf. induction s as [|c s IH]; [reflexivity|]. cbn [str_filter str_all].
  destruct (f c) eqn:E; cbn [str_all].
  - intros [-> H]%andb_true_iff. now apply IH.
  - intros H. now rewrite (Hf c E), IH.
Qed.

Lemma str_all_unlstrip (P q : ascii -> bool) s :
  (forall c, q c = true -> P c = true) ->
  str_all P (lstrip_by q s) = true -> str_all P s = true.
Proof.
  intros Hq. induction s as [|c s IH]; [reflexivity|]. cbn [lstrip_by].
  destruct (q c) eqn:E; [|auto]. intros H. cbn [str_all].
  now rewrite (Hq c E), IH.
Qed.

Lemma str_all_unrstrip (P q : ascii -> bool) s :
  (forall c, q c = true -> P c = true) ->
  str_all P (rstrip_by q s) = true -> str_all P s = true.
Proof.
  intros Hq. induction s as [|c s IH]; [reflexivity|]. cbn [rstrip_by].
  destruct (rstrip_by q s) as [|c' r'] eqn:E.
  - specialize (IH eq_refl). cbn [str_all]. rewrite IH, andb_true_r.
    destruct (q c) eqn:Ec; [intros _; now apply Hq|].
    cbn [str_all]. now rewrite andb_true_r.
  - cbn [str_all] in *. intros [-> H]%andb_true_iff. now apply IH.
Qed.

Lemma str_all_unstrip (P q : ascii -> bool) s :
  (forall c, q c = true -> P c = true) ->
  str_all P (strip_by q s) = true -> str_all P s = true.
Proof.
  intros Hq H. apply (str_all_unlstrip P q); [assumption|].
  now apply (str_all_unrstrip P q).
Qed.

Lemma str_all_unsplit_sign (P : ascii -> bool) s :
  P "-"%char = true -> P "+"%char = true ->
  str_all P (split_sign s).2 = true -> str_all P s = true.
Proof.
  intros Hm Hp. destruct s as [|c r]; [reflexivity|]. unfold split_sign.
  destruct (Ascii.eqb_spec c "-") as [->|_]; cbn [snd str_all];
    [intros ->; now rewrite Hm|].
  destruct (Ascii.eqb_spec c "+") as [->|_]; cbn [snd str_all];
    [intros ->; now rewrite Hp|auto].
Qed.

Lemma span_digits_spec s :
  s = (span_digits s).1 +:+ (span_digits s).2
  /\ str_all is_digit (span_digits s).1 = true.
Proof.
  induction s as [|c s [IH1 IH2]]; [split; reflexivity|]. cbn [span_digits].
  destruct (is_digit c) eqn:E; [|split; reflexivity].
  destruct (span_digits s) as [ds rest]. cbn [fst snd] in *.
  rewrite str_app_cons. cbn [str_all]. rewrite E, IH2. split; [now f_equal|reflexivity].
Qed.

(** The characters of a decimal literal. *)
Lemma digit_not_comma c : is_digit c = true -> negb (Ascii.eqb c ",") = true.
Proof. by_cases_on_char c. Qed.

Lemma digits_no_comma s :
  str_all is_digit s = true -> str_all (fun c => negb (Ascii.eqb c ",")) s = true.
Proof. apply str_all_impl, digit_not_comma. Qed.

Lemma parse_exponent_no_comma s x :
  parse_exponent s = Some x -> str_all (fun c => negb (Ascii.eqb c ",")) s = true.
Proof.
  destruct s as [|c r]; [reflexivity|]. unfold parse_exponent.
  destruct (Ascii.eqb c "e" || Ascii.eqb c "E") eqn:Ec; [|discriminate].
  destruct (split_sign r) as [neg body] eqn:Es.
  destruct (negb (is_empty body) && str_all is_digit body) eqn:Eb; [|discriminate].
  intros _. apply andb_true_iff in Eb as [_ Hd]. cbn [str_all].
  apply andb_true_iff. split.
  - apply orb_true_iff in Ec as [->%Ascii.eqb_eq| ->%Ascii.eqb_eq]; reflexivity.
  - apply str_all_unsplit_sign; [reflexivity..|]. rewrite Es. cbn [snd].
    now apply digits_no_comma.
Qed.

Lemma parse_decimal_no_comma s nd :
  parse_decimal s = Some nd -> str_all (fun c => negb (Ascii.eqb c ",")) s = true.
Proof.
  unfold parse_decimal. destruct (span_digits_spec s) as [Hs Hip].
  destruct (span_digits s) as [ip rest]. cbn [fst snd] in *. subst s.
  rewrite str_all_app, (digits_no_comma _ Hip). cbn [andb].
  destruct rest as [|c r]; [reflexivity|].
  destruct (Ascii.eqb_spec c ".") as [->|Hc].
  - destruct (span_digits_spec r) as [Hr Hfp].
    destruct (span_digits r) as [fp rest']. cbn [fst snd] in *. subst r.
    destruct (is_empty ip && is_empty fp); [discriminate|].
    destruct (parse_exponent rest') eqn:Ex; [|discriminate]. intros _.
    cbn [str_all]. rewrite str_all_app, (digits_no_comma _ Hfp).
    now rewrite (parse_exponent_no_comma _ _ Ex).
  - destruct (is_empty ip && is_empty ""); [discriminate|].
    destruct (parse_exponent (String c r)) eqn:Ex; [|discriminate]. intros _.
    exact (parse_exponent_no_comma _ _ Ex).
Qed.

Lemma lower_comma c : Ascii.eqb (lower_char c) "," = Ascii.eqb c ",".
Proof. by_cases_on_char c. Qed.

Lemma lower_no_comma s :
  str_all (fun c => negb (Ascii.eqb c ",")) (lower s) = true ->
  str_all (fun c => negb (Ascii.eqb c ",")) s = true.
Proof.
  unfold lower. rewrite str_all_map. apply str_all_impl.
  intros c. now rewrite lower_comma.
Qed.

(** Text that [float] accepts holds no comma. *)
Lemma float_of_string_no_comma s f :
  float_of_string s = Some f -> replace_comma s = s.
Proof.
  intros H. apply str_map_id.
  assert (Hc : str_all (fun c => negb (Ascii.eqb c ",")) s = true).
  { unfold float_of_string in H.
    destruct (underscores_ok false _); [|discriminate].
    apply (str_all_unstrip _ is_c_space); [intros c; by_cases_on_char c|].
    apply (str_all_unfilter _ (fun c => negb (Ascii.eqb c "_")));
      [intros c; by_cases_on_char c|].
    apply str_all_unsplit_sign; [reflexivity..|].
    destruct (split_sign _) as [neg body]. cbn [snd].
    destruct (String.eqb (lower body) "inf" || String.eqb (lower body) "infinity")
      eqn:Ei.
    { apply lower_no_comma.
      apply orb_true_iff in Ei as [->%String.eqb_eq| ->%String.eqb_eq]; reflexivity. }
    destruct (String.eqb_spec (lower body) "nan") as [En|_].
    { apply lower_no_comma. now rewrite En. }
    destruct (parse_decimal body) as [[n d]|] eqn:Ep; [|discriminate].
    exact (parse_decimal_no_comma _ _ Ep). }
  revert Hc. apply str_all_impl. intros c Hc.
  apply negb_true_iff in Hc. rewrite Hc. apply Ascii.eqb_refl.
Qed.

Lemma str_all_lstrip (P q : ascii -> bool) s :
  str_all P s = true -> str_all P (lstrip_by q s) = true.
Proof.
  induction s as [|c s IH]; [reflexivity|]. cbn [lstrip_by].
  destruct (q c); [|auto]. cbn [str_all]. intros [_ H]%andb_true_iff. auto.
Qed.

Lemma str_all_rstrip (P q : ascii -> bool) s :
  str_all P s = true -> str_all P (rstrip_by q s) = true.
Proof.
  induction s as [|c s IH]; [reflexivity|]. cbn [rstrip_by str_all].
  intros [Hc Hs]%andb_true_iff. specialize (IH Hs).
  destruct (rstrip_by q s) as [|c' r'].
  - destruct (q c); [reflexivity|]. cbn [str_all]. now rewrite Hc.
  - cbn [str_all] in *. now rewrite Hc, IH.
Qed.

Lemma str_all_split_sign (P : ascii -> bool) s :
  str_all P s = true -> str_all P (split_sign s).2 = true.
Proof.
  destruct s as [|c r]; [reflexivity|]. unfold split_sign. cbn [str_all].
  intros H. pose proof H as [_ Hr]%andb_true_iff.
  destruct (Ascii.eqb c "-"); [exact Hr|]. now destruct (Ascii.eqb c "+").
Qed.

(** The sign and digits left of a blank text are blank. *)
Lemma blank_body s :
  str_all is_space s = true ->
  str_all is_space
    (split_sign (remove_underscores (strip_by is_c_space s))).2 = true.
Proof.
  intros H. apply str_all_split_sign, Builder.str_all_filter_keep.
  now apply str_all_rstrip, str_all_lstrip.
Qed.

Lemma blank_not_digits body :
  str_all is_space body = true ->
  negb (is_empty body) && str_all is_digit body = false.
Proof.
  destruct body as [|c r]; [reflexivity|]. cbn [str_all is_empty negb andb].
  intros [Hc _]%andb_true_iff. revert Hc. by_cases_on_char c.
Qed.

Lemma blank_not_float body :
  str_all is_space body = true ->
  String.eqb (lower body) "inf" || String.eqb (lower body) "infinity" = false
  /\ String.eqb (lower body) "nan" = false
  /\ parse_decimal body = None.
Proof.
  destruct body as [|c r]; [repeat split; reflexivity|]. cbn [str_all].
  intros [Hc _]%andb_true_iff. revert Hc.
  by_cases_on_char c; intros _; repeat split; reflexivity.
Qed.

(** Blank text is no number for [int] and for [float]. *)
Lemma blank_parses_nowhere s :
  is_empty (strip s) = true ->
  int_of_string s = None /\ float_of_string s = None.
Proof.
  intros H.
  assert (Hb : str_all is_space s = true).
  { apply (str_all_unstrip _ is_space); [auto|].
    unfold strip in H. now destruct (strip_by is_space s). }
  pose proof (blank_body s Hb) as Hbody.
  unfold int_of_string, float_of_string.
  destruct (underscores_ok false _); [|split; reflexivity].
  destruct (split_sign _) as [neg body]. cbn [snd] in Hbody.
  rewrite (blank_not_digits _ Hbody).
  destruct (blank_not_float _ Hbody) as (-> & -> & ->). split; reflexivity.
Qed.

(** *** The text of a float is not blank *)

Lemma no_space_digits_of n : Spec.no_space (digits_of 10 n) = true.
Proof. apply is_clean_no_space. apply (clean_signed 10 ltac:(lia) 0). Qed.

Lemma str_all_take p n s : str_all p s = true -> str_all p (str_take n s) = true.
Proof.
  revert s. induction n as [|n IH]; intros [|c r]; simpl; try reflexivity.
  intros [-> Hr]%andb_true_iff. now apply IH.
Qed.

Lemma str_all_drop p n s : str_all p s = true -> str_all p (str_drop n s) = true.
Proof.
  revert s. induction n as [|n IH]; intros [|c r]; simpl; try reflexivity; auto.
  intros [_ Hr]%andb_true_iff. now apply IH.
Qed.

Lemma repr_digits_not_blank ds decpt :
  Spec.no_space ds = true ->
  Spec.no_space (repr_digits ds decpt) = true
  /\ is_empty (repr_digits ds decpt) = false.
Proof.
  intros Hds. unfold repr_digits, Spec.no_space in *.
  destruct (_ || _).
  - split.
    + rewrite str_all_app. apply andb_true_iff. split.
      * destruct ds as [|c [|c' r]]; [reflexivity|assumption|].
        cbn [str_all] in *. apply andb_true_iff in Hds as [-> ->]. reflexivity.
      * cbn [str_all]. rewrite str_all_app, str_all_zeros by reflexivity.
        fold (Spec.no_space (digits_of 10 (Z.abs_N (decpt - 1)))).
        rewrite no_space_digits_of. now destruct (decpt - 1 <? 0).
    + apply is_empty_false_length. rewrite str_length_app. cbn [String.length]. lia.
  - destruct (decpt <=? 0).
    + split; [|reflexivity].
      cbn [str_all]. rewrite str_all_app, str_all_zeros, Hds by reflexivity.
      reflexivity.
    + destruct (_ <=? decpt).
      * split.
        -- rewrite !str_all_app, str_all_zeros, Hds by reflexivity. reflexivity.
        -- apply is_empty_false_length. rewrite !str_length_app.
           cbn [String.length]. lia.
      * split.
        -- rewrite str_all_app. cbn [str_all].
           rewrite str_all_take, str_all_drop by assumption. reflexivity.
        -- apply is_empty_false_length. rewrite str_length_app.
           cbn [String.length]. lia.
Qed.

Lemma str_of_float_not_blank f : is_empty (strip (str_of_float f)) = false.
Proof.
  destruct f as [|[]|neg m e]; try reflexivity.
  unfold str_of_float.
  assert (H : Spec.no_space
                (if m <=? 0 then "0.0"
                 else let '(c, k) := shortest_decimal m e in
                      let '(c', k') := strip_zeros c k in
                      let ds := digits_of 10 (Z.abs_N c') in
                      repr_digits ds (Z.of_nat (String.length ds) + k')) = true
              /\ is_empty
                (if m <=? 0 then "0.0"
                 else let '(c, k) := shortest_decimal m e in
                      let '(c', k') := strip_zeros c k in
                      let ds := digits_of 10 (Z.abs_N c') in
                      repr_digits ds (Z.of_nat (String.length ds) + k')) = false).
  { destruct (m <=? 0); [split; reflexivity|].
    destruct (shortest_decimal m e) as [c k].
    destruct (strip_zeros c k) as [c' k'].
    apply repr_digits_not_blank, no_space_digits_of. }
  destruct H as [Hn He]. destruct neg.
  - rewrite no_space_strip; [reflexivity|].
    unfold Spec.no_space in *. cbn [str_all]. now rewrite Hn.
  - now rewrite no_space_strip.
Qed.

(** X4. The hex normalizer of [test2.py] extends that of [test.py]:
    whenever [to_hex] returns a text for a value and a width, [_to_hex]
    returns the same text.  (The converse fails on blank text and on a
    decimal comma.) *)
Theorem X4_to_hex_extended_by__to_hex (v : value) (w : nat) (s : string)
    (Hs : Test.to_hex v w = Ok s) :
  Test2._to_hex v w = Ok s.
Proof.
  unfold Test.to_hex in Hs. unfold Test2._to_hex.
  destruct (isna v) eqn:Hna; [exact Hs|]. cbn [orb].
  destruct v as [|z|f|t]; try discriminate.
  - cbn [str]. now rewrite Normalizer.str_of_int_not_blank.
  - cbn [str]. rewrite str_of_float_not_blank.
    destruct f as [|neg|neg m e]; [discriminate|discriminate|exact Hs].
  - cbn [str int float] in *.
    destruct (is_empty (strip t)) eqn:Eb.
    { destruct (blank_parses_nowhere t Eb) as [Hi Hf].
      rewrite Hi, Hf in Hs. discriminate. }
    destruct (int_of_string t) as [z|]; [exact Hs|].
    cbn [of_option try_except is_exception] in *.
    destruct (float_of_string t) as [f|] eqn:Ef; [|discriminate].
    now rewrite (float_of_string_no_comma _ _ Ef), Ef.
Qed.

(** X4 at the text "10.5" and width 4. *)
Lemma X4_witness :
  Test.to_hex (VStr "10.5") 4 = Ok "000A"
  /\ Test2._to_hex (VStr "10.5") 4 = Ok "000A".
Proof.
  assert (H : Test.to_hex (VStr "10.5") 4 = Ok "000A") by (vm_compute; reflexivity).
  split; [exact H|]. exact (X4_to_hex_extended_by__to_hex _ _ _ H).
Defined.

End HexRefinement.

(** ** The shape of the identifiers *)

Module IdentifierShape.

Import PyFacts.

Lemma length_format_fit (b : N) v w k :
  (2 <= b)%N -> 0 <= v < Z.of_N b ^ Z.of_nat k -> (1 <= k <= w)%nat ->
  String.length (format_zero b v w) = w.
Proof.
  intros Hb Hv Hk. rewrite length_format_zero by assumption.
  unfold signed. destruct (Z.ltb_spec v 0); [lia|].
  pose proof (length_digits_of_le b Hb (Z.abs_N v) k) as Hlen.
  enough (String.length (digits_of b (Z.abs_N v)) <= k)%nat by lia.
  apply Hlen; [|lia]. apply N2Z.inj_lt. rewrite N2Z.inj_pow, N2Z.inj_abs_N.
  rewrite nat_N_Z. lia.
Qed.

Lemma length_digits_fuel_lower (b : N) f n acc k :
  (2 <= b)%N -> (n < 2 ^ N.of_nat f)%N -> (b ^ N.of_nat k <= n)%N ->
  (k + 1 + String.length acc <= String.length (digits_fuel f b n acc))%nat.
Proof.
  intros Hb. revert n acc k. induction f as [|f IH]; intros n acc k Hn Hk.
  - simpl in Hn. assert (0 < b ^ N.of_nat k)%N
        by (pose proof (N.pow_nonzero b (N.of_nat k) ltac:(lia)); lia). lia.
  - cbn [digits_fuel]. destruct (N.eqb_spec (n / b) 0) as [E|E].
    + cbn [String.length]. enough (k = 0)%nat by lia.
      destruct k as [|k]; [reflexivity|]. exfalso.
      apply N.div_small_iff in E; [|lia].
      replace (N.of_nat (S k)) with (N.succ (N.of_nat k)) in Hk by lia.
      rewrite N.pow_succ_r' in Hk.
      assert (0 < b ^ N.of_nat k)%N
        by (pose proof (N.pow_nonzero b (N.of_nat k) ltac:(lia)); lia). nia.
    + assert (Hf : (n / b < 2 ^ N.of_nat f)%N).
      { replace (N.of_nat (S f)) with (N.succ (N.of_nat f)) in Hn by lia.
        rewrite N.pow_succ_r' in Hn. apply N.Div0.div_lt_upper_bound. nia. }
      destruct k as [|k].
      * pose proof (length_digits_fuel_ge b Hb f (n / b)%N
                      (String (digit_char (n mod b)%N) acc)) as Hge.
        cbn [String.length] in Hge. lia.
      * specialize (IH (n / b)%N (String (digit_char (n mod b)%N) acc) k Hf).
        cbn [String.length] in IH. enough (b ^ N.of_nat k <= n / b)%N by lia.
        replace (N.of_nat (S k)) with (N.succ (N.of_nat k)) in Hk by lia.
        rewrite N.pow_succ_r' in Hk. apply N.div_le_lower_bound; lia.
Qed.

Lemma length_format_exact (b : N) v w k :
  (2 <= b)%N -> Z.of_N b ^ Z.of_nat k <= v < Z.of_N b ^ Z.of_nat (S k) ->
  (w <= S k)%nat ->
  String.length (format_zero b v w) = S k.
Proof.
  intros Hb Hv Hw. rewrite length_format_zero by assumption.
  assert (0 < Z.of_N b ^ Z.of_nat k) by (apply Z.pow_pos_nonneg; lia).
  unfold signed. destruct (Z.ltb_spec v 0); [lia|].
  pose proof (length_digits_of_le b Hb (Z.abs_N v) (S k)) as Hle.
  pose proof (length_digits_fuel_lower b (S (N.to_nat (N.log2 (Z.abs_N v))))
                (Z.abs_N v) "" k Hb) as Hge.
  fold (digits_of b (Z.abs_N v)) in Hge. cbn [String.length] in Hge.
  enough (String.length (digits_of b (Z.abs_N v)) = S k) by lia.
  apply Nat.le_antisymm.
  - apply Hle; [|lia]. apply N2Z.inj_lt.
    rewrite N2Z.inj_pow, N2Z.inj_abs_N, nat_N_Z. lia.
  - enough (k + 1 + 0 <= String.length (digits_of b (Z.abs_N v)))%nat by lia.
    apply Hge.
    + destruct (Z.abs_N v) as [|q] eqn:Eq; [reflexivity|].
      rewrite Nat2N.inj_succ, N2Nat.id. apply N.log2_spec. lia.
    + apply N2Z.inj_le. rewrite N2Z.inj_pow, N2Z.inj_abs_N, nat_N_Z. lia.
Qed.

Lemma zfill_str_of_int a w : zfill (str_of_int a) w = format_d a w.
Proof. unfold format_d. now rewrite (format_zero_zfill 10) by lia. Qed.

(** The MNC segment of an integer MNC is a zero-padded decimal of it. *)
Lemma mnc_part_int b mode :
  exists k, Test2.mnc_part (str_of_int b) mode = format_d b k
            /\ (k = 2 \/ k = 3)%nat
            /\ (String.eqb mode "2" = false -> String.eqb mode "3" = false ->
                k = if b <? 100 then 2%nat else 3%nat).
Proof.
  unfold Test2.mnc_part. rewrite int_of_string_str_of_int.
  destruct (String.eqb mode "2").
  { exists 2%nat. rewrite zfill_str_of_int. split; [reflexivity|].
    split; [now left|discriminate]. }
  destruct (String.eqb mode "3").
  { exists 3%nat. rewrite zfill_str_of_int. split; [reflexivity|].
    split; [now right|discriminate]. }
  destruct (b <? 100).
  - exists 2%nat. split; [reflexivity|]. split; [now left|reflexivity].
  - exists 3%nat. split; [reflexivity|]. split; [now right|reflexivity].
Qed.

Lemma build_id_int_segments a b c d mode lw cw :
  exists k,
    Test2.build_id (VInt a) (VInt b) (VInt c) (VInt d) mode lw cw
    = Ok (format_d a 3 +:+ format_d b k +:+ format_X c lw +:+ format_X d cw)
    /\ Test2.mnc_part (str_of_int b) mode = format_d b k
    /\ (k = 2 \/ k = 3)%nat.
Proof.
  destruct (mnc_part_int b mode) as (k & Hk & Hk' & _). exists k.
  split; [|split; assumption].
  rewrite Variants.test2_build_id_int, Hk, zfill_str_of_int. f_equal.
  apply is_clean_upper_id. unfold Spec.is_clean.
  rewrite !str_all_app.
  fold (Spec.is_clean (format_d a 3)). fold (Spec.is_clean (format_d b k)).
  fold (Spec.is_clean (format_X c lw)). fold (Spec.is_clean (format_X d cw)).
  unfold format_d, format_X.
  now rewrite !(clean_format_zero 10), !(clean_format_zero 16) by lia.
Qed.

(** X5. For an MCC below 1000, an MNC below 1000 and LAC and CI that fit
    their hex widths, all non-negative, both builders return the same
    identifier and its length is 3 + 3 + lac_width + ci_width when the mode
    is "3" or the MNC is 100 or more, and 3 + 2 + lac_width + ci_width
    otherwise. *)
Theorem X5_identifier_length_when_fields_fit
    (a b c d : Z) (mode : string) (lw cw : nat)
    (Ha : 0 <= a < 1000) (Hb : 0 <= b < 1000)
    (Hc : 0 <= c < 16 ^ Z.of_nat lw) (Hd : 0 <= d < 16 ^ Z.of_nat cw)
    (Hlw : (1 <= lw)%nat) (Hcw : (1 <= cw)%nat) :
  exists id,
    Test2.build_id (VInt a) (VInt b) (VInt c) (VInt d) mode lw cw = Ok id
    /\ Test.build_id (VInt a) (VInt b) (VInt c) (VInt d) 3 mode lw cw = Ok id
    /\ String.length id
       = (3 + (if String.eqb mode "3" || (100 <=? b)%Z then 3 else 2) + lw + cw)%nat.
Proof.
  destruct (build_id_int_segments a b c d mode lw cw) as (k & Hid & Hk & _).
  eexists. split; [exact Hid|].
  split; [now rewrite Variants.test_build_id_int, <- Variants.test2_build_id_int|].
  rewrite !str_length_app. unfold format_d, format_X.
  rewrite (length_format_fit 10 a 3 3), (length_format_fit 16 c lw lw),
    (length_format_fit 16 d cw cw) by (simpl; lia).
  enough (String.length (format_zero 10 b k)
          = if String.eqb mode "3" || (100 <=? b)%Z then 3%nat else 2%nat) by lia.
  fold (format_d b k). rewrite <- Hk. unfold Test2.mnc_part.
  rewrite int_of_string_str_of_int, !zfill_str_of_int. unfold format_d.
  destruct (String.eqb_spec mode "2") as [->|H2].
  - cbn [String.eqb Ascii.eqb Bool.eqb orb].
    destruct (Z.leb_spec 100 b).
    + apply (length_format_exact 10 b 2 2); simpl; lia.
    + apply (length_format_fit 10 b 2 2); simpl; lia.
  - destruct (String.eqb mode "3"); cbn [orb].
    + apply (length_format_fit 10 b 3 3); simpl; lia.
    + destruct (Z.ltb_spec b 100), (Z.leb_spec 100 b); try lia.
      * apply (length_format_fit 10 b 2 2); simpl; lia.
      * apply (length_format_fit 10 b 3 3); simpl; lia.
Qed.

(** X5 at the row (250, 1, 10, 20) under mode "auto" and widths 4 and 4. *)
Lemma X5_witness :
  exists id,
    Test2.build_id (VInt 250) (VInt 1) (VInt 10) (VInt 20) "auto" 4 4 = Ok id
    /\ Test.build_id (VInt 250) (VInt 1) (VInt 10) (VInt 20) 3 "auto" 4 4 = Ok id
    /\ String.length id = 13%nat.
Proof.
  apply (X5_identifier_length_when_fields_fit 250 1 10 20 "auto" 4 4);
    simpl; lia.
Defined.

Lemma str_take_app n a r :
  String.length a = n -> str_take n (a +:+ r) = a.
Proof.
  revert a. induction n as [|n IH]; intros [|c a] H; try discriminate.
  - now destruct r.
  - rewrite str_app_cons. cbn [str_take]. f_equal. apply IH. now injection H.
Qed.

Lemma str_drop_app n k a r :
  String.length a = n -> str_drop (n + k) (a +:+ r) = str_drop k r.
Proof.
  revert a. induction n as [|n IH]; intros [|c a] H; try discriminate.
  - reflexivity.
  - rewrite str_app_cons. cbn [Nat.add str_drop]. apply IH. now injection H.
Qed.

Lemma str_drop_0 s : str_drop 0 s = s.
Proof. now destruct s. Qed.

(** An identifier built from integers that fit spells them back. *)
Lemma build_id_decodes a b c d mode lw cw :
  0 <= a < 1000 -> 0 <= b ->
  0 <= c < 16 ^ Z.of_nat lw -> 0 <= d < 16 ^ Z.of_nat cw ->
  (1 <= lw)%nat -> (1 <= cw)%nat ->
  exists id,
    Test2.build_id (VInt a) (VInt b) (VInt c) (VInt d) mode lw cw = Ok id
    /\ Shape.decode_id lw cw id = Some (a, b, c, d).
Proof.
  intros Ha Hb Hc Hd Hlw Hcw.
  destruct (build_id_int_segments a b c d mode lw cw) as (k & Hid & _ & _).
  eexists. split; [exact Hid|].
  set (A := format_d a 3). set (B := format_d b k).
  set (C := format_X c lw). set (D := format_X d cw).
  assert (HA : String.length A = 3%nat)
    by (apply (length_format_fit 10 a 3 3); simpl; lia).
  assert (HC : String.length C = lw)
    by (apply (length_format_fit 16 c lw lw); simpl; lia).
  assert (HD : String.length D = cw)
    by (apply (length_format_fit 16 d cw cw); simpl; lia).
  unfold Shape.decode_id.
  replace (String.length (A +:+ B +:+ C +:+ D) - 3 - lw - cw)%nat
    with (String.length B) by (rewrite !str_length_app; lia).
  rewrite (str_take_app 3 A) by assumption.
  replace 3%nat with (3 + 0)%nat at 1 by lia.
  rewrite (str_drop_app 3 0 A), str_drop_0 by assumption.
  rewrite (str_take_app (String.length B) B) by reflexivity.
  replace (3 + String.length B)%nat with (3 + (String.length B + 0))%nat by lia.
  rewrite (str_drop_app 3 _ A), (str_drop_app (String.length B) 0 B), str_drop_0
    by (assumption || reflexivity).
  rewrite (str_take_app lw C) by assumption.
  replace (3 + (String.length B + 0) + lw)%nat
    with (3 + (String.length B + (lw + 0)))%nat by lia.
  rewrite (str_drop_app 3 _ A), (str_drop_app (String.length B) _ B),
    (str_drop_app lw 0 C), str_drop_0 by (assumption || reflexivity).
  subst A B C D. unfold format_d, format_X.
  change 10 with (Z.of_N 10). change 16 with (Z.of_N 16).
  now rewrite !read_number_format_zero by lia.
Qed.

(** X6. An identifier built from integers that fit (MCC below 1000, LAC
    and CI within their hex widths, all four non-negative) spells the four
    numbers back: cut at three digits from the left and at the two hex
    widths from the right and read in base 10 and 16, it gives the row it
    was built from.  So two such rows with the same identifier are the same
    row, whatever the MNC modes they were built under. *)
Theorem X6_identifier_determines_the_row
    (a b c d : Z) (mode : string) (lw cw : nat)
    (Ha : 0 <= a < 1000) (Hb : 0 <= b)
    (Hc : 0 <= c < 16 ^ Z.of_nat lw) (Hd : 0 <= d < 16 ^ Z.of_nat cw)
    (Hlw : (1 <= lw)%nat) (Hcw : (1 <= cw)%nat) :
  exists id,
    Test2.build_id (VInt a) (VInt b) (VInt c) (VInt d) mode lw cw = Ok id
    /\ Test.build_id (VInt a) (VInt b) (VInt c) (VInt d) 3 mode lw cw = Ok id
    /\ Shape.decode_id lw cw id = Some (a, b, c, d)
    /\ (forall a' b' c' d' mode',
          0 <= a' < 1000 -> 0 <= b' ->
          0 <= c' < 16 ^ Z.of_nat lw -> 0 <= d' < 16 ^ Z.of_nat cw ->
          Test2.build_id (VInt a') (VInt b') (VInt c') (VInt d') mode' lw cw = Ok id ->
          (a', b', c', d') = (a, b, c, d)).
Proof.
  destruct (build_id_decodes a b c d mode lw cw) as (id & Hid & Hdec); try assumption.
  exists id. split; [exact Hid|].
  split; [now rewrite Variants.test_build_id_int, <- Variants.test2_build_id_int|].
  split; [exact Hdec|].
  intros a' b' c' d' mode' Ha' Hb' Hc' Hd' Hid'.
  destruct (build_id_decodes a' b' c' d' mode' lw cw) as (id' & Hid'' & Hdec');
    try assumption.
  congruence.
Qed.

(** X6 at the row (250, 120, 65535, 1) under mode "auto" and widths 4
    and 4. *)
Lemma X6_witness :
  exists id,
    Test2.build_id (VInt 250) (VInt 120) (VInt 65535) (VInt 1) "auto" 4 4 = Ok id
    /\ Shape.decode_id 4 4 id = Some (250, 120, 65535, 1).
Proof.
  destruct (X6_identifier_determines_the_row 250 120 65535 1 "auto" 4 4)
    as (id & H1 & _ & H2 & _); try (simpl; lia).
  exists id. split; assumption.
Defined.

End IdentifierShape.

(** ** Empty identifiers and the MNC modes *)

Module Sentinel.

Import PyFacts.

Lemma app_empty (a b : string) : a +:+ b = "" -> a = "" /\ b = "".
Proof.
  destruct a; [rewrite str_app_nil_l; now intros ->|].
  rewrite str_app_cons. discriminate.
Qed.

Lemma upper_empty s : upper s = "" -> s = "".
Proof. now destruct s. Qed.

Lemma zfill_not_empty s w : (1 <= w)%nat -> zfill s w <> "".
Proof.
  intros Hw E. pose proof (length_zfill s w) as H. rewrite E in H.
  cbn [String.length] in H. lia.
Qed.

Lemma format_not_empty b z w : (2 <= b)%N -> format_zero b z w <> "".
Proof.
  intros Hb E. pose proof (NormalizerEdges.format_zero_nonempty b z w Hb) as H.
  now rewrite E in H.
Qed.

Lemma mnc_part_empty raw mode :
  Test2.mnc_part raw mode = ""
  <-> raw = "" /\ String.eqb mode "2" = false /\ String.eqb mode "3" = false.
Proof.
  unfold Test2.mnc_part. split.
  - destruct (String.eqb mode "2");
      [intros E; exfalso; apply (zfill_not_empty raw 2); [lia|exact E]|].
    destruct (String.eqb mode "3");
      [intros E; exfalso; apply (zfill_not_empty raw 3); [lia|exact E]|].
    destruct (int_of_string raw) as [v|]; [|auto].
    destruct (v <? 100); intros E; exfalso;
      apply (format_not_empty 10 _ _ ltac:(lia) E).
  - intros (-> & -> & ->). reflexivity.
Qed.

Lemma str_map_app_prefix f (a b : string) :
  String.prefix (str_map f a) (str_map f (a +:+ b)) = true.
Proof.
  induction a as [|c a IH];
    [rewrite str_app_nil_l; cbn [str_map]; now destruct (str_map f b)|].
  rewrite str_app_cons. cbn [str_map String.prefix].
  destruct (ascii_dec (f c) (f c)); [exact IH|congruence].
Qed.

Lemma remove_ws_empty_blank u : remove_ws u = "" -> str_all is_space u = true.
Proof.
  induction u as [|c u IH]; [reflexivity|]. unfold remove_ws in *.
  cbn [str_filter str_all]. destruct (is_space c); [exact IH|discriminate].
Qed.

Lemma lstrip_blank q s : str_all q s = true -> lstrip_by q s = "".
Proof.
  induction s as [|c s IH]; [reflexivity|]. cbn [str_all lstrip_by].
  intros [-> H]%andb_true_iff. auto.
Qed.

Lemma strip_empty_iff t : remove_ws (strip t) = "" <-> is_empty (strip t) = true.
Proof.
  split.
  - intros H%remove_ws_empty_blank.
    apply (HexRefinement.str_all_unstrip _ is_space) in H; [|auto].
    unfold strip, strip_by. now rewrite (lstrip_blank _ _ H).
  - destruct (strip t); [reflexivity|discriminate].
Qed.

(** [norm_digits] without a width gives the empty string exactly on what
    is absent or blank. *)
Lemma norm_digits_empty v :
  Test.norm_digits v None None = Ok "" <-> Spec.absent_or_blank v = true.
Proof.
  unfold Spec.absent_or_blank, Test.norm_digits.
  destruct (isna v) eqn:Hna; [split; reflexivity|]. cbn [orb].
  destruct v as [|z|f|t]; try discriminate.
  - cbn [int bind str]. rewrite Normalizer.str_of_int_not_blank.
    rewrite (no_space_remove_ws _ (is_clean_no_space _ (str_of_int_clean z))).
    split; [|discriminate]. intros [= E].
    pose proof (str_of_int_nonempty z) as H. now rewrite E in H.
  - cbn [str]. rewrite HexRefinement.str_of_float_not_blank.
    split; [|discriminate].
    destruct f as [|neg|neg m e]; try discriminate. cbn [int int_of_float bind].
    rewrite (no_space_remove_ws _ (is_clean_no_space _ (str_of_int_clean _))).
    intros [= E].
    pose proof (str_of_int_nonempty (Shape.truncation neg m e)) as H.
    unfold Shape.truncation in H. cbv zeta in H. now rewrite E in H.
  - cbn [str bind]. rewrite <- strip_empty_iff. split; congruence.
Qed.

(** X7. [build_id] of [test.py], with the MCC width 3 that the loader
    passes, returns the empty string exactly when MCC, LAC and CI are
    absent, the MNC is absent or blank and the mode is neither "2" nor "3";
    the loader drops these rows, so its list never holds the empty string
    and is no longer than the table. *)
Theorem X7_empty_identifier_in_test_py
    (mcc mnc lac ci : value) (mode : string) (lw cw : nat) :
  (Test.build_id mcc mnc lac ci 3 mode lw cw = Ok ""
   <-> isna mcc = true /\ Spec.absent_or_blank mnc = true
       /\ String.eqb mode "2" = false /\ String.eqb mode "3" = false
       /\ isna lac = true /\ isna ci = true)
  /\ (forall rows ids,
        Test.load_access_compound_ids rows mode lw cw = Ok ids ->
        ("" ∉ ids) /\ (length ids <= length rows)%nat).
Proof.
  split.
  - unfold Test.build_id. split.
    + intros (m & Hm & (r & Hr & (l & Hl & (c & Hc & H)%bind_ok)%bind_ok)%bind_ok)%bind_ok.
      injection H as H. apply upper_empty, app_empty in H as [-> H].
      apply app_empty in H as [Hn H]. apply app_empty in H as [-> ->].
      rewrite MncSegment.mnc_part_same in Hn.
      apply mnc_part_empty in Hn as (-> & H2 & H3).
      apply norm_digits_empty in Hr.
      apply NormalizerEdges.to_hex_empty in Hl, Hc.
      repeat split; try assumption.
      destruct (isna mcc) eqn:Hna; [reflexivity|].
      unfold Test.norm_digits in Hm. rewrite Hna in Hm.
      apply bind_ok in Hm as (t & _ & Hm). injection Hm as Hm.
      destruct (Nat.ltb_spec (String.length (remove_ws t)) 3) as [Hlt|Hge].
      * exfalso. apply (zfill_not_empty (remove_ws t) 3); [lia|exact Hm].
      * rewrite Hm in Hge. cbn [String.length] in Hge. lia.
    + intros (Hna & Hb & H2 & H3 & Hl & Hc).
      apply norm_digits_empty in Hb. rewrite Hb. cbn [bind].
      unfold Test.norm_digits, Test.to_hex. rewrite Hna, Hl, Hc. cbn [bind].
      rewrite MncSegment.mnc_part_same.
      now rewrite (proj2 (mnc_part_empty "" mode) (conj eq_refl (conj H2 H3))).
  - intros rows ids. rewrite Variants.load_ids_as_mapM.
    intros (built & Hb & H)%bind_ok. injection H as <-. split.
    + rewrite list_elem_of_In, filter_In. now intros [_ Hne].
    + etransitivity; [apply filter_length_le|].
      clear -Hb. revert built Hb. induction rows as [|r rows IH]; intros built.
      * intros [= <-]. reflexivity.
      * cbn [mapM]. intros (y & _ & (ys & Hys & H)%bind_ok)%bind_ok.
        injection H as <-. cbn [length]. specialize (IH _ Hys). lia.
Qed.

Lemma filter_nonempty_id ids :
  Forall (fun id => (3 <= String.length id)%nat) ids ->
  List.filter (fun s => negb (is_empty s)) ids = ids.
Proof.
  induction 1 as [|id l Hid _ IH]; [reflexivity|].
  cbn [List.filter]. destruct id; [simpl in Hid; lia|]. cbn. now rewrite IH.
Qed.

Lemma mapM_length {A B} (f : A -> result B) l ys :
  mapM f l = Ok ys -> length ys = length l.
Proof.
  revert ys. induction l as [|x l IH]; intros ys; cbn [mapM].
  - now intros [= <-].
  - intros (y & _ & (ys' & Hys & H)%bind_ok)%bind_ok. injection H as <-.
    cbn [length]. now rewrite (IH _ Hys).
Qed.

(** X8. In [test2.py] the MCC is zero-filled even when it is absent, so
    every identifier that [build_id] returns has at least three characters
    and starts with the zero-filled MCC text.  The filter of empty
    identifiers in [fetch_access_ids] therefore removes nothing: the fetch
    is the list of the identifiers of all rows, one per row, and it raises
    exactly when the builder raises on some row. *)
Theorem X8_test2_never_builds_the_empty_identifier (rows : list row) :
  (forall mcc mnc lac ci mode lw cw id,
     Test2.build_id mcc mnc lac ci mode lw cw = Ok id ->
     (3 <= String.length id)%nat
     /\ String.prefix (upper (zfill (Test2._digits mcc) 3)) id = true)
  /\ Test2.fetch_access_ids rows
     = mapM (fun r => Test2.build_id (mcc r) (mnc r) (lac r) (ci r)
                        Test2.MNC_MODE Test2.LAC_HEX_WIDTH Test2.CI_HEX_WIDTH) rows
  /\ (forall ids, Test2.fetch_access_ids rows = Ok ids -> length ids = length rows)
  /\ (is_ok (Test2.fetch_access_ids rows)
      = forallb (fun r => is_ok (Test2._to_hex (lac r) Test2.LAC_HEX_WIDTH)
                          && is_ok (Test2._to_hex (ci r) Test2.CI_HEX_WIDTH)) rows).
Proof.
  assert (Hfetch : Test2.fetch_access_ids rows
     = mapM (fun r => Test2.build_id (mcc r) (mnc r) (lac r) (ci r)
                        Test2.MNC_MODE Test2.LAC_HEX_WIDTH Test2.CI_HEX_WIDTH) rows).
  { unfold Test2.fetch_access_ids.
    destruct (mapM _ rows) as [built|e] eqn:E; [|reflexivity]. cbn [bind].
    rewrite filter_nonempty_id; [reflexivity|].
    eapply Builder.mapM_ok_Forall; [|exact E].
    intros r id H. exact (Builder.build_id_length _ _ _ _ _ _ _ _ H). }
  split.
  { intros mcc mnc lac ci mode lw cw id H.
    split; [exact (Builder.build_id_length _ _ _ _ _ _ _ _ H)|].
    unfold Test2.build_id in H.
    apply bind_ok in H as (l & _ & (c & _ & H)%bind_ok). injection H as <-.
    unfold upper. rewrite str_map_app_prefix. reflexivity. }
  split; [exact Hfetch|].
  split; [intros ids H; rewrite Hfetch in H; now apply mapM_length in H|].
  rewrite Hfetch. clear Hfetch. induction rows as [|r rows IH]; [reflexivity|].
  cbn [mapM forallb].
  rewrite <- IH, <- (Builder.build_id_is_ok (mcc r) (mnc r) _ _ Test2.MNC_MODE).
  destruct (Test2.build_id _ _ _ _ _ _ _); [|reflexivity]. cbn [bind is_ok andb].
  now destruct (mapM _ rows).
Qed.

(** X9. The MNC mode is "auto" whenever it is neither "2" nor "3".  Under
    "auto" the segment of an integer MNC is the one of the fixed mode that
    its value selects, "2" below 100 and "3" from 100 on; and "auto"
    depends on the digit string through its integer value alone, so that
    the text "007" gives "07" under "auto" but stays "007" under "3". *)
Theorem X9_auto_selects_a_fixed_mode (raw mode : string) (v : Z) :
  (String.eqb mode "2" = false -> String.eqb mode "3" = false ->
   Test2.mnc_part raw mode = Test2.mnc_part raw "auto"
   /\ Test.mnc_part raw mode = Test.mnc_part raw "auto")
  /\ Test2.mnc_part (str_of_int v) "auto"
     = Test2.mnc_part (str_of_int v) (if v <? 100 then "2" else "3")
  /\ (int_of_string raw = Some v ->
      Test2.mnc_part raw "auto" = Test2.mnc_part (str_of_int v) "auto")
  /\ Test2.mnc_part "007" "auto" = "07"
  /\ Test2.mnc_part "007" "3" = "007".
Proof.
  split.
  { intros H2 H3. rewrite !MncSegment.mnc_part_same.
    unfold Test2.mnc_part. rewrite H2, H3. now split. }
  split.
  { rewrite MncSegment.mnc_part_auto, int_of_string_str_of_int.
    destruct (v <? 100); [rewrite MncSegment.mnc_part_2|rewrite MncSegment.mnc_part_3];
      now rewrite IdentifierShape.zfill_str_of_int. }
  split.
  { intros H. now rewrite !MncSegment.mnc_part_auto, H, int_of_string_str_of_int. }
  split; vm_compute; reflexivity.
Qed.

End Sentinel.

(** ** The column resolver on arbitrary headers *)

Module ResolverGeneral.

Import PyFacts.

Lemma prefix_refl s : String.prefix s s = true.
Proof.
  induction s as [|c s IH]; [reflexivity|]. cbn [String.prefix].
  destruct (ascii_dec c c); [exact IH|congruence].
Qed.

Lemma is_substring_refl s : is_substring s s = true.
Proof. destruct s; cbn [is_substring]; now rewrite prefix_refl. Qed.

Lemma is_substring_empty s : is_substring "" s = true.
Proof. now destruct s. Qed.

Lemma dict_set_elem {V} k v k' (v' : V) d :
  (k, v) ∈ dict_set k' v' d -> (k, v) = (k', v') \/ (k, v) ∈ d.
Proof.
  induction d as [|[k0 v0] r IH]; cbn [dict_set].
  - intros ->%list_elem_of_singleton. now left.
  - destruct (String.eqb k' k0).
    + intros [->|H]%elem_of_cons; [now left|right; now right].
    + intros [->|H]%elem_of_cons; [right; left|].
      destruct (IH H) as [E|E]; [now left|right; now right].
Qed.

Lemma dict_set_keys {V} k' (v' : V) d k :
  k ∈ map fst (dict_set k' v' d) <-> k = k' \/ k ∈ map fst d.
Proof.
  induction d as [|[k0 v0] r IH]; cbn [dict_set map fst].
  - rewrite list_elem_of_singleton, elem_of_nil. tauto.
  - destruct (String.eqb_spec k' k0) as [->|Hne]; cbn [map fst];
      rewrite !elem_of_cons; [tauto|]. rewrite IH. tauto.
Qed.

(** Every entry of the mapping is a header under its normalized name, and
    every header has its normalized name among the keys. *)
Lemma mapping_invariant cols acc :
  (forall k v, (k, v) ∈ fold_left (fun d c => dict_set (Test._normalize c) c d) cols acc ->
               (k, v) ∈ acc \/ (v ∈ cols /\ k = Test._normalize v))
  /\ (forall k, k ∈ map fst (fold_left (fun d c => dict_set (Test._normalize c) c d) cols acc)
                <-> k ∈ map fst acc \/ k ∈ map Test._normalize cols).
Proof.
  revert acc. induction cols as [|c cols IH]; intros acc; cbn [fold_left map].
  - split; [auto|]. intros k. rewrite elem_of_nil. tauto.
  - destruct (IH (dict_set (Test._normalize c) c acc)) as [IH1 IH2]. split.
    + intros k v H. destruct (IH1 k v H) as [H'|[H1 H2]].
      * destruct (dict_set_elem _ _ _ _ _ H') as [[= -> ->]|H'']; [|now left].
        right. split; [left|reflexivity].
      * right. split; [now right|assumption].
    + intros k. rewrite IH2, dict_set_keys, elem_of_cons. tauto.
Qed.

Lemma dict_get_elem {V} k (d : dict V) v : dict_get k d = Some v -> (k, v) ∈ d.
Proof.
  induction d as [|[k0 v0] r IH]; [discriminate|]. cbn [dict_get].
  destruct (String.eqb_spec k k0) as [->|_]; [intros [= ->]; left|].
  intros H. right. auto.
Qed.

Lemma dict_get_is_Some {V} k (d : dict V) : is_Some (dict_get k d) <-> k ∈ map fst d.
Proof.
  induction d as [|[k0 v0] r IH]; cbn [dict_get map fst].
  - rewrite elem_of_nil. split; [intros [? [=]]|tauto].
  - rewrite elem_of_cons. destruct (String.eqb_spec k k0) as [->|Hne].
    + split; [now left|eauto].
    + rewrite IH. tauto.
Qed.

Lemma partial_match_Some key items h :
  Test.partial_match key items = Some h ->
  exists k, (k, h) ∈ items /\ Shape.names_match key k = true.
Proof.
  induction items as [|[k v] r IH]; [discriminate|]. cbn [Test.partial_match].
  destruct (is_substring key k || is_substring k key) eqn:E.
  - intros [= ->]. exists k. split; [left|exact E].
  - intros H. destruct (IH H) as (k' & Hin & Hm). exists k'. split; [now right|assumption].
Qed.

Lemma partial_match_None key items :
  Test.partial_match key items = None ->
  forall k, k ∈ map fst items -> Shape.names_match key k = false.
Proof.
  induction items as [|[k v] r IH]; cbn [Test.partial_match map fst].
  - intros _ k H. inversion H.
  - destruct (is_substring key k || is_substring k key) eqn:E; [discriminate|].
    intros H k' [->|Hin]%elem_of_cons; [exact E|auto].
Qed.

(** What resolution returns is a header that matches. *)
Lemma resolve_sound df target h :
  Test._resolve_column df target = Ok h ->
  h ∈ columns df
  /\ Shape.names_match (Test._normalize target) (Test._normalize h) = true.
Proof.
  unfold Test._resolve_column, Test.column_mapping.
  destruct (mapping_invariant (columns df) []) as [Hinv _].
  destruct (dict_get _ _) as [orig|] eqn:Eg.
  - intros [= ->]. apply dict_get_elem in Eg.
    destruct (Hinv _ _ Eg) as [H|[H1 H2]]; [inversion H|].
    split; [exact H1|]. rewrite <- H2. unfold Shape.names_match.
    now rewrite is_substring_refl.
  - destruct (Test.partial_match _ _) as [orig|] eqn:Ep; [|discriminate].
    intros [= ->]. apply partial_match_Some in Ep as (k & Hin & Hm).
    destruct (Hinv _ _ Hin) as [H|[H1 H2]]; [inversion H|].
    split; [exact H1|]. now rewrite <- H2.
Qed.

(** Resolution succeeds exactly when some header matches. *)
Lemma resolve_is_ok df target :
  is_ok (Test._resolve_column df target)
  = existsb (fun h => Shape.names_match (Test._normalize target) (Test._normalize h))
      (columns df).
Proof.
  destruct (Test._resolve_column df target) as [h|e] eqn:E; cbn [is_ok].
  - symmetry. apply existsb_exists. exists h.
    destruct (resolve_sound _ _ _ E) as [Hin Hm].
    split; [now apply list_elem_of_In|exact Hm].
  - symmetry. apply not_true_iff_false. intros (h & Hin & Hm)%existsb_exists.
    apply list_elem_of_In in Hin.
    unfold Test._resolve_column, Test.column_mapping in E.
    destruct (mapping_invariant (columns df) []) as [_ Hkeys].
    destruct (dict_get _ _); [discriminate|].
    destruct (Test.partial_match _ _) eqn:Ep; [discriminate|].
    pose proof (partial_match_None _ _ Ep (Test._normalize h)) as Hn.
    rewrite Hn in Hm; [discriminate|].
    apply Hkeys. right. now apply list_elem_of_fmap_2.
Qed.

Lemma resolve_exact_first df target h :
  Test._normalize target ∈ map Test._normalize (columns df) ->
  Test._resolve_column df target = Ok h ->
  Test._normalize h = Test._normalize target.
Proof.
  intros Hin. unfold Test._resolve_column, Test.column_mapping.
  destruct (mapping_invariant (columns df) []) as [Hinv Hkeys].
  destruct (dict_get _ _) as [orig|] eqn:Eg.
  - intros [= ->]. apply dict_get_elem in Eg.
    destruct (Hinv _ _ Eg) as [H|[_ H2]]; [inversion H|]. now rewrite <- H2.
  - exfalso. assert (Hs : is_Some (dict_get (Test._normalize target)
        (fold_left (fun d c => dict_set (Test._normalize c) c d) (columns df) []))).
    { apply dict_get_is_Some, Hkeys. now right. }
    rewrite Eg in Hs. now destruct Hs.
Qed.

Lemma resolvers_agree df target h :
  Test2.resolve (Test._normalize target) df = Ok h
  <-> Test._resolve_column df target = Ok h.
Proof.
  unfold Test._resolve_column, Test2.resolve.
  change (Test2._normalize_colnames (columns df))
    with (Test.column_mapping (columns df)).
  change (Test2.partial_match (Test._normalize target))
    with (Test.partial_match (Test._normalize target)).
  destruct (dict_get _ _); [reflexivity|].
  destruct (Test.partial_match _ _); cbn [of_option]; [reflexivity|].
  split; discriminate.
Qed.

(** X10. On any header list, colliding or not, the resolver returns only a
    header of the frame, one whose normalized name contains the normalized
    logical name or is contained in it, so the column it names exists; if
    some header matches exactly, the header returned matches exactly.  It
    raises, with [KeyError] listing the headers, exactly when no header
    matches at all.  The resolvers of [test.py] and [test2.py] return the
    same header. *)
Theorem X10_resolver_returns_a_matching_header (df : dataframe) (target : string) :
  (forall h, Test._resolve_column df target = Ok h ->
     h ∈ columns df
     /\ Shape.names_match (Test._normalize target) (Test._normalize h) = true
     /\ is_Some (dict_get h df)
     /\ (Test._normalize target ∈ map Test._normalize (columns df) ->
         Test._normalize h = Test._normalize target))
  /\ is_ok (Test._resolve_column df target)
     = existsb (fun h => Shape.names_match (Test._normalize target)
                           (Test._normalize h)) (columns df)
  /\ (forall e, Test._resolve_column df target = Raise e ->
        e = KeyError (ColumnMissing target (columns df)))
  /\ (forall h, Test2.resolve (Test._normalize target) df = Ok h
                <-> Test._resolve_column df target = Ok h).
Proof.
  split.
  { intros h H. destruct (resolve_sound _ _ _ H) as [Hin Hm].
    split; [exact Hin|]. split; [exact Hm|].
    split; [now apply dict_get_is_Some|].
    intros Hex. now apply (resolve_exact_first df target). }
  split; [apply resolve_is_ok|].
  split; [|apply resolvers_agree].
  intros e. unfold Test._resolve_column.
  destruct (dict_get _ _); [discriminate|].
  destruct (Test.partial_match _ _); [discriminate|]. now intros [= <-].
Qed.

(** X11. A header that is blank once normalized matches every logical
    name, and a blank logical name matches every header: in either case
    resolution succeeds. *)
Theorem X11_blank_names_always_resolve
    (df : dataframe) (target h : string)
    (Hh : h ∈ columns df)
    (Hblank : Test._normalize h = "" \/ Test._normalize target = "") :
  is_ok (Test._resolve_column df target) = true
  /\ is_ok (Test2.resolve (Test._normalize target) df) = true.
Proof.
  assert (H : is_ok (Test._resolve_column df target) = true).
  { rewrite resolve_is_ok. apply existsb_exists. exists h.
    split; [now apply list_elem_of_In|]. unfold Shape.names_match.
    destruct Hblank as [-> | ->]; rewrite is_substring_empty;
      now rewrite ?orb_true_r. }
  split; [exact H|].
  destruct (Test._resolve_column df target) as [c|] eqn:E; [|discriminate].
  apply resolvers_agree in E. now rewrite E.
Qed.

(** X11 at a frame whose first header is a single space. *)
Lemma X11_witness :
  " " ∈ columns [(" ", [VInt 1]); ("LAC", [VInt 2])]
  /\ Test._normalize " " = ""
  /\ is_ok (Test._resolve_column [(" ", [VInt 1]); ("LAC", [VInt 2])] "GCI") = true
  /\ is_ok (Test2.resolve (Test._normalize "GCI")
              [(" ", [VInt 1]); ("LAC", [VInt 2])]) = true.
Proof.
  assert (Hh : " " ∈ columns [(" ", [VInt 1]); ("LAC", [VInt 2])]) by left.
  split; [exact Hh|]. split; [reflexivity|].
  exact (X11_blank_names_always_resolve
           [(" ", [VInt 1]); ("LAC", [VInt 2])] "GCI" " " Hh (or_introl eq_refl)).
Defined.

End ResolverGeneral.

(** ** Candidates and the report *)

Module Pipeline.

Import PyFacts.

Lemma is_space_upper c : is_space (upper_char c) = is_space c.
Proof. by_cases_on_char c. Qed.

Lemma remove_ws_upper_cons c s :
  remove_ws (upper (String c s))
  = if is_space c then remove_ws (upper s)
    else String (upper_char c) (remove_ws (upper s)).
Proof.
  unfold remove_ws, upper. cbn [str_map str_filter]. rewrite is_space_upper.
  now destruct (is_space c).
Qed.

Lemma remove_ws_upper_lstrip s :
  remove_ws (upper (lstrip_by is_space s)) = remove_ws (upper s).
Proof.
  induction s as [|c s IH]; [reflexivity|]. cbn [lstrip_by].
  destruct (is_space c) eqn:E; [|reflexivity].
  now rewrite IH, remove_ws_upper_cons, E.
Qed.

Lemma remove_ws_upper_rstrip s :
  remove_ws (upper (rstrip_by is_space s)) = remove_ws (upper s).
Proof.
  induction s as [|c s IH]; [reflexivity|]. cbn [rstrip_by].
  rewrite (remove_ws_upper_cons c s), <- IH.
  destruct (rstrip_by is_space s) as [|c' r'].
  - destruct (is_space c) eqn:E; [reflexivity|].
    now rewrite remove_ws_upper_cons, E.
  - now rewrite remove_ws_upper_cons.
Qed.

(** The clean-up of a cell is its upper-cased text without white space. *)
Lemma clean_text t : remove_ws (upper (strip t)) = remove_ws (upper t).
Proof.
  unfold strip, strip_by. now rewrite remove_ws_upper_rstrip, remove_ws_upper_lstrip.
Qed.

Lemma clean_cells_app a b : clean_cells (a ++ b) = clean_cells a ++ clean_cells b.
Proof. unfold clean_cells. now rewrite List.filter_app, map_app. Qed.

(** X12. The candidates read from a column are the cells that are not
    absent, in order, each as its upper-cased text with all white space
    removed: absent cells are dropped, no candidate holds white space or a
    lower-case letter, and two text cells that differ only in case and
    white space give the same candidate. *)
Theorem X12_candidates_are_cleaned_cells (cells : list value) :
  clean_cells cells
  = map (fun v => remove_ws (upper (str v)))
        (List.filter (fun v => negb (isna v)) cells)
  /\ Forall (fun g => Spec.is_clean g = true) (clean_cells cells)
  /\ (length (clean_cells cells) <= length cells)%nat
  /\ (forall more, clean_cells (cells ++ more)
                   = clean_cells cells ++ clean_cells more)
  /\ clean_cells (VNone :: cells) = clean_cells cells
  /\ clean_cells (VFloat FNan :: cells) = clean_cells cells
  /\ (forall t1 t2, remove_ws (upper t1) = remove_ws (upper t2) ->
        clean_cells (VStr t1 :: cells) = clean_cells (VStr t2 :: cells)).
Proof.
  split.
  { unfold clean_cells. apply map_ext. intros v. apply clean_text. }
  split; [apply Builder.clean_cells_clean|].
  split.
  { unfold clean_cells. rewrite length_map. apply List.filter_length_le. }
  split; [intros more; apply clean_cells_app|].
  split; [reflexivity|]. split; [reflexivity|].
  intros t1 t2 H. unfold clean_cells. cbn [List.filter isna negb map str].
  now rewrite !clean_text, H.
Qed.

Lemma not_in_app s (l1 l2 : list string) :
  Test2.not_in s (l1 ++ l2) = Test2.not_in s l1 ++ Test2.not_in s l2.
Proof. unfold Test2.not_in. apply filter_app. Qed.

(** X13. The comparison step distributes over concatenation of candidate
    lists and is idempotent; against an empty table every candidate is
    reported; comparing against the union of two tables is comparing
    against one and then the other; a larger table can only shorten the
    report; and the result depends on the list of table identifiers through
    its members alone, not through their order or repetition. *)
Theorem X13_comparison_step_algebra
    (s1 : gset string) (var more : list string) :
  Test2.not_in s1 (var ++ more) = Test2.not_in s1 var ++ Test2.not_in s1 more
  /\ Test2.not_in s1 (Test2.not_in s1 var) = Test2.not_in s1 var
  /\ Test2.not_in ∅ var = var
  /\ (forall s2, Test2.not_in (s1 ∪ s2) var = Test2.not_in s2 (Test2.not_in s1 var))
  /\ (forall s2, s1 ⊆ s2 -> sublist (Test2.not_in s2 var) (Test2.not_in s1 var))
  /\ (forall ids ids' : list string,
        (forall x, x ∈ ids <-> x ∈ ids') ->
        Test2.not_in (list_to_set ids) var = Test2.not_in (list_to_set ids') var).
Proof.
  split; [apply not_in_app|].
  split.
  { unfold Test2.not_in. induction var as [|g l IH]; [reflexivity|].
    rewrite filter_cons. destruct (decide (g ∉ s1)) as [H|H]; [|exact IH].
    rewrite filter_cons, decide_True by assumption. now rewrite IH. }
  split.
  { unfold Test2.not_in. induction var as [|g l IH]; [reflexivity|].
    rewrite filter_cons, decide_True by set_solver. now rewrite IH. }
  assert (Hunion : forall s2, Test2.not_in (s1 ∪ s2) var
                              = Test2.not_in s2 (Test2.not_in s1 var)).
  { intros s2. unfold Test2.not_in. induction var as [|g l IH]; [reflexivity|].
    rewrite !filter_cons.
    destruct (decide (g ∉ s1)) as [H1|H1].
    - rewrite filter_cons. destruct (decide (g ∉ s2)) as [H2|H2].
      + rewrite decide_True by (rewrite not_elem_of_union; tauto). now rewrite IH.
      + rewrite decide_False by (rewrite not_elem_of_union; tauto). exact IH.
    - rewrite decide_False by (rewrite not_elem_of_union; tauto). exact IH. }
  split; [exact Hunion|].
  split.
  { intros s2 Hsub. replace s2 with (s1 ∪ s2) by (apply subseteq_union_1_L, Hsub).
    rewrite Hunion. unfold Test2.not_in at 1. apply sublist_filter. }
  intros ids ids' H. f_equal. apply set_eq. intros x.
  rewrite !elem_of_list_to_set. apply H.
Qed.

Lemma mapM_raise {A B} (f : A -> result B) l e :
  mapM f l = Raise e -> exists x, x ∈ l /\ f x = Raise e.
Proof.
  induction l as [|a l IH]; cbn [mapM]; [discriminate|].
  destruct (f a) as [y|e'] eqn:Ea; cbn [bind].
  - destruct (mapM f l) as [ys|e'']; cbn [bind]; [discriminate|].
    intros [= <-]. destruct (IH eq_refl) as (x & Hx & Hf).
    exists x. split; [now right|exact Hf].
  - intros [= <-]. exists a. split; [left|exact Ea].
Qed.

Lemma int_of_float_raises f e :
  int_of_float f = Raise e -> e = ValueError \/ e = OverflowError.
Proof. destruct f; cbn; intros [= <-]; auto. Qed.

Lemma _to_hex_raises v w e :
  Test2._to_hex v w = Raise e -> e = ValueError \/ e = OverflowError.
Proof.
  unfold Test2._to_hex. destruct (_ || _); [discriminate|].
  destruct (int v) as [z|e0] eqn:Ei; cbn [try_except bind]; [discriminate|].
  rewrite (Normalizer.int_raises_exception _ _ Ei).
  destruct (float_of_string _) as [f|]; cbn [of_option bind].
  - destruct (int_of_float f) as [z|e1] eqn:E; cbn [bind]; [discriminate|].
    intros [= <-]. eapply int_of_float_raises, E.
  - intros [= <-]. now left.
Qed.

Lemma test2_build_id_raises a b c d mode lw cw e :
  Test2.build_id a b c d mode lw cw = Raise e ->
  e = ValueError \/ e = OverflowError.
Proof.
  unfold Test2.build_id.
  destruct (Test2._to_hex c lw) as [l|e1] eqn:El; cbn [bind].
  - destruct (Test2._to_hex d cw) as [x|e2] eqn:Ec; cbn [bind]; [discriminate|].
    intros [= <-]. eapply _to_hex_raises, Ec.
  - intros [= <-]. eapply _to_hex_raises, El.
Qed.

Lemma search_sheets_ok wc wk wb tried l :
  Test2.search_sheets wc wk wb tried = Ok l ->
  exists cells, l = clean_cells cells.
Proof.
  revert tried. induction wb as [|[name df] wb IH]; intros tried;
    cbn [Test2.search_sheets]; [discriminate|].
  destruct (Test2._extract wk df) as [l'|e] eqn:E.
  - intros [= <-]. unfold Test2._extract in E.
    apply bind_ok in E as (h & _ & [= <-]). eauto.
  - destruct (is_exception e); [apply IH|discriminate].
Qed.

Lemma search_sheets_raises wc wk wb tried e :
  Test2.search_sheets wc wk wb tried = Raise e ->
  exists tried', e = SystemExit (ColumnMissingOnAllSheets wc tried').
Proof.
  revert tried. induction wb as [|[name df] wb IH]; intros tried;
    cbn [Test2.search_sheets].
  - intros [= <-]. eauto.
  - destruct (Test2._extract wk df) as [l'|e'] eqn:E; [discriminate|].
    rewrite (Sheets._extract_raises_KeyError _ _ _ E). cbn [is_exception]. apply IH.
Qed.

Lemma reader_ok wb col l :
  Test2.read_excel_column wb col None = Ok l -> exists cells, l = clean_cells cells.
Proof.
  unfold Test2.read_excel_column.
  destruct (bind _ _) as [l'|e] eqn:E; cbn [try_except].
  - intros [= <-]. apply bind_ok in E as (df & _ & E).
    apply bind_ok in E as (h & _ & [= <-]). eauto.
  - destruct (is_exception e); [apply search_sheets_ok|discriminate].
Qed.

Lemma reader_raises wb col e :
  Test2.read_excel_column wb col None = Raise e ->
  exists tried, e = SystemExit (ColumnMissingOnAllSheets col tried).
Proof.
  unfold Test2.read_excel_column.
  destruct (bind _ _) as [l'|e'] eqn:E; cbn [try_except]; [discriminate|].
  assert (He : is_exception e' = true).
  { destruct (read_sheet wb (SheetIndex 0)) as [df|e0] eqn:Er; cbn [bind] in E.
    - now rewrite (Sheets._extract_raises_KeyError _ _ _ E).
    - injection E as <-. unfold read_sheet in Er.
      destruct (snd <$> nth_error wb 0); cbn in Er; [discriminate|].
      now injection Er as <-. }
  rewrite He. apply search_sheets_raises.
Qed.

Lemma clean_candidates cells : Forall (fun g => Spec.is_clean g = true) (clean_cells cells).
Proof. apply Builder.clean_cells_clean. Qed.

Lemma Forall_not_in (P : string -> Prop) s l :
  Forall P l -> Forall P (Test2.not_in s l).
Proof.
  rewrite !Forall_forall. intros H x Hx. apply H.
  unfold Test2.not_in in Hx. now apply list_elem_of_filter in Hx.
Qed.

(** X14. Whenever [main] of [test2.py] completes, the first count is the
    number of table rows (no row is left out), each of the two last counts
    is the length of the list it is printed for and is at most the number
    of candidates read, every reported entry is upper-case text without
    white space, and no identifier built from a row of the table is
    reported.  A cell of white space only gives the empty candidate, which
    is always reported. *)
Theorem X14_report_of_test2_is_consistent
    (rows : list row) (gci_xlsx sai_xlsx : workbook) (rep : report)
    (Hmain : Test2.main rows gci_xlsx sai_xlsx = Ok rep) :
  n_access rep = length rows
  /\ n_ngci rep = length (NGCI rep)
  /\ n_nsai rep = length (NSAI rep)
  /\ (n_ngci rep <= n_gci rep)%nat
  /\ (n_nsai rep <= n_sai rep)%nat
  /\ Forall (fun g => Spec.is_clean g = true) (NGCI rep ++ NSAI rep)
  /\ (forall r id,
        r ∈ rows ->
        Test2.build_id (mcc r) (mnc r) (lac r) (ci r)
          Test2.MNC_MODE Test2.LAC_HEX_WIDTH Test2.CI_HEX_WIDTH = Ok id ->
        id ∉ NGCI rep ++ NSAI rep)
  /\ (forall var2,
        Test2.read_excel_column gci_xlsx Test2.GCI_COLUMN Test2.GCI_SHEET = Ok var2 ->
        "" ∈ var2 -> "" ∈ NGCI rep).
Proof.
  unfold Test2.main in Hmain.
  apply bind_ok in Hmain as (var1 & H1 & Hmain).
  apply bind_ok in Hmain as (var2 & H2 & Hmain).
  apply bind_ok in Hmain as (var3 & H3 & Hmain).
  injection Hmain as <-. cbn [n_access n_gci n_sai n_ngci n_nsai NGCI NSAI].
  destruct (Builder.fetch_access_ids_all _ _ H1) as [Hall _].
  split; [eapply Sentinel.mapM_length, Hall|].
  split; [reflexivity|]. split; [reflexivity|].
  split; [apply sublist_length, sublist_filter|].
  split; [apply sublist_length, sublist_filter|].
  destruct (reader_ok _ _ _ H2) as [c2 ->].
  destruct (reader_ok _ _ _ H3) as [c3 ->].
  split.
  { apply Forall_app. split; apply Forall_not_in, clean_candidates. }
  split.
  { intros r id Hr Hid.
    destruct (Builder.mapM_ok_elem _ _ _ _ Hall Hr) as (id' & Hid' & Hin).
    rewrite Hid in Hid'. injection Hid' as <-.
    rewrite elem_of_app. unfold Test2.not_in. rewrite !list_elem_of_filter.
    rewrite !elem_of_list_to_set. tauto. }
  intros var2 Hv Hin. rewrite H2 in Hv. injection Hv as <-.
  unfold Test2.not_in. rewrite list_elem_of_filter. split; [|exact Hin].
  rewrite elem_of_list_to_set. intros Hmem.
  destruct (Builder.fetch_access_ids_all _ _ H1) as [_ Hlen].
  rewrite Forall_forall in Hlen. specialize (Hlen _ Hmem). simpl in Hlen. lia.
Qed.

Lemma X14_witness :
  Test2.main [Row (VInt 250) (VInt 1) (VInt 10) (VInt 20)]
    [("Sheet1", [("GCI", [VStr "25001000A0014"; VStr "ABC123"])])]
    [("Sheet1", [("SAI", [])])]
  = Ok (Report ["ABC123"] [] 1 2 0 1 0)
  /\ n_access (Report ["ABC123"] [] 1 2 0 1 0) = 1%nat.
Proof.
  assert (H : Test2.main [Row (VInt 250) (VInt 1) (VInt 10) (VInt 20)]
                [("Sheet1", [("GCI", [VStr "25001000A0014"; VStr "ABC123"])])]
                [("Sheet1", [("SAI", [])])]
              = Ok (Report ["ABC123"] [] 1 2 0 1 0))
    by (vm_compute; reflexivity).
  split; [exact H|].
  exact (proj1 (X14_report_of_test2_is_consistent _ _ _ _ H)).
Defined.

(** X15. [main] of [test2.py] fails in one of three ways only.  Either the
    table stage fails, on a row whose identifier cannot be built, with
    [ValueError] or [OverflowError], whatever the spreadsheets hold; or
    the table stage completes and the script exits with [SystemExit]
    because the GCI column was found on no sheet; or both earlier stages
    complete and it exits with [SystemExit] because the SAI column was
    found on no sheet.  A spreadsheet never makes it fail with an
    exception. *)
Theorem X15_failures_of_test2
    (rows : list row) (gci_xlsx sai_xlsx : workbook) (e : exn)
    (Hmain : Test2.main rows gci_xlsx sai_xlsx = Raise e) :
  (Test2.fetch_access_ids rows = Raise e
   /\ (e = ValueError \/ e = OverflowError)
   /\ (forall gci' sai', Test2.main rows gci' sai' = Raise e)
   /\ exists r, r ∈ rows
        /\ Test2.build_id (mcc r) (mnc r) (lac r) (ci r)
             Test2.MNC_MODE Test2.LAC_HEX_WIDTH Test2.CI_HEX_WIDTH = Raise e)
  \/ (is_ok (Test2.fetch_access_ids rows) = true
      /\ Test2.read_excel_column gci_xlsx Test2.GCI_COLUMN Test2.GCI_SHEET = Raise e
      /\ exists tried, e = SystemExit (ColumnMissingOnAllSheets "GCI" tried))
  \/ (is_ok (Test2.fetch_access_ids rows) = true
      /\ is_ok (Test2.read_excel_column gci_xlsx Test2.GCI_COLUMN Test2.GCI_SHEET) = true
      /\ Test2.read_excel_column sai_xlsx Test2.SAI_COLUMN Test2.SAI_SHEET = Raise e
      /\ exists tried, e = SystemExit (ColumnMissingOnAllSheets "SAI" tried)).
Proof.
  unfold Test2.main in Hmain.
  destruct (Test2.fetch_access_ids rows) as [var1|e1] eqn:E1; cbn [bind] in Hmain.
  - right.
    destruct (Test2.read_excel_column gci_xlsx _ _) as [var2|e2] eqn:E2;
      cbn [bind] in Hmain.
    + right.
      destruct (Test2.read_excel_column sai_xlsx _ _) as [var3|e3] eqn:E3;
        cbn [bind] in Hmain; [discriminate|].
      injection Hmain as <-. repeat split; try reflexivity.
      apply (reader_raises _ _ _ E3).
    + left. injection Hmain as <-. repeat split; try reflexivity.
      apply (reader_raises _ _ _ E2).
  - left. injection Hmain as <-. split; [reflexivity|].
    unfold Test2.fetch_access_ids in E1.
    destruct (mapM _ rows) as [ids|e'] eqn:Em; cbn [bind] in E1; [discriminate|].
    injection E1 as <-.
    destruct (mapM_raise _ _ _ Em) as (r & Hr & Hb).
    split; [eapply test2_build_id_raises, Hb|].
    split.
    { intros gci' sai'. unfold Test2.main, Test2.fetch_access_ids.
      now rewrite Em. }
    exists r. split; assumption.
Qed.

Lemma X15_witness :
  Test2.main [Row (VInt 250) (VInt 1) (VStr "x") (VInt 20)] [] [] = Raise ValueError
  /\ Test2.fetch_access_ids [Row (VInt 250) (VInt 1) (VStr "x") (VInt 20)]
     = Raise ValueError.
Proof.
  assert (H : Test2.main [Row (VInt 250) (VInt 1) (VStr "x") (VInt 20)] [] []
              = Raise ValueError) by (vm_compute; reflexivity).
  split; [exact H|].
  destruct (X15_failures_of_test2 _ _ _ _ H) as [[Hf _]|[[Hf _]|[Hf _]]].
  - exact Hf.
  - vm_compute in Hf. discriminate Hf.
  - vm_compute in Hf. discriminate Hf.
Defined.

Lemma upper_idem s : upper (upper s) = upper s.
Proof.
  unfold upper. induction s as [|c s IH]; [reflexivity|].
  cbn [str_map]. now rewrite upper_char_idem, IH.
Qed.

Lemma to_hex_raises v w e :
  Test.to_hex v w = Raise e -> e = ValueError \/ e = OverflowError.
Proof.
  unfold Test.to_hex. destruct (isna v) eqn:Ena; [discriminate|].
  destruct (int v) as [z|e0] eqn:Ei; cbn [try_except bind]; [discriminate|].
  rewrite (Normalizer.int_raises_exception _ _ Ei).
  destruct (float v) as [f|e1] eqn:Ef; cbn [bind].
  - destruct (int_of_float f) as [z|e2] eqn:E; cbn [bind]; [discriminate|].
    intros [= <-]. eapply int_of_float_raises, E.
  - intros [= <-]. destruct v as [|z|f|t]; cbn in Ef, Ei, Ena.
    + discriminate.
    + discriminate.
    + discriminate.
    + destruct (float_of_string t); cbn in Ef; [discriminate|].
      injection Ef as <-. now left.
Qed.

Lemma norm_digits_raises v w mw e :
  Test.norm_digits v w mw = Raise e -> e = ValueError \/ e = OverflowError.
Proof.
  unfold Test.norm_digits. destruct (isna v); [discriminate|].
  destruct v as [|z|f|t]; cbn [int bind]; try discriminate.
  destruct (int_of_float f) as [z|e'] eqn:E; cbn [bind]; [discriminate|].
  intros [= <-]. eapply int_of_float_raises, E.
Qed.

Lemma test_build_id_raises a b c d mw mode lw cw e :
  Test.build_id a b c d mw mode lw cw = Raise e ->
  e = ValueError \/ e = OverflowError.
Proof.
  unfold Test.build_id.
  match goal with |- bind ?m _ = _ -> _ => destruct m as [x1|e1] eqn:E1 end;
    cbn [bind].
  2:{ intros [= <-]. destruct mw; eapply norm_digits_raises, E1. }
  destruct (Test.norm_digits b None None) as [x2|e2] eqn:E2; cbn [bind].
  2:{ intros [= <-]. eapply norm_digits_raises, E2. }
  destruct (Test.to_hex c lw) as [x3|e3] eqn:E3; cbn [bind].
  2:{ intros [= <-]. eapply to_hex_raises, E3. }
  destruct (Test.to_hex d cw) as [x4|e4] eqn:E4; cbn [bind]; [discriminate|].
  intros [= <-]. eapply to_hex_raises, E4.
Qed.

Lemma test_build_id_upper a b c d mw mode lw cw id :
  Test.build_id a b c d mw mode lw cw = Ok id -> upper id = id.
Proof.
  unfold Test.build_id.
  intros (x1 & _ & (x2 & _ & (x3 & _ & (x4 & _ & H)%bind_ok)%bind_ok)%bind_ok)%bind_ok.
  injection H as <-. apply upper_idem.
Qed.

Lemma load_ids_spec rows mode lw cw ids :
  Test.load_access_compound_ids rows mode lw cw = Ok ids ->
  exists built,
    mapM (fun r => Test.build_id (mcc r) (mnc r) (lac r) (ci r) 3 mode lw cw) rows
    = Ok built
    /\ ids = List.filter (fun s => negb (is_empty s)) built.
Proof.
  rewrite Variants.load_ids_as_mapM. intros (built & Hb & [= <-])%bind_ok. eauto.
Qed.

Lemma first_sheet_ok col wb tried l :
  Test.first_sheet col wb tried = Ok l -> exists cells, l = clean_cells cells.
Proof.
  revert tried. induction wb as [|[name df] wb IH]; intros tried;
    cbn [Test.first_sheet]; [discriminate|].
  destruct (Test._extract_from_df col df) as [l'|e] eqn:E.
  - intros [= <-]. unfold Test._extract_from_df in E.
    apply bind_ok in E as (h & _ & [= <-]). eauto.
  - destruct (Sheets.extract_raises_KeyError _ _ _ E) as [m ->]. apply IH.
Qed.

Lemma first_sheet_raises col wb tried e :
  Test.first_sheet col wb tried = Raise e ->
  exists tried', e = KeyError (ColumnMissingOnAllSheets col tried').
Proof.
  revert tried. induction wb as [|[name df] wb IH]; intros tried;
    cbn [Test.first_sheet].
  - intros [= <-]. eauto.
  - destruct (Test._extract_from_df col df) as [l'|e'] eqn:E; [discriminate|].
    destruct (Sheets.extract_raises_KeyError _ _ _ E) as [m ->]. apply IH.
Qed.

Lemma loader_ok wb col sheet l :
  Test.load_excel_column wb col sheet = Ok l -> exists cells, l = clean_cells cells.
Proof.
  unfold Test.load_excel_column. destruct sheet as [ref|].
  - intros (df & _ & (h & _ & [= <-])%bind_ok)%bind_ok. eauto.
  - apply first_sheet_ok.
Qed.

Lemma loader_raises wb col sheet e :
  Test.load_excel_column wb col sheet = Raise e ->
  match sheet with
  | None => exists tried, e = KeyError (ColumnMissingOnAllSheets col tried)
  | Some ref =>
      (e = ValueError /\ read_sheet wb ref = Raise ValueError)
      \/ exists df, read_sheet wb ref = Ok df
                    /\ e = KeyError (ColumnMissing col (columns df))
  end.
Proof.
  unfold Test.load_excel_column. destruct sheet as [ref|];
    [|apply first_sheet_raises].
  destruct (read_sheet wb ref) as [df|e0] eqn:Er; cbn [bind].
  - intros H. right. exists df. split; [reflexivity|].
    unfold Test._extract_from_df, Test._resolve_column in H.
    destruct (dict_get _ _); [discriminate|].
    destruct (Test.partial_match _ _); [discriminate|].
    now injection H as <-.
  - intros [= <-]. left.
    assert (e0 = ValueError) as ->; [|now split].
    destruct ref as [n|i]; cbn in Er.
    + destruct (dict_get n wb); cbn in Er; [discriminate|]. now injection Er.
    + destruct (snd <$> nth_error wb i); cbn in Er; [discriminate|].
      now injection Er.
Qed.

Lemma length_filter_le {A} (f : A -> bool) l :
  (length (List.filter f l) <= length l)%nat.
Proof. apply List.filter_length_le. Qed.

(** X16. Whenever [main] of [test.py] completes: the upper-casing of the
    table identifiers in [main] changes none of them; the first count is
    the number of rows whose identifier is not empty, so at most the number
    of rows; the two last counts are the lengths of the reported lists and
    at most the numbers of candidates; every reported entry is upper-case
    text without white space; and no non-empty identifier built from a row
    is reported. *)
Theorem X16_report_of_test_py_is_consistent
    (args : Test.config) (rows : list row) (gci_xlsx sai_xlsx : workbook)
    (rep : report)
    (Hmain : Test.main args rows gci_xlsx sai_xlsx = Ok rep) :
  (exists built,
      mapM (fun r => Test.build_id (mcc r) (mnc r) (lac r) (ci r) 3
                       (Test.mnc_mode args) (Test.lac_width args) (Test.ci_width args))
           rows = Ok built
      /\ map upper built = built
      /\ n_access rep = length (List.filter (fun s => negb (is_empty s)) built))
  /\ (n_access rep <= length rows)%nat
  /\ n_ngci rep = length (NGCI rep)
  /\ n_nsai rep = length (NSAI rep)
  /\ (n_ngci rep <= n_gci rep)%nat
  /\ (n_nsai rep <= n_sai rep)%nat
  /\ Forall (fun g => Spec.is_clean g = true) (NGCI rep ++ NSAI rep)
  /\ (forall r id,
        r ∈ rows ->
        Test.build_id (mcc r) (mnc r) (lac r) (ci r) 3
          (Test.mnc_mode args) (Test.lac_width args) (Test.ci_width args) = Ok id ->
        id <> "" -> id ∉ NGCI rep ++ NSAI rep).
Proof.
  unfold Test.main in Hmain.
  apply bind_ok in Hmain as (ids & H1 & Hmain).
  apply bind_ok in Hmain as (var2 & H2 & Hmain).
  apply bind_ok in Hmain as (var3 & H3 & Hmain).
  injection Hmain as <-. cbn [n_access n_gci n_sai n_ngci n_nsai NGCI NSAI].
  destruct (load_ids_spec _ _ _ _ _ H1) as (built & Hb & ->).
  assert (Hup : map upper built = built).
  { pose proof (Builder.mapM_ok_Forall _ (fun id => upper id = id) _ _
                  (fun r id => test_build_id_upper _ _ _ _ _ _ _ _ id) Hb) as HF.
    clear -HF. induction HF as [|id l Hid _ IH]; [reflexivity|].
    cbn [map]. now rewrite Hid, IH. }
  assert (Hfix : map upper (List.filter (fun s => negb (is_empty s)) built)
                 = List.filter (fun s => negb (is_empty s)) built).
  { rewrite <- Hup at 2. clear. induction built as [|id l IH]; [reflexivity|].
    cbn [map List.filter].
    assert (E : is_empty (upper id) = is_empty id) by now destruct id.
    rewrite E. destruct (negb (is_empty id)); cbn [map]; now rewrite IH. }
  rewrite Hfix.
  split.
  { exists built. auto. }
  split.
  { rewrite <- (Sentinel.mapM_length _ _ _ Hb). apply length_filter_le. }
  split; [reflexivity|]. split; [reflexivity|].
  split; [apply sublist_length, sublist_filter|].
  split; [apply sublist_length, sublist_filter|].
  destruct (loader_ok _ _ _ _ H2) as [c2 ->].
  destruct (loader_ok _ _ _ _ H3) as [c3 ->].
  split.
  { apply Forall_app. split; apply Forall_not_in, clean_candidates. }
  intros r id Hr Hid Hne.
  destruct (Builder.mapM_ok_elem _ _ _ _ Hb Hr) as (id' & Hid' & Hin).
  rewrite Hid in Hid'. injection Hid' as <-.
  assert (Hmem : id ∈ List.filter (fun s => negb (is_empty s)) built).
  { apply list_elem_of_In, filter_In. split; [now apply list_elem_of_In|].
    destruct id; [contradiction|reflexivity]. }
  rewrite elem_of_app. unfold Test.not_in. rewrite !list_elem_of_filter.
  rewrite !elem_of_list_to_set. tauto.
Qed.

Lemma X16_witness :
  Test.main Spec.test2_settings [Row (VInt 250) VNone VNone VNone; Row VNone VNone VNone VNone]
    [("Sheet1", [("GCI", [VStr "25001000A0014"; VStr " "])])]
    [("Sheet1", [("SAI", [])])]
  = Ok (Report ["25001000A0014"; ""] [] 1 2 0 2 0)
  /\ (n_access (Report ["25001000A0014"; ""] [] 1 2 0 2 0) <= 2)%nat.
Proof.
  assert (H : Test.main Spec.test2_settings
                [Row (VInt 250) VNone VNone VNone; Row VNone VNone VNone VNone]
                [("Sheet1", [("GCI", [VStr "25001000A0014"; VStr " "])])]
                [("Sheet1", [("SAI", [])])]
              = Ok (Report ["25001000A0014"; ""] [] 1 2 0 2 0))
    by (vm_compute; reflexivity).
  split; [exact H|].
  exact (proj1 (proj2 (X16_report_of_test_py_is_consistent _ _ _ _ _ H))).
Defined.

(** X17. [main] of [test.py] never ends in [SystemExit].  A failure of the
    table stage is a [ValueError] or an [OverflowError] and does not depend
    on the spreadsheets.  A failure of a spreadsheet stage is, when no
    sheet is named, the [KeyError] that reports the column as missing on
    all sheets, and when a sheet is named, either the [ValueError] of
    reading a sheet that the workbook does not have or the [KeyError] that
    reports the column as missing with the headers of that sheet. *)
Theorem X17_failures_of_test_py
    (args : Test.config) (rows : list row) (gci_xlsx sai_xlsx : workbook) (e : exn)
    (Hmain : Test.main args rows gci_xlsx sai_xlsx = Raise e) :
  is_exception e = true
  /\ ((Test.load_access_compound_ids rows (Test.mnc_mode args)
         (Test.lac_width args) (Test.ci_width args) = Raise e
       /\ (e = ValueError \/ e = OverflowError)
       /\ forall gci' sai', Test.main args rows gci' sai' = Raise e)
      \/ (Test.load_excel_column gci_xlsx (Test.gci_column args) (Test.gci_sheet args)
          = Raise e
          /\ (e = ValueError /\ Test.gci_sheet args <> None
              \/ exists m, e = KeyError m))
      \/ (Test.load_excel_column sai_xlsx (Test.sai_column args) (Test.sai_sheet args)
          = Raise e
          /\ (e = ValueError /\ Test.sai_sheet args <> None
              \/ exists m, e = KeyError m))).
Proof.
  assert (Hloader : forall wb col sheet,
             Test.load_excel_column wb col sheet = Raise e ->
             e = ValueError /\ sheet <> None \/ exists m, e = KeyError m).
  { intros wb col sheet H. apply loader_raises in H. destruct sheet as [ref|].
    - destruct H as [[-> _]|(df & _ & ->)]; [left; split; [reflexivity|discriminate]|].
      right. eauto.
    - destruct H as [tried ->]. right. eauto. }
  assert (Hexc : forall wb col sheet,
             Test.load_excel_column wb col sheet = Raise e -> is_exception e = true).
  { intros wb col sheet H. destruct (Hloader _ _ _ H) as [[-> _]|[m ->]]; reflexivity. }
  unfold Test.main in Hmain.
  destruct (Test.load_access_compound_ids rows _ _ _) as [ids|e1] eqn:E1;
    cbn [bind] in Hmain.
  - destruct (Test.load_excel_column gci_xlsx _ _) as [var2|e2] eqn:E2;
      cbn [bind] in Hmain.
    + destruct (Test.load_excel_column sai_xlsx _ _) as [var3|e3] eqn:E3;
        cbn [bind] in Hmain; [discriminate|].
      injection Hmain as <-. split; [eapply Hexc, E3|].
      right. right. split; [reflexivity|eapply Hloader, E3].
    + injection Hmain as <-. split; [eapply Hexc, E2|].
      right. left. split; [reflexivity|eapply Hloader, E2].
  - injection Hmain as <-.
    assert (He : e1 = ValueError \/ e1 = OverflowError).
    { rewrite Variants.load_ids_as_mapM in E1.
      destruct (mapM _ rows) as [built|e'] eqn:Em; cbn [bind] in E1; [discriminate|].
      injection E1 as <-. destruct (mapM_raise _ _ _ Em) as (r & _ & Hb).
      eapply test_build_id_raises, Hb. }
    split; [destruct He as [->| ->]; reflexivity|].
    left. split; [reflexivity|]. split; [exact He|].
    intros gci' sai'. unfold Test.main. now rewrite E1.
Qed.

Lemma X17_witness :
  Test.main Spec.test2_settings [] [("Sheet1", [("LAC", [])])] []
  = Raise (KeyError (ColumnMissingOnAllSheets "GCI" [("Sheet1", ["LAC"])]))
  /\ is_exception (KeyError (ColumnMissingOnAllSheets "GCI" [("Sheet1", ["LAC"])]))
     = true.
Proof.
  assert (H : Test.main Spec.test2_settings [] [("Sheet1", [("LAC", [])])] []
              = Raise (KeyError (ColumnMissingOnAllSheets "GCI" [("Sheet1", ["LAC"])])))
    by (vm_compute; reflexivity).
  split; [exact H|].
  exact (proj1 (X17_failures_of_test_py _ _ _ _ _ H)).
Defined.

End Pipeline.

(** ** The combiner of [parse_excel_access.py] and the saved frames *)

Module Combiner.

Import PyFacts.

Lemma dict_get_columns_lower k cols acc :
  dict_get k (fold_left (fun d c => dict_set (lower c) c d) cols acc)
  = match List.find (fun h => String.eqb (lower h) k) (rev cols) with
    | Some h => Some h
    | None => dict_get k acc
    end.
Proof.
  revert acc. induction cols as [|c cols IH]; intros acc; [reflexivity|].
  cbn [fold_left rev]. rewrite IH, Resolver.find_app, Resolver.dict_get_set.
  destruct (List.find _ (rev cols)); [reflexivity|]. cbn [List.find].
  rewrite (String.eqb_sym k). now destruct (String.eqb _ k).
Qed.

Lemma last_header_spec key df h :
  Shape.last_header key df = Some h -> h ∈ columns df /\ lower h = key.
Proof.
  unfold Shape.last_header. intros [Hin He]%find_some.
  apply in_rev, list_elem_of_In in Hin. now apply String.eqb_eq in He.
Qed.

Lemma last_header_None key df :
  Shape.last_header key df = None <-> forall h, h ∈ columns df -> lower h <> key.
Proof.
  unfold Shape.last_header. split.
  - intros H h Hin E. apply list_elem_of_In, in_rev in Hin.
    pose proof (find_none _ _ H _ Hin) as Hf. cbn in Hf.
    apply String.eqb_neq in Hf. contradiction.
  - intros H. destruct (List.find _ _) as [h|] eqn:E; [|reflexivity].
    apply find_some in E as [Hin He]. apply in_rev, list_elem_of_In in Hin.
    apply String.eqb_eq in He. now destruct (H h Hin).
Qed.

(** X18. [read_excel_column] of [parse_excel_access.py] reads the first
    sheet only.  It returns the column under the last header that is "gsi"
    when put in lower case; failing that, the column under the last header
    that is "sai" in lower case; and it raises [ValueError] when no header
    is either, or when the workbook has no sheet.  A "gsi" header wins over
    a "sai" header wherever the two stand, and, unlike the resolvers of the
    other two scripts, a header is not trimmed and no partial match is
    tried: a returned column always stands under a header whose lower-case
    form is exactly "gsi" or "sai". *)
Theorem X18_parse_excel_reader_takes_gsi_then_sai
    (name : string) (df : dataframe) (rest : workbook) :
  ParseExcelAccess.read_excel_column ((name, df) :: rest)
  = match Shape.last_header "gsi" df, Shape.last_header "sai" df with
    | Some h, _ => Ok (column df h)
    | None, Some h => Ok (column df h)
    | None, None => Raise ValueError
    end
  /\ ParseExcelAccess.read_excel_column [] = Raise ValueError
  /\ (forall cells,
        ParseExcelAccess.read_excel_column ((name, df) :: rest) = Ok cells ->
        exists h, h ∈ columns df /\ (lower h = "gsi" \/ lower h = "sai")
                  /\ cells = column df h)
  /\ ((forall h, h ∈ columns df -> lower h <> "gsi" /\ lower h <> "sai") ->
      ParseExcelAccess.read_excel_column ((name, df) :: rest) = Raise ValueError)
  /\ (forall h, h ∈ columns df -> lower h = "gsi" ->
      exists h', h' ∈ columns df /\ lower h' = "gsi"
        /\ ParseExcelAccess.read_excel_column ((name, df) :: rest)
           = Ok (column df h')).
Proof.
  assert (Heq : ParseExcelAccess.read_excel_column ((name, df) :: rest)
                = match Shape.last_header "gsi" df, Shape.last_header "sai" df with
                  | Some h, _ => Ok (column df h)
                  | None, Some h => Ok (column df h)
                  | None, None => Raise ValueError
                  end).
  { unfold ParseExcelAccess.read_excel_column, ParseExcelAccess.df_columns_lower.
    cbn [read_sheet nth_error fmap option_fmap option_map snd of_option bind].
    rewrite !dict_get_columns_lower. cbn [dict_get]. unfold Shape.last_header.
    destruct (List.find _ _); [reflexivity|]. now destruct (List.find _ _). }
  split; [exact Heq|]. split; [reflexivity|].
  rewrite Heq. split; [|split].
  - intros cells.
    destruct (Shape.last_header "gsi" df) as [h|] eqn:Eg.
    + intros [= <-]. destruct (last_header_spec _ _ _ Eg). exists h. auto.
    + destruct (Shape.last_header "sai" df) as [h|] eqn:Es; [|discriminate].
      intros [= <-]. destruct (last_header_spec _ _ _ Es). exists h. auto.
  - intros H.
    assert (Hg : Shape.last_header "gsi" df = None).
    { apply last_header_None. intros h Hh. apply (H h Hh). }
    assert (Hs : Shape.last_header "sai" df = None).
    { apply last_header_None. intros h Hh. apply (H h Hh). }
    now rewrite Hg, Hs.
  - intros h Hh Hl.
    destruct (Shape.last_header "gsi" df) as [h'|] eqn:Eg.
    + destruct (last_header_spec _ _ _ Eg). exists h'. auto.
    + destruct (proj1 (last_header_None _ _) Eg h Hh Hl).
Qed.

Lemma mapM_is_ok {A B} (f : A -> result B) l :
  is_ok (mapM f l) = forallb (fun x => is_ok (f x)) l.
Proof.
  induction l as [|x l IH]; [reflexivity|]. cbn [mapM forallb].
  destruct (f x); cbn [bind is_ok andb]; [|reflexivity].
  rewrite <- IH. now destruct (mapM f l).
Qed.

Lemma mapM_ok_map {A B} (f : A -> result B) (d : B) l ys :
  mapM f l = Ok ys ->
  ys = map (fun x => match f x with Ok y => y | Raise _ => d end) l.
Proof.
  revert ys. induction l as [|x l IH]; intros ys; cbn [mapM map].
  - now intros [= <-].
  - intros (y & Hy & (ys' & Hys & H)%bind_ok)%bind_ok. injection H as <-.
    rewrite Hy. f_equal. now apply IH.
Qed.

Lemma zip_with_take_min {A B C} (F : A -> B -> C) xs ys :
  zip_with F (take (Nat.min (length xs) (length ys)) xs)
             (take (Nat.min (length xs) (length ys)) ys)
  = zip_with F xs ys.
Proof.
  revert ys. induction xs as [|x xs IH]; intros ys; [reflexivity|].
  destruct ys as [|y ys]; [reflexivity|].
  cbn [length Nat.min take zip_with]. now rewrite IH.
Qed.

Lemma length_zip_with_min {A B C} (F : A -> B -> C) xs ys :
  length (zip_with F xs ys) = Nat.min (length xs) (length ys).
Proof.
  revert ys. induction xs as [|x xs IH]; intros [|y ys]; try reflexivity.
  cbn [zip_with length Nat.min]. now rewrite IH.
Qed.

Lemma dec_to_hex_str_is_ok v w :
  is_ok (ParseExcelAccess.dec_to_hex_str v w) = is_ok (int v).
Proof.
  unfold ParseExcelAccess.dec_to_hex_str.
  destruct (int v); cbn [bind is_ok]; [now destruct w|reflexivity].
Qed.

Lemma forallb_andb {A} (p q : A -> bool) l :
  forallb p l && forallb q l = forallb (fun x => p x && q x) l.
Proof.
  induction l as [|x l IH]; [reflexivity|]. cbn [forallb]. rewrite <- IH.
  destruct (p x), (q x), (forallb p l), (forallb q l); reflexivity.
Qed.

Lemma forallb_eq {A} (p q : A -> bool) l :
  (forall x, p x = q x) -> forallb p l = forallb q l.
Proof. intros H. induction l as [|x l IH]; [reflexivity|]. cbn. now rewrite H, IH. Qed.

Lemma combined_column_is_ok sz access lw cw mw nw :
  is_ok (ParseExcelAccess.combined_column sz access lw cw mw nw)
  = forallb (fun r => is_ok (int (lac r)) && is_ok (int (ci r))) access.
Proof.
  unfold ParseExcelAccess.combined_column.
  rewrite <- forallb_andb.
  rewrite <- (forallb_eq (fun r => is_ok (ParseExcelAccess.dec_to_hex_str (lac r) lw))
                (fun r => is_ok (int (lac r))))
    by (intros r; apply dec_to_hex_str_is_ok).
  rewrite <- (forallb_eq (fun r => is_ok (ParseExcelAccess.dec_to_hex_str (ci r) cw))
                (fun r => is_ok (int (ci r))))
    by (intros r; apply dec_to_hex_str_is_ok).
  rewrite <- !mapM_is_ok.
  destruct (mapM _ access); cbn [bind is_ok andb]; [|reflexivity].
  now destruct (mapM _ access).
Qed.

Lemma combined_column_ok sz access lw cw mw nw cols :
  ParseExcelAccess.combined_column sz access lw cw mw nw = Ok cols ->
  zip access cols
  = map (fun r => (r, (Shape.the_hex (lac r) lw, Shape.the_hex (ci r) cw,
                       sz (str (mcc r)) mw, sz (str (mnc r)) nw,
                       sz (str (mcc r)) mw +:+ sz (str (mnc r)) nw
                       +:+ Shape.the_hex (lac r) lw +:+ Shape.the_hex (ci r) cw)))
        access.
Proof.
  unfold ParseExcelAccess.combined_column.
  intros (ls & Hl & (cs & Hc & H)%bind_ok)%bind_ok. injection H as <-.
  rewrite (mapM_ok_map _ "" _ _ Hl), (mapM_ok_map _ "" _ _ Hc).
  clear. induction access as [|r l IH]; [reflexivity|].
  cbn [map zip zip_with]. f_equal. exact IH.
Qed.

Lemma combine_dataframes_ok sz excel access lw cw mw nw out :
  ParseExcelAccess.combine_dataframes sz excel access lw cw mw nw = Ok out ->
  out = zip_with (Shape.combined_line sz lw cw mw nw) excel access.
Proof.
  unfold ParseExcelAccess.combine_dataframes.
  intros (cols & Hc & H)%bind_ok. injection H as <-.
  assert (E : forall xs : list value,
             zip_with (fun g '(r, (l, c, a, b, id)) =>
                         ParseExcelAccess.CombinedRow g r l c a b id) xs
               (zip access cols)
             = zip_with (Shape.combined_line sz lw cw mw nw) xs access).
  { rewrite (combined_column_ok _ _ _ _ _ _ _ Hc). clear.
    induction access as [|r l IH]; intros [|x xs]; try reflexivity.
    cbn [map zip_with]. now rewrite IH. }
  assert (Hlen : length (zip access cols) = length access).
  { rewrite (combined_column_ok _ _ _ _ _ _ _ Hc). apply length_map. }
  now rewrite <- Hlen, zip_with_take_min, E.
Qed.

Lemma combine_dataframes_is_ok sz excel access lw cw mw nw :
  is_ok (ParseExcelAccess.combine_dataframes sz excel access lw cw mw nw)
  = forallb (fun r => is_ok (int (lac r)) && is_ok (int (ci r))) access.
Proof.
  rewrite <- combined_column_is_ok with (sz := sz) (lw := lw) (cw := cw)
    (mw := mw) (nw := nw).
  unfold ParseExcelAccess.combine_dataframes.
  now destruct (ParseExcelAccess.combined_column _ _ _ _ _ _).
Qed.

Lemma the_hex_ok v w :
  is_ok (int v) = true ->
  ParseExcelAccess.dec_to_hex_str v w = Ok (Shape.the_hex v w).
Proof.
  rewrite <- (dec_to_hex_str_is_ok v w). unfold Shape.the_hex.
  now destruct (ParseExcelAccess.dec_to_hex_str v w).
Qed.

(** X19. [combine_dataframes] completes exactly when the [lac] and the [ci]
    of every row of the table convert to an int, the rows beyond the
    length of the spreadsheet column included; the spreadsheet column and
    the widths play no part in that.  When it completes, the frame has as
    many lines as the shorter of the two inputs, and line [i] holds the
    [i]-th cell beside the [i]-th row with its two hex fields; where the
    MCC, respectively the MNC, of the row is present the line holds its
    padded text, and where both are present the combined identifier is
    the concatenation in the order MCC, MNC, LAC, CI. *)
Theorem X19_combined_frame
    (series_zfill : string -> nat -> string)
    (excel_df : list value) (access_df : list row)
    (lac_width ci_width : option nat) (mcc_width mnc_width : nat) :
  is_ok (ParseExcelAccess.combine_dataframes series_zfill excel_df access_df
           lac_width ci_width mcc_width mnc_width)
  = forallb (fun r => is_ok (int (lac r)) && is_ok (int (ci r))) access_df
  /\ (forall out,
        ParseExcelAccess.combine_dataframes series_zfill excel_df access_df
          lac_width ci_width mcc_width mnc_width = Ok out ->
        length out = Nat.min (length excel_df) (length access_df)
        /\ (forall i g r,
              excel_df !! i = Some g -> access_df !! i = Some r ->
              exists line,
                out !! i = Some line
                /\ ParseExcelAccess.gsi line = g
                /\ ParseExcelAccess.source line = r
                /\ ParseExcelAccess.dec_to_hex_str (lac r) lac_width
                   = Ok (ParseExcelAccess.lac_hex line)
                /\ ParseExcelAccess.dec_to_hex_str (ci r) ci_width
                   = Ok (ParseExcelAccess.ci_hex line)
                /\ (isna (mcc r) = false ->
                    ParseExcelAccess.mcc_str line
                    = series_zfill (str (mcc r)) mcc_width)
                /\ (isna (mnc r) = false ->
                    ParseExcelAccess.mnc_str line
                    = series_zfill (str (mnc r)) mnc_width)
                /\ (isna (mcc r) = false -> isna (mnc r) = false ->
                    ParseExcelAccess.combined line
                    = ParseExcelAccess.mcc_str line
                      +:+ ParseExcelAccess.mnc_str line
                      +:+ ParseExcelAccess.lac_hex line
                      +:+ ParseExcelAccess.ci_hex line))).
Proof.
  split; [apply combine_dataframes_is_ok|].
  intros out H.
  pose proof (combine_dataframes_is_ok series_zfill excel_df access_df
                lac_width ci_width mcc_width mnc_width) as Hok.
  rewrite H in Hok. cbn [is_ok] in Hok. symmetry in Hok.
  rewrite forallb_forall in Hok.
  apply combine_dataframes_ok in H. subst out.
  split; [apply length_zip_with_min|].
  intros i g r Hg Hr.
  assert (Hin : In r access_df).
  { apply list_elem_of_In. eapply list_elem_of_lookup_2, Hr. }
  apply Hok in Hin. apply andb_true_iff in Hin as [Hl Hc].
  exists (Shape.combined_line series_zfill lac_width ci_width mcc_width mnc_width g r).
  split.
  { rewrite lookup_zip_with, Hg, Hr. reflexivity. }
  unfold Shape.combined_line.
  cbn [ParseExcelAccess.gsi ParseExcelAccess.source ParseExcelAccess.lac_hex
       ParseExcelAccess.ci_hex ParseExcelAccess.mcc_str ParseExcelAccess.mnc_str
       ParseExcelAccess.combined].
  split; [reflexivity|]. split; [reflexivity|].
  split; [now apply the_hex_ok|]. split; [now apply the_hex_ok|].
  split; [reflexivity|]. split; reflexivity.
Qed.

(** X19 at a column of two cells and a table of one row. *)
Lemma X19_witness :
  ParseExcelAccess.combine_dataframes zfill [VStr "A"; VStr "B"]
    [Row (VInt 250) (VInt 1) (VInt 10) (VInt 20)] (Some 4%nat) None 3 3
  = Ok [ParseExcelAccess.CombinedRow (VStr "A")
          (Row (VInt 250) (VInt 1) (VInt 10) (VInt 20))
          "000A" "14" "250" "001" "250001000A14"]
  /\ length [ParseExcelAccess.CombinedRow (VStr "A")
               (Row (VInt 250) (VInt 1) (VInt 10) (VInt 20))
               "000A" "14" "250" "001" "250001000A14"]
     = Nat.min 2 1.
Proof.
  assert (H : ParseExcelAccess.combine_dataframes zfill [VStr "A"; VStr "B"]
                [Row (VInt 250) (VInt 1) (VInt 10) (VInt 20)] (Some 4%nat) None 3 3
              = Ok [ParseExcelAccess.CombinedRow (VStr "A")
                      (Row (VInt 250) (VInt 1) (VInt 10) (VInt 20))
                      "000A" "14" "250" "001" "250001000A14"])
    by (vm_compute; reflexivity).
  split; [exact H|].
  exact (proj1 (proj2 (X19_combined_frame zfill _ _ _ _ _ _) _ H)).
Defined.

Lemma int_ok_not_na v z : int v = Ok z -> isna v = false.
Proof. destruct v as [|?|[]|?]; cbn; try discriminate; reflexivity. Qed.

Lemma int_ok_not_blank v z : int v = Ok z -> is_empty (strip (str v)) = false.
Proof.
  destruct v as [|x|f|t]; cbn [int str]; try discriminate; intros H.
  - apply Normalizer.str_of_int_not_blank.
  - apply HexRefinement.str_of_float_not_blank.
  - destruct (is_empty (strip t)) eqn:E; [|reflexivity].
    destruct (HexRefinement.blank_parses_nowhere t E) as [Hi _].
    rewrite Hi in H. discriminate.
Qed.

(** X20. The hex helper of [parse_excel_access.py] completes exactly when
    the value converts to an int directly (so not on absent values, and
    not on decimal text, which the other two scripts accept).  With a
    width its result is the one of [to_hex] in [test.py] and of [_to_hex]
    in [test2.py]: at least [width] long, never cut, and denoting the
    value.  Without a width it is the shortest hexadecimal text of the
    value, and the result with a width is that text padded. *)
Theorem X20_dec_to_hex_str_agrees_with_the_normalizers
    (v : value) (width : nat) (s : string)
    (Hs : ParseExcelAccess.dec_to_hex_str v (Some width) = Ok s) :
  Test.to_hex v width = Ok s
  /\ Test2._to_hex v width = Ok s
  /\ (width <= String.length s)%nat
  /\ exists z, int v = Ok z
       /\ Spec.read_number 16 s = Some z
       /\ ParseExcelAccess.dec_to_hex_str v None = Ok (hex_of_int z)
       /\ Spec.read_number 16 (hex_of_int z) = Some z
       /\ s = zfill (hex_of_int z) width
       /\ (String.length (hex_of_int z) <= String.length s)%nat.
Proof.
  unfold ParseExcelAccess.dec_to_hex_str in *.
  destruct (int v) as [z|e] eqn:Ei; cbn [bind] in *; [|discriminate].
  injection Hs as <-.
  assert (Hf : zfill (hex_of_int z) width = format_X z width).
  { unfold format_X, hex_of_int. now rewrite (format_zero_zfill 16) by lia. }
  split.
  { unfold Test.to_hex. rewrite (int_ok_not_na _ _ Ei), Ei. cbn. now rewrite Hf. }
  split.
  { unfold Test2._to_hex.
    rewrite (int_ok_not_na _ _ Ei), (int_ok_not_blank _ _ Ei), Ei. cbn.
    now rewrite Hf. }
  split; [rewrite length_zfill; lia|].
  exists z. split; [reflexivity|].
  split.
  { rewrite Hf. apply (read_number_format_zero 16); lia. }
  split; [reflexivity|].
  split.
  { pose proof (read_number_format_zero 16 ltac:(lia) ltac:(lia) z 0) as H.
    rewrite (format_zero_zfill 16) in H by lia.
    rewrite zfill_ge in H by lia. exact H. }
  split; [reflexivity|]. rewrite length_zfill. lia.
Qed.

Lemma X20_witness :
  ParseExcelAccess.dec_to_hex_str (VStr " 20 ") (Some 4%nat) = Ok "0014"
  /\ Test.to_hex (VStr " 20 ") 4 = Ok "0014".
Proof.
  assert (H : ParseExcelAccess.dec_to_hex_str (VStr " 20 ") (Some 4%nat) = Ok "0014")
    by (vm_compute; reflexivity).
  split; [exact H|].
  exact (proj1 (X20_dec_to_hex_str_agrees_with_the_normalizers _ _ _ H)).
Defined.

Lemma frame_cons_cons x xs y ys :
  frame_of_series (x :: xs) (y :: ys) = (Some x, Some y) :: frame_of_series xs ys.
Proof.
  unfold frame_of_series. cbn [length Nat.max seq map]. f_equal.
  rewrite <- seq_shift, map_map. reflexivity.
Qed.

Lemma frame_cons_nil x xs :
  frame_of_series (x :: xs) [] = (Some x, None) :: frame_of_series xs [].
Proof.
  unfold frame_of_series. cbn [length Nat.max seq map]. f_equal.
  rewrite Nat.max_0_r, <- seq_shift, map_map. reflexivity.
Qed.

Lemma frame_nil_cons y ys :
  frame_of_series [] (y :: ys) = (None, Some y) :: frame_of_series [] ys.
Proof.
  unfold frame_of_series. cbn [length Nat.max seq map]. f_equal.
  rewrite <- seq_shift, map_map. reflexivity.
Qed.

(** X21. The frame that the two scripts save holds the two reported lists
    side by side and loses nothing: it has as many lines as the longer
    list, line [i] holds the [i]-th entry of each list, the entries present
    in the first column are the first list and those in the second column
    the second list, each in order, no line has both cells missing, and the
    frame has no line exactly when both lists are empty. *)
Theorem X21_saved_frame_is_lossless (r : report) :
  length (Test2.df_out r) = Nat.max (length (NGCI r)) (length (NSAI r))
  /\ (forall i, (i < Nat.max (length (NGCI r)) (length (NSAI r)))%nat ->
        Test2.df_out r !! i = Some (NGCI r !! i, NSAI r !! i))
  /\ omap fst (Test2.df_out r) = NGCI r
  /\ omap snd (Test2.df_out r) = NSAI r
  /\ ((None, None) ∉ Test2.df_out r)
  /\ (Test2.df_out r = [] <-> NGCI r = [] /\ NSAI r = [])
  /\ Test.df_out r = Test2.df_out r.
Proof.
  unfold Test2.df_out, Test.df_out. destruct r as [xs ys ? ? ? ? ?].
  cbn [NGCI NSAI].
  split; [unfold frame_of_series; now rewrite length_map, length_seq|].
  split.
  { intros i Hi. unfold frame_of_series. rewrite list_lookup_fmap.
    now rewrite lookup_seq_lt. }
  split.
  { revert ys. induction xs as [|x xs IH]; intros ys.
    - induction ys as [|y ys IHy]; [reflexivity|].
      rewrite frame_nil_cons. cbn [omap list_omap fst]. exact IHy.
    - destruct ys as [|y ys].
      + rewrite frame_cons_nil. cbn [omap list_omap fst]. f_equal. apply (IH []).
      + rewrite frame_cons_cons. cbn [omap list_omap fst]. f_equal. apply IH. }
  split.
  { revert xs. induction ys as [|y ys IH]; intros xs.
    - induction xs as [|x xs IHx]; [reflexivity|].
      rewrite frame_cons_nil. cbn [omap list_omap snd]. exact IHx.
    - destruct xs as [|x xs].
      + rewrite frame_nil_cons. cbn [omap list_omap snd]. f_equal. apply (IH []).
      + rewrite frame_cons_cons. cbn [omap list_omap snd]. f_equal. apply IH. }
  split.
  { unfold frame_of_series. intros (i & Hi & Hin)%list_elem_of_fmap.
    apply elem_of_seq in Hin as [_ Hin]. cbn in Hin.
    injection Hi as Hx Hy. symmetry in Hx, Hy.
    apply lookup_ge_None in Hx, Hy. lia. }
  split; [|reflexivity].
  split.
  - intros H. apply (f_equal length) in H. unfold frame_of_series in H.
    rewrite length_map, length_seq in H. cbn in H.
    split; apply nil_length_inv; lia.
  - now intros [-> ->].
Qed.

Lemma str_app_assoc a b c : (a +:+ b) +:+ c = a +:+ (b +:+ c).
Proof.
  induction a as [|x a IH]; [now rewrite !str_app_nil_l|].
  now rewrite !str_app_cons, IH.
Qed.

Lemma digits_fuel_acc f b n acc :
  digits_fuel f b n acc = digits_fuel f b n "" +:+ acc.
Proof.
  revert n acc. induction f as [|f IH]; intros n acc; cbn [digits_fuel].
  - now rewrite str_app_nil_l.
  - destruct (n / b =? 0)%N.
    + now rewrite str_app_cons, str_app_nil_l.
    + rewrite IH, (IH _ (String _ "")), str_app_assoc.
      now rewrite str_app_cons, str_app_nil_l.
Qed.

Lemma digits_fuel_enough b f f' n acc :
  (2 <= b)%N -> (n < b ^ N.of_nat (S f))%N -> (n < b ^ N.of_nat (S f'))%N ->
  digits_fuel (S f) b n acc = digits_fuel (S f') b n acc.
Proof.
  intros Hb. revert f' n acc. induction f as [|f IH]; intros f' n acc Hf Hf'.
  - cbn [digits_fuel]. change (N.of_nat 1) with 1%N in Hf. rewrite N.pow_1_r in Hf.
    rewrite (N.div_small n b) by assumption. reflexivity.
  - cbn [digits_fuel]. destruct (N.eqb_spec (n / b) 0) as [E|E]; [reflexivity|].
    fold (digits_fuel (S f) b (n / b) (String (digit_char (n mod b)) acc)).
    destruct f' as [|f'].
    { exfalso. apply E. apply N.div_small.
      change (N.of_nat 1) with 1%N in Hf'. now rewrite N.pow_1_r in Hf'. }
    fold (digits_fuel (S f') b (n / b) (String (digit_char (n mod b)) acc)).
    apply IH.
    + apply N.Div0.div_lt_upper_bound.
      replace (N.of_nat (S (S f))) with (N.succ (N.of_nat (S f))) in Hf by lia.
      now rewrite N.pow_succ_r' in Hf.
    + apply N.Div0.div_lt_upper_bound.
      replace (N.of_nat (S (S f'))) with (N.succ (N.of_nat (S f'))) in Hf' by lia.
      now rewrite N.pow_succ_r' in Hf'.
Qed.

Lemma lt_pow_log2 b n : (2 <= b)%N -> (n < b ^ N.of_nat (S (N.to_nat (N.log2 n))))%N.
Proof.
  intros Hb.
  replace (N.of_nat (S (N.to_nat (N.log2 n)))) with (N.succ (N.log2 n)) by lia.
  destruct (N.eq_dec n 0%N) as [->|Hn]; [cbn; lia|].
  eapply N.lt_le_trans; [apply N.log2_spec; lia|].
  apply N.pow_le_mono_l. lia.
Qed.

(** The digits of [b * c + d] are those of [c] followed by the digit [d]. *)
Lemma digits_of_snoc b c d :
  (2 <= b)%N -> (0 < c)%N -> (d < b)%N ->
  digits_of b (b * c + d) = digits_of b c +:+ String (digit_char d) "".
Proof.
  intros Hb Hc Hd. unfold digits_of at 1.
  cbn [digits_fuel].
  assert (Hq : ((b * c + d) / b = c)%N).
  { replace (b * c + d)%N with (c * b + d)%N by lia.
    rewrite N.div_add_l by lia. rewrite (N.div_small d b) by lia. lia. }
  assert (Hm : ((b * c + d) mod b = d)%N).
  { replace (b * c + d)%N with (d + c * b)%N by lia.
    rewrite N.Div0.mod_add. apply N.mod_small. lia. }
  rewrite Hq, Hm. destruct (N.eqb_spec c 0) as [E|_]; [lia|].
  rewrite digits_fuel_acc. f_equal. unfold digits_of.
  assert (Hlog : (N.log2 c < N.log2 (b * c + d))%N).
  { apply N.lt_le_trans with (N.log2 (2 * c)).
    - rewrite N.log2_double by lia. lia.
    - apply N.log2_le_mono. nia. }
  destruct (N.to_nat (N.log2 (b * c + d))) as [|F] eqn:EF; [lia|].
  apply digits_fuel_enough; [assumption| |apply lt_pow_log2; assumption].
  eapply N.lt_le_trans; [apply (lt_pow_log2 b c Hb)|].
  apply N.pow_le_mono_r; lia.
Qed.

(** X22. [main] of [parse_excel_access.py] asks for hex fields without a
    width, and then the combined identifier does not determine the row:
    for every [c > 0] and [0 < d < 16], a row with LAC [16 c + d] and CI
    [0] and a row with the same codes, LAC [c] and CI [16 d] are different
    rows with the same combined identifier. *)
Theorem X22_unpadded_identifiers_collide
    (series_zfill : string -> nat -> string) (wb : workbook)
    (g1 g2 : value) (more : list value) (a b : value) (c d : Z)
    (Hread : ParseExcelAccess.read_excel_column wb = Ok (g1 :: g2 :: more))
    (Hc : 0 < c) (Hd : 0 < d < 16) :
  exists line1 line2,
    ParseExcelAccess.main series_zfill wb
      [Row a b (VInt (16 * c + d)) (VInt 0); Row a b (VInt c) (VInt (16 * d))]
    = Ok [line1; line2]
    /\ ParseExcelAccess.source line1 <> ParseExcelAccess.source line2
    /\ ParseExcelAccess.combined line1 = ParseExcelAccess.combined line2.
Proof.
  unfold ParseExcelAccess.main. rewrite Hread. cbn [bind].
  unfold ParseExcelAccess.combine_dataframes, ParseExcelAccess.combined_column,
    ParseExcelAccess.dec_to_hex_str.
  cbn [mapM map lac ci mcc mnc int bind zip zip_with length Nat.min take].
  rewrite Nat.min_0_r. cbn [take zip_with].
  eexists _, _. split; [reflexivity|].
  cbn [ParseExcelAccess.source ParseExcelAccess.combined].
  split.
  { intros [= H1 H2]. lia. }
  do 2 f_equal. unfold hex_of_int, signed.
  destruct (Z.ltb_spec (16 * c + d) 0); [lia|].
  destruct (Z.ltb_spec c 0); [lia|].
  destruct (Z.ltb_spec (16 * d) 0); [lia|].
  destruct (Z.ltb_spec 0 0); [lia|].
  replace (Z.abs_N (16 * c + d)) with (16 * Z.abs_N c + Z.abs_N d)%N by lia.
  replace (Z.abs_N (16 * d)) with (16 * Z.abs_N d + 0)%N by lia.
  rewrite !digits_of_snoc by lia.
  rewrite str_app_assoc. f_equal.
  assert (Hsmall : digits_of 16 (Z.abs_N d) = String (digit_char (Z.abs_N d)) "").
  { unfold digits_of. cbn [digits_fuel].
    rewrite (N.div_small (Z.abs_N d) 16), (N.mod_small (Z.abs_N d) 16) by lia.
    reflexivity. }
  rewrite Hsmall. reflexivity.
Qed.

Lemma X22_witness :
  ParseExcelAccess.read_excel_column [("S", [("GSI", [VStr "x"; VStr "y"])])]
  = Ok [VStr "x"; VStr "y"]
  /\ exists line1 line2,
       ParseExcelAccess.main zfill [("S", [("GSI", [VStr "x"; VStr "y"])])]
         [Row (VInt 250) (VInt 1) (VInt (16 * 1 + 1)) (VInt 0);
          Row (VInt 250) (VInt 1) (VInt 1) (VInt (16 * 1))]
       = Ok [line1; line2]
       /\ ParseExcelAccess.source line1 <> ParseExcelAccess.source line2
       /\ ParseExcelAccess.combined line1 = ParseExcelAccess.combined line2.
Proof.
  assert (H : ParseExcelAccess.read_excel_column
                [("S", [("GSI", [VStr "x"; VStr "y"])])]
              = Ok [VStr "x"; VStr "y"]) by (vm_compute; reflexivity).
  split; [exact H|].
  apply (X22_unpadded_identifiers_collide zfill _ _ _ [] (VInt 250) (VInt 1) 1 1 H);
    lia.
Defined.

End Combiner.
